(** * gig-search-automation: the scraping, relevance and persistence pipeline

    A shallow embedding of the Python sources
    ([main.py], [job_scraper.py], [selenium_scraper.py], [resume_parser.py],
    [db_manager.py], [config.py]) and the properties of the design document
    that are settled on it.

    Conventions of the embedding.
    - A Python [str] is a [string] of ASCII text: [str.lower], the blanks
      and the classes of regular expressions are the ASCII ones, and a
      byte above 127 is an opaque character that is neither a letter, a
      digit nor a blank.
    - A job dictionary is a [gmap string string]: [d.get(k)] is [d !! k]
      and [d.get(k, "")] is [default "" (d !! k)].
    - Code that raises is modelled with an explicit result type; code that
      reads the clock, the network or the database takes what it reads as
      an argument or threads an explicit world. *)

From stdpp Require Import gmap strings list sorting pretty.
From Stdlib Require Import ZArith String Ascii Bool Lia.

Local Open Scope string_scope.
Local Open Scope Z_scope.

#[local] Arguments String.append _ _ : simpl nomatch.

(** ** Python string primitives *)

Module PyStr.

(** [c.lower()] on one ASCII character. *)
Definition lower_ascii (c : ascii) : ascii :=
  let n := nat_of_ascii c in
  if ((65 <=? n) && (n <=? 90))%nat then ascii_of_nat (n + 32) else c.

(** [s.lower()]. *)
Fixpoint lower (s : string) : string :=
  match s with
  | EmptyString => EmptyString
  | String c s' => String (lower_ascii c) (lower s')
  end.

(** [s.startswith(p)]. *)
Fixpoint startswith (p s : string) : bool :=
  match p, s with
  | EmptyString, _ => true
  | String _ _, EmptyString => false
  | String a p', String b s' => Ascii.eqb a b && startswith p' s'
  end.

(** [sub in s]: the substring test of Python. *)
Fixpoint contains (sub s : string) : bool :=
  startswith sub s ||
  match s with
  | EmptyString => false
  | String _ s' => contains sub s'
  end.

(** [s[:n]]: the slice from the start, for a non-negative [n]. *)
Fixpoint slice_to (n : nat) (s : string) : string :=
  match n, s with
  | O, _ => EmptyString
  | S _, EmptyString => EmptyString
  | S n', String c s' => String c (slice_to n' s')
  end.

(** [s[n:]]: the slice to the end, for a non-negative [n]. *)
Fixpoint slice_from (n : nat) (s : string) : string :=
  match n, s with
  | O, _ => s
  | S _, EmptyString => EmptyString
  | S n', String _ s' => slice_from n' s'
  end.

(** [sep.join(parts)]. *)
Fixpoint join (sep : string) (parts : list string) : string :=
  match parts with
  | [] => EmptyString
  | [p] => p
  | p :: rest => p ++ sep ++ join sep rest
  end.

(** [s.replace(",", "")]: every occurrence of one character removed. *)
Fixpoint remove_char (c : ascii) (s : string) : string :=
  match s with
  | EmptyString => EmptyString
  | String a s' =>
      if Ascii.eqb a c then remove_char c s' else String a (remove_char c s')
  end.

Definition code_between (lo hi : nat) (c : ascii) : bool :=
  let n := nat_of_ascii c in ((lo <=? n) && (n <=? hi))%nat.

(** The blanks of [str.strip] and of the class [\s]: space, [\t], [\n],
    [\v], [\f], [\r] and the four separators [\x1c] to [\x1f]. *)
Definition is_space (c : ascii) : bool :=
  (nat_of_ascii c =? 32)%nat || code_between 9 13 c || code_between 28 31 c.

Fixpoint lstrip (s : string) : string :=
  match s with
  | EmptyString => EmptyString
  | String c s' => if is_space c then lstrip s' else s
  end.

Fixpoint rstrip (s : string) : string :=
  match s with
  | EmptyString => EmptyString
  | String c s' =>
      match rstrip s' with
      | EmptyString => if is_space c then EmptyString else String c EmptyString
      | r => String c r
      end
  end.

(** [s.strip()] *)
Definition strip (s : string) : string := rstrip (lstrip s).

(** The declarative reading of the substring test. *)
Definition occurs_in (sub s : string) : Prop :=
  exists pre post : string, s = pre ++ sub ++ post.

(** The case-insensitive substring test of the design document. *)
Definition occurs_ci (term text : string) : Prop :=
  occurs_in (lower term) (lower text).

End PyStr.

Import PyStr.

(** ** Relevance filter ([main.py], [filter_and_process_job]) *)

(** The keyword dictionary built by the resume parser. *)
Record Keywords := mkKeywords {
  kw_skills : list string;
  kw_roles : list string;
  kw_preferences : list string
}.

(** What the filter reads from the clock:
    [datetime.date.today().isoformat()] and
    [datetime.datetime.now().isoformat()]. *)
Record Clock := mkClock {
  today_iso : string;
  now_iso : string
}.

(** The dictionary returned on acceptance. The first four entries are
    [job_data.get(k)], hence [None] when the key is absent. *)
Record ScoredJob := mkScoredJob {
  sj_title : option string;
  sj_company : option string;
  sj_location : option string;
  sj_url : option string;
  sj_description : string;
  sj_date_posted : string;
  sj_date_found : string;
  sj_relevance_score : Z
}.

Module Filter.

(** [job_data.get(k, "").lower()] *)
Definition field_lower (job_data : gmap string string) (k : string) : string :=
  lower (default "" (job_data !! k)).

Definition is_remote (job_data : gmap string string) : bool :=
  let title := field_lower job_data "title" in
  let location := field_lower job_data "location" in
  contains "remote" location
  || contains "work from home" title
  || contains "worldwide" location
  || contains "home office" location.

Definition international_company_keywords : list string :=
  ["global"; "international"; "inc."; "corp."].

Definition is_international_company (job_data : gmap string string) : bool :=
  let company := field_lower job_data "company" in
  let description := field_lower job_data "description" in
  existsb (fun keyword => contains keyword company)
          international_company_keywords
  || contains "global" description
  || contains "international" description
  || contains "worldwide" description.

Definition ngo_keywords : list string :=
  ["ngo"; "non-profit"; "foundation"; "charity"; "united nations"; "wfp"].

Definition is_ngo (job_data : gmap string string) : bool :=
  let company := field_lower job_data "company" in
  let description := field_lower job_data "description" in
  existsb (fun keyword => contains keyword company || contains keyword description)
          ngo_keywords.

Definition role_match (job_data : gmap string string) (resume_keywords : Keywords) : bool :=
  let title := field_lower job_data "title" in
  let description := field_lower job_data "description" in
  existsb (fun role => contains (lower role) title || contains (lower role) description)
          (kw_roles resume_keywords).

(** The generator condition of [skills_match_count]. *)
Definition skill_matches (job_data : gmap string string) (skill : string) : bool :=
  let title := field_lower job_data "title" in
  let description := field_lower job_data "description" in
  contains (lower skill) description || contains (lower skill) title.

(** [sum(1 for skill in resume_keywords["skills"] if ...)] *)
Definition skills_match_count (job_data : gmap string string) (resume_keywords : Keywords) : Z :=
  fold_right Z.add 0
    (map (fun _ => 1) (List.filter (skill_matches job_data)
                                   (kw_skills resume_keywords))).

Definition has_sufficient_skills (MIN_SKILL_MATCHES : Z)
    (job_data : gmap string string) (resume_keywords : Keywords) : bool :=
  MIN_SKILL_MATCHES <=? skills_match_count job_data resume_keywords.

Definition is_relevant (MIN_SKILL_MATCHES : Z)
    (job_data : gmap string string) (resume_keywords : Keywords) : bool :=
  (is_remote job_data && role_match job_data resume_keywords
     && has_sufficient_skills MIN_SKILL_MATCHES job_data resume_keywords)
  && (is_international_company job_data || is_ngo job_data).

Definition relevance_score_of (count : Z) (ngo international : bool) : Z :=
  count + (if ngo then 2 else 0) + (if international then 1 else 0).

Definition filter_and_process_job (MIN_SKILL_MATCHES : Z) (clock : Clock)
    (job_data : gmap string string) (resume_keywords : Keywords) : option ScoredJob :=
  let description := field_lower job_data "description" in
  if is_relevant MIN_SKILL_MATCHES job_data resume_keywords then
    let relevance_score :=
      relevance_score_of (skills_match_count job_data resume_keywords)
                         (is_ngo job_data) (is_international_company job_data) in
    Some {| sj_title := job_data !! "title";
            sj_company := job_data !! "company";
            sj_location := job_data !! "location";
            sj_url := job_data !! "url";
            sj_description := description;
            sj_date_posted := default (today_iso clock) (job_data !! "date_posted");
            sj_date_found := now_iso clock;
            sj_relevance_score := relevance_score |}
  else None.

End Filter.

(** ** Regular expressions ([re.search], [re.match])

    A backtracking matcher for the fragment the scrapers use: character
    classes, greedy bounded repetition of a class, sequence, ordered
    alternation and capture groups. Alternatives are tried in order and
    repetitions give back characters one at a time, as the engine of
    Python does. The classes [\d], [\s] and [\w] are the ASCII ones. *)

Module Regex.

Inductive Re : Type :=
| Eps : Re
| Cls : (ascii -> bool) -> Re
| Rep : (ascii -> bool) -> nat -> option nat -> Re
| Seq : Re -> Re -> Re
| Alt : Re -> Re -> Re
| Grp : string -> Re -> Re.

(** [\d] *)
Definition is_digit (c : ascii) : bool := code_between 48 57 c.

(** [\w] *)
Definition is_word (c : ascii) : bool :=
  is_digit c || code_between 65 90 c || code_between 97 122 c
  || (nat_of_ascii c =? 95)%nat.

(** One literal character; under [re.IGNORECASE] both cases match. *)
Definition chr (ignorecase : bool) (c : ascii) : Re :=
  if ignorecase
  then Cls (fun x => Ascii.eqb (lower_ascii x) (lower_ascii c))
  else Cls (Ascii.eqb c).

Fixpoint lit (ignorecase : bool) (s : string) : Re :=
  match s with
  | EmptyString => Eps
  | String c s' => Seq (chr ignorecase c) (lit ignorecase s')
  end.

Fixpoint alts (rs : list Re) : Re :=
  match rs with
  | [] => Cls (fun _ => false)
  | [r] => r
  | r :: rest => Alt r (alts rest)
  end.

(** Length of the longest prefix of [s] made of characters of class [p],
    not exceeding [limit] when there is one. *)
Fixpoint run_length (p : ascii -> bool) (limit : option nat) (s : string) : nat :=
  match limit, s with
  | Some O, _ => O
  | _, EmptyString => O
  | _, String c s' =>
      if p c then S (run_length p (Nat.pred <$> limit) s') else O
  end.

(** Greedy repetition: try [n], then [n-1], ... down to [lo]. *)
Fixpoint give_back {X : Type} (lo n : nat) (s : string)
    (k : string -> option X) : option X :=
  match k (slice_from n s) with
  | Some x => Some x
  | None =>
      match n with
      | O => None
      | S n' => if (lo <=? n')%nat then give_back lo n' s k else None
      end
  end.

(** Captures are association lists from group name to matched text. *)
Fixpoint rmatch {X : Type} (r : Re) (s : string) (caps : list (string * string))
    (k : string -> list (string * string) -> option X) : option X :=
  match r with
  | Eps => k s caps
  | Cls p =>
      match s with
      | String c s' => if p c then k s' caps else None
      | EmptyString => None
      end
  | Rep p lo hi =>
      let n := run_length p hi s in
      if (lo <=? n)%nat then give_back lo n s (fun rest => k rest caps) else None
  | Seq a b => rmatch a s caps (fun s1 c1 => rmatch b s1 c1 k)
  | Alt a b =>
      match rmatch a s caps k with
      | Some x => Some x
      | None => rmatch b s caps k
      end
  | Grp name a =>
      rmatch a s caps
        (fun s1 c1 =>
           k s1 ((name, slice_to (String.length s - String.length s1) s) :: c1))
  end.

(** [re.match(r, s)]: anchored at the start; the result is what is left
    of [s] after the match, and the captures. *)
Definition re_match (r : Re) (s : string) : option (string * list (string * string)) :=
  rmatch r s [] (fun rest caps => Some (rest, caps)).

(** [re.search(r, s)]: the leftmost start position that matches. *)
Fixpoint re_search (r : Re) (s : string) : option (string * list (string * string)) :=
  match re_match r s with
  | Some m => Some m
  | None =>
      match s with
      | EmptyString => None
      | String _ s' => re_search r s'
      end
  end.

(** [m.group(name)] *)
Fixpoint group (name : string) (caps : list (string * string)) : option string :=
  match caps with
  | [] => None
  | (n, v) :: rest => if String.eqb n name then Some v else group name rest
  end.

(** [int(text)] for a text of decimal digits, possibly after blanks. *)
Definition int_of_digits (text : string) : Z :=
  fold_left (fun acc c =>
               if is_digit c then acc * 10 + Z.of_nat (nat_of_ascii c - 48) else acc)
            (list_ascii_of_string text) 0.

End Regex.

(** ** The calendar ([datetime.date], [datetime.timedelta], [strptime])

    The library side of the date handling, following the reference
    implementation of the [datetime] and [_strptime] modules for the
    directives the scrapers use ([%B], [%d], [%Y]) in the C locale. *)

Module Datetime.

Import Regex.

Record date := mkDate { year : Z; month : Z; day : Z }.

Definition MAXORDINAL : Z := 3652059.

Definition is_leap (y : Z) : bool :=
  (y mod 4 =? 0) && (negb (y mod 100 =? 0) || (y mod 400 =? 0)).

Definition DAYS_IN_MONTH : list Z := [31; 28; 31; 30; 31; 30; 31; 31; 30; 31; 30; 31].

Definition DAYS_BEFORE_MONTH : list Z :=
  [0; 31; 59; 90; 120; 151; 181; 212; 243; 273; 304; 334].

Definition days_in_month (y m : Z) : Z :=
  if (m =? 2) && is_leap y then 29
  else nth (Z.to_nat (m - 1)) DAYS_IN_MONTH 0.

Definition days_before_year (y : Z) : Z :=
  let y' := y - 1 in y' * 365 + y' / 4 - y' / 100 + y' / 400.

Definition days_before_month (y m : Z) : Z :=
  nth (Z.to_nat (m - 1)) DAYS_BEFORE_MONTH 0
  + (if (2 <? m) && is_leap y then 1 else 0).

(** [datetime.date(y, m, d)]; [None] stands for [ValueError]. *)
Definition date_new (y m d : Z) : option date :=
  if (1 <=? y) && (y <=? 9999) && (1 <=? m) && (m <=? 12)
     && (1 <=? d) && (d <=? days_in_month y m)
  then Some (mkDate y m d) else None.

Definition toordinal (dt : date) : Z :=
  days_before_year (year dt) + days_before_month (year dt) (month dt) + day dt.

Definition fromordinal (n : Z) : date :=
  let n := n - 1 in
  let n400 := n / 146097 in
  let n := n mod 146097 in
  let y := n400 * 400 + 1 in
  let n100 := n / 36524 in
  let n := n mod 36524 in
  let n4 := n / 1461 in
  let n := n mod 1461 in
  let n1 := n / 365 in
  let n := n mod 365 in
  let y := y + n100 * 100 + n4 * 4 + n1 in
  if (n1 =? 4) || (n100 =? 4) then mkDate (y - 1) 12 31
  else
    let leapyear := (n1 =? 3) && (negb (n4 =? 24) || (n100 =? 3)) in
    let m := Z.shiftr (n + 50) 5 in
    let preceding :=
      nth (Z.to_nat (m - 1)) DAYS_BEFORE_MONTH 0
      + (if (2 <? m) && leapyear then 1 else 0) in
    if n <? preceding then
      let m' := m - 1 in
      let preceding' :=
        preceding - (nth (Z.to_nat (m' - 1)) DAYS_IN_MONTH 0
                     + (if (m' =? 2) && leapyear then 1 else 0)) in
      mkDate y m' (n - preceding' + 1)
    else mkDate y m (n - preceding + 1).

(** [dt - datetime.timedelta(days=n)]; [None] stands for [OverflowError]
    (a [timedelta] beyond 999999999 days, or a result before year 1 or
    after year 9999). *)
Definition minus_days (dt : date) (n : Z) : option date :=
  let o := toordinal dt - n in
  if (Z.abs n <=? 999999999) && (0 <? o) && (o <=? MAXORDINAL)
  then Some (fromordinal o) else None.

Definition digit_char (d : Z) : ascii := ascii_of_nat (48 + Z.to_nat (d mod 10)).

(** ["%02d" % n] and ["%04d" % n] for [0 <= n]. *)
Definition pad2 (n : Z) : string :=
  String (digit_char (n / 10)) (String (digit_char n) EmptyString).

Definition pad4 (n : Z) : string :=
  String (digit_char (n / 1000)) (String (digit_char (n / 100)) (pad2 n)).

(** [dt.isoformat()] *)
Definition isoformat (dt : date) : string :=
  pad4 (year dt) ++ "-" ++ pad2 (month dt) ++ "-" ++ pad2 (day dt).

Definition month_names : list string :=
  ["january"; "february"; "march"; "april"; "may"; "june"; "july";
   "august"; "september"; "october"; "november"; "december"].

(** The regular expression of one directive. *)
Definition directive (d : ascii) : option Re :=
  if Ascii.eqb d "B" then
    Some (Grp "B" (alts (map (lit true) month_names)))
  else if Ascii.eqb d "d" then
    Some (Grp "d" (alts
      [ Seq (chr true "3") (Cls (code_between 48 49));
        Seq (Cls (code_between 49 50)) (Cls is_digit);
        Seq (chr true "0") (Cls (code_between 49 57));
        Cls (code_between 49 57);
        Seq (chr true " ") (Cls (code_between 49 57)) ]))
  else if Ascii.eqb d "Y" then
    Some (Grp "Y" (Seq (Cls is_digit) (Seq (Cls is_digit)
                     (Seq (Cls is_digit) (Cls is_digit)))))
  else None.

(** The regular expression of a format: a run of blanks becomes [\s+],
    a directive its expression, any other character itself. *)
Fixpoint format_regex (after_blank : bool) (fmt : string) : option Re :=
  match fmt with
  | EmptyString => Some Eps
  | String c rest =>
      if Ascii.eqb c "%" then
        match rest with
        | EmptyString => None
        | String d rest' =>
            match directive d, format_regex false rest' with
            | Some r, Some r' => Some (Seq r r')
            | _, _ => None
            end
        end
      else if is_space c then
        if after_blank then format_regex true rest
        else Seq (Rep is_space 1 None) <$> format_regex true rest
      else Seq (chr true c) <$> format_regex false rest
  end.

(** Position (from 1) of a month name. *)
Fixpoint month_index (name : string) (names : list string) (i : Z) : option Z :=
  match names with
  | [] => None
  | n :: rest => if String.eqb n name then Some i else month_index name rest (i + 1)
  end.

(** [datetime.datetime.strptime(data_string, fmt).date()]; [None] stands
    for [ValueError]: no match, unconverted data, or an impossible date.
    A missing directive defaults to 1900-01-01 field by field. *)
Definition strptime (data_string fmt : string) : option date :=
  match format_regex false fmt with
  | None => None
  | Some r =>
      match re_match r data_string with
      | Some (EmptyString, found) =>
          let y := default 1900 (int_of_digits <$> group "Y" found) in
          let d := default 1 (int_of_digits <$> group "d" found) in
          match group "B" found with
          | Some b =>
              match month_index (lower b) month_names 1 with
              | Some m => date_new y m d
              | None => None
              end
          | None => date_new y 1 d
          end
      | _ => None
      end
  end.

End Datetime.

Import Datetime.

(** ** Exceptions and results *)

Inductive Exn : Type :=
| RequestException
| WebDriverException
| TimeoutException
| NoSuchElementException
| ValueError
| OverflowError
| OperationalError
| IntegrityError
| OtherException.

(** [TimeoutException] and [NoSuchElementException] derive from
    [WebDriverException]. *)
Definition is_webdriver_exception (e : Exn) : bool :=
  match e with
  | WebDriverException | TimeoutException | NoSuchElementException => true
  | _ => false
  end.

Inductive Outcome (A : Type) : Type :=
| Returned : A -> Outcome A
| Raised : Exn -> Outcome A.

Arguments Returned {A} _.
Arguments Raised {A} _.

(** The browser session handed around by [main]. *)
Inductive Driver : Type := ChromeDriver.

(** ** What the scrapers see of the outside world

    A fetched and parsed page is represented by what the selectors of
    the scrapers return on it; texts are the [get_text(strip=True)] (or
    [.text.strip()]) of the elements found, in document order. *)

(** A job-detail page parsed by BeautifulSoup. *)
Record DetailSoup := mkDetailSoup {
  (** [select_one("#job-description-text, ...")], as
      [get_text(separator="\n", strip=True)] *)
  ds_description_div : option string;
  (** [find_all(["div","p","li","span"], class_=...)] *)
  ds_class_elements : list string;
  (** [find_all(["div","p","li"])] *)
  ds_broad_elements : list string
}.

(** A job-detail page seen through the WebDriver API. *)
Record DriverPage := mkDriverPage {
  (** [find_elements(".job-description-content, ...")] *)
  dp_site_elements : list string;
  (** [find_element(".wd-main-content, #main-content")] *)
  dp_main_content : Outcome string;
  (** [find_element("body")] *)
  dp_body : Outcome string
}.

(** A card of the unjobs.org listing. An anchor is its text and its
    [href] attribute, when it has one. *)
Record UnjobsCard := mkUnjobsCard {
  uc_title_tag : option (string * option string);
  uc_company_tag : option string;
  uc_location_tag : option string;
  uc_date_tag : option string
}.

(** A row of the careers.un.org listing. *)
Record CareersRow := mkCareersRow {
  cr_title_tag : option (string * option string);
  cr_location_tag : option string;
  cr_date_str_tag : option string
}.

Record Env := mkEnv {
  (** [requests.get(job_url)], [raise_for_status], [BeautifulSoup] *)
  env_detail_soup : string -> Outcome DetailSoup;
  (** [driver.get(job_url)], the wait, [BeautifulSoup(driver.page_source)] *)
  env_rendered_soup : string -> Outcome DetailSoup;
  (** [driver.get(job_url)] and the wait for [body] *)
  env_driver_page : string -> Outcome DriverPage;
  (** the cards of the unjobs.org listing for a query (after the
      fallback selector) *)
  env_unjobs_listing : string -> Outcome (list UnjobsCard);
  (** the [href] of the apply link of a vacancy page, [None] when no
      link with an [href] is found *)
  env_unjobs_vacancy : string -> Outcome (option string);
  (** the rows of the careers.un.org listing (after the fallback) *)
  env_careers_listing : Outcome (list CareersRow);
  (** [datetime.date.today()] *)
  env_today : date;
  (** [webdriver.Chrome(...)] *)
  env_chrome : Outcome Driver;
  (** [os.path.exists(pdf_path)] *)
  env_resume_exists : string -> bool;
  (** [extract_text(pdf_path)] of pdfminer *)
  env_extract_text : string -> Outcome string;
  (** the order in which [list(set(xs))] enumerates the set *)
  env_list_of_set : list string -> list string;
  (** the clock reading of the filter at a given point of the run *)
  env_clock : nat -> Clock
}.

(** ** Description extraction and the requests-based adapters
    ([job_scraper.py]) *)

Module JobScraper.

Import Regex.

Definition MAX_DESCRIPTION : nat := Z.to_nat 5000.

(** [not job_url or job_url == "N/A"] *)
Definition no_url (job_url : option string) : bool :=
  match job_url with
  | None => true
  | Some u => String.eqb u "" || String.eqb u "N/A"
  end.

Definition nonempty (s : string) : bool := negb (String.eqb s "").

(** The generic strategy shared by the two fetchers of this module. *)
Definition generic_description (soup : DetailSoup) : string :=
  let description_elements :=
    match ds_class_elements soup with
    | [] => ds_broad_elements soup
    | elems => elems
    end in
  let description_text := join " " (List.filter nonempty description_elements) in
  slice_to MAX_DESCRIPTION description_text.

Definition fetch_full_description_selenium (env : Env)
    (driver : option Driver) (job_url : option string) : string :=
  match driver with
  | None => "N/A (Selenium driver not available)"
  | Some _ =>
      if no_url job_url then "No URL provided."
      else
        match env_rendered_soup env (default "" job_url) with
        | Returned soup => generic_description soup
        | Raised _ => "N/A (Could not fetch full description via Selenium)"
        end
  end.

Definition fetch_full_description_requests (env : Env)
    (job_url : option string) : string :=
  if no_url job_url then "No URL provided."
  else
    match env_detail_soup env (default "" job_url) with
    | Returned soup =>
        match ds_description_div soup with
        | Some text => slice_to MAX_DESCRIPTION text
        | None => generic_description soup
        end
    | Raised _ => "N/A (Could not fetch full description via requests)"
    end.

(** [\s+days?\s+ago] with [re.IGNORECASE] *)
Definition days_ago_tail : Re :=
  Seq (Rep is_space 1 None)
 (Seq (lit true "day")
 (Seq (Rep (fun x => Ascii.eqb (lower_ascii x) "s") 0 (Some 1%nat))
 (Seq (Rep is_space 1 None)
      (lit true "ago")))).

(** [(\d+)\s+days?\s+ago] with [re.IGNORECASE] *)
Definition days_ago_re : Re :=
  Seq (Grp "1" (Rep is_digit 1 None)) days_ago_tail.

(** [\s+\w+\s+\d{4}] *)
Definition date_range_tail : Re :=
  Seq (Rep is_space 1 None)
 (Seq (Rep is_word 1 None)
 (Seq (Rep is_space 1 None)
      (Rep is_digit 4 (Some 4%nat)))).

(** [(\d{1,2}\s+\w+\s+\d{4})] *)
Definition date_range_re : Re :=
  Grp "1" (Seq (Rep is_digit 1 (Some 2%nat)) date_range_tail).

(** The date block of [scrape_unjobs_org]. The subtraction is the one
    step that can raise; the handler of the card loop then drops the
    card. *)
Definition unjobs_date_posted (today : date) (date_tag : option string)
    : Outcome string :=
  let date_posted := isoformat today in
  match date_tag with
  | None => Returned date_posted
  | Some date_posted_str =>
      if nonempty date_posted_str then
        match re_search days_ago_re date_posted_str with
        | Some (_, groups) =>
            let days_ago := int_of_digits (default "" (group "1" groups)) in
            match minus_days today days_ago with
            | Some d => Returned (isoformat d)
            | None => Raised OverflowError
            end
        | None =>
            match strptime (remove_char "," date_posted_str) "%B %d %Y" with
            | Some date_obj => Returned (isoformat date_obj)
            | None =>
                match strptime date_posted_str "%d %B %Y" with
                | Some date_obj => Returned (isoformat date_obj)
                | None => Returned date_posted
                end
            end
        end
      else Returned date_posted
  end.

(** The date block of [scrape_careers_un_org]. *)
Definition careers_date_posted (today : date) (date_str_tag : option string)
    : string :=
  let date_posted := isoformat today in
  match date_str_tag with
  | None => date_posted
  | Some date_posted_str =>
      if nonempty date_posted_str then
        match re_match date_range_re date_posted_str with
        | Some (_, groups) =>
            match strptime (default "" (group "1" groups)) "%d %B %Y" with
            | Some date_obj => isoformat date_obj
            | None => date_posted
            end
        | None => date_posted
        end
      else date_posted
  end.

(** The dictionary literal of a job record. *)
Definition job_record (title company location url description date_posted : string)
    : gmap string string :=
  list_to_map [("title", title); ("company", company); ("location", location);
               ("url", url); ("description", description);
               ("date_posted", date_posted)].

Definition UNJOBS_DESCRIPTION : string :=
  "Aggregator listing - refer to external URL for full details.".

Definition get_unjobs_application_url (env : Env) (vacancy_page_url : string)
    : string :=
  if String.eqb vacancy_page_url ""
     || negb (contains "unjobs.org/vacancies" vacancy_page_url)
  then "N/A"
  else
    match env_unjobs_vacancy env vacancy_page_url with
    | Returned (Some href) => strip href
    | Returned None => "N/A"
    | Raised _ => "N/A"
    end.

(** The body of the card loop of [scrape_unjobs_org]. *)
Definition unjobs_card (env : Env) (card : UnjobsCard)
    : Outcome (gmap string string) :=
  let title :=
    match uc_title_tag card with Some (text, _) => text | None => "N/A" end in
  let unjobs_vacancy_url :=
    match uc_title_tag card with Some (_, Some href) => href | _ => "N/A" end in
  let unjobs_vacancy_url :=
    if startswith "/" unjobs_vacancy_url
    then "https://unjobs.org" ++ unjobs_vacancy_url
    else unjobs_vacancy_url in
  let company := default "N/A" (uc_company_tag card) in
  let location := default "N/A" (uc_location_tag card) in
  match unjobs_date_posted (env_today env) (uc_date_tag card) with
  | Raised e => Raised e
  | Returned date_posted =>
      let actual_application_url :=
        get_unjobs_application_url env unjobs_vacancy_url in
      Returned (job_record title company location actual_application_url
                           UNJOBS_DESCRIPTION date_posted)
  end.

(** The card loop: a card whose body raises is skipped. *)
Fixpoint unjobs_cards (env : Env) (job_cards : list UnjobsCard)
    : list (gmap string string) :=
  match job_cards with
  | [] => []
  | card :: rest =>
      match unjobs_card env card with
      | Returned job => job :: unjobs_cards env rest
      | Raised _ => unjobs_cards env rest
      end
  end.

Definition scrape_unjobs_org (env : Env) (query : string)
    : list (gmap string string) :=
  match env_unjobs_listing env query with
  | Returned job_cards => unjobs_cards env job_cards
  | Raised _ => []
  end.

(** The body of the row loop of [scrape_careers_un_org]. *)
Definition careers_row (env : Env) (row : CareersRow) : gmap string string :=
  let title :=
    match cr_title_tag row with Some (text, _) => text | None => "N/A" end in
  let job_url :=
    match cr_title_tag row with
    | Some (_, Some href) => "https://careers.un.org" ++ href
    | _ => "N/A"
    end in
  let company := "United Nations" in
  let location := default "N/A" (cr_location_tag row) in
  let date_posted := careers_date_posted (env_today env) (cr_date_str_tag row) in
  let description := fetch_full_description_requests env (Some job_url) in
  job_record title company location job_url description date_posted.

Definition scrape_careers_un_org (env : Env) : list (gmap string string) :=
  match env_careers_listing env with
  | Returned job_rows => map (careers_row env) job_rows
  | Raised _ => []
  end.

Definition scrape_linkedin_jobs : list (gmap string string) := [].

End JobScraper.

(** ** The WebDriver side ([selenium_scraper.py]) *)

Module SeleniumScraper.

Definition get_selenium_driver (env : Env) : Outcome (option Driver) :=
  match env_chrome env with
  | Returned driver => Returned (Some driver)
  | Raised e =>
      if is_webdriver_exception e then Returned None else Raised e
  end.

Definition SENTINEL : string :=
  "N/A (Could not fetch full description via Selenium)".

Definition fetch_full_description_selenium (env : Env)
    (driver : option Driver) (job_url : option string) : string :=
  match driver with
  | None => "No Selenium driver available."
  | Some _ =>
      if JobScraper.no_url job_url then "No URL provided."
      else
        match env_driver_page env (default "" job_url) with
        | Returned page =>
            match dp_site_elements page with
            | [] =>
                match dp_main_content page with
                | Returned text => slice_to JobScraper.MAX_DESCRIPTION text
                | Raised NoSuchElementException =>
                    match dp_body page with
                    | Returned text => slice_to JobScraper.MAX_DESCRIPTION text
                    | Raised _ => SENTINEL
                    end
                | Raised _ => SENTINEL
                end
            | description_elements =>
                slice_to JobScraper.MAX_DESCRIPTION (join " " description_elements)
            end
        | Raised _ => SENTINEL
        end
  end.

End SeleniumScraper.

(** ** Configuration ([config.py]) *)

Record Config := mkConfig {
  RESUME_PATH : string;
  SCRAPING_DELAY_SECONDS : Z;
  MIN_SKILL_MATCHES : Z
}.

Definition DEFAULT_SKILLS : list string :=
  ["python"; "django"; "flask"; "aws"; "docker"; "kubernetes"; "sql";
   "rest api"; "microservices"; "git"; "linux"; "cloud"; "api design"].

Definition DEFAULT_ROLES : list string :=
  ["software engineer"; "backend developer"; "software developer";
   "devops engineer"; "cloud engineer"].

Definition DEFAULT_PREFERENCES : list string :=
  ["remote"; "international"; "ngo"; "non-profit"; "worldwide"].

(** ** Keyword extraction ([resume_parser.py]) *)

Module ResumeParser.

(** [None] stands for the empty dictionary returned on failure. *)
Definition parse_resume_keywords (env : Env) (pdf_path : string)
    : option Keywords :=
  if negb (env_resume_exists env pdf_path) then None
  else
    match env_extract_text env pdf_path with
    | Raised _ => None
    | Returned text =>
        let text_lower := lower text in
        let extracted_skills :=
          List.filter (fun skill => contains skill text_lower) DEFAULT_SKILLS in
        let extracted_roles :=
          List.filter (fun role => contains role text_lower) DEFAULT_ROLES in
        Some {| kw_skills := env_list_of_set env extracted_skills;
                kw_roles := env_list_of_set env extracted_roles;
                kw_preferences := DEFAULT_PREFERENCES |}
    end.

(** The two platforms [main] asks for; both give a string. *)
Definition create_search_query (keywords : Keywords) (platform_name : string)
    : string :=
  let role_terms := join " OR " (kw_roles keywords) in
  let skill_terms := join " OR " (kw_skills keywords) in
  let base_query := role_terms ++ " " ++ skill_terms in
  if String.eqb platform_name "wellfound" then
    join "+" (kw_roles keywords ++ kw_skills keywords)%list ++ "+remote"
  else if String.eqb platform_name "unjobs" || String.eqb platform_name "un_careers" then
    join " " (kw_roles keywords ++ kw_skills keywords
              ++ ["remote"; "ngo"; "united nations"])%list
  else base_query.

End ResumeParser.

(** ** The job store ([db_manager.py])

    The table [jobs] is the list of its rows in insertion order; the
    column [url] is [UNIQUE], and SQLite never counts two [NULL]s as
    equal. *)

Module DbManager.

Definition same_url (u : string) (row : ScoredJob) : bool :=
  match sj_url row with
  | Some v => String.eqb u v
  | None => false
  end.

(** [cursor.execute("INSERT INTO jobs ...")] *)
Definition execute_insert (job_data : ScoredJob) (table : list ScoredJob)
    : Outcome (list ScoredJob) :=
  match sj_url job_data with
  | Some u =>
      if existsb (same_url u) table then Raised IntegrityError
      else Returned (table ++ [job_data])%list
  | None => Returned (table ++ [job_data])%list
  end.

(** The result and the table afterwards. *)
Definition save_job_listing (job_data : ScoredJob) (table : list ScoredJob)
    : Outcome bool * list ScoredJob :=
  match execute_insert job_data table with
  | Returned table' => (Returned true, table')
  | Raised IntegrityError => (Returned false, table)
  | Raised e => (Raised e, table)
  end.

(** [{row[0] for row in cursor.fetchall()}] *)
Definition get_all_job_urls (table : list ScoredJob) : gset (option string) :=
  list_to_set (map sj_url table).

End DbManager.

(** ** The run ([job_scraper.scrape_all_jobs], [main.main])

    A run threads a world made of the job table and a log of what the
    run did; a step returns or raises. *)

Inductive Source : Type := Unjobs | CareersUN | Wellfound | LinkedIn.

Inductive Event : Type :=
| EvSetupDatabase
| EvDriverStarted
| EvDriverQuit
| EvScrape (source : Source)
| EvSleep (seconds : Z)
| EvFilter (job_data : gmap string string)
| EvSave (job_data : ScoredJob) (saved : bool)
| EvNotify (job_data : ScoredJob).

Record World := mkWorld {
  w_table : list ScoredJob;
  w_log : list Event
}.

Definition M (A : Type) : Type := World -> Outcome A * World.

Definition ret {A : Type} (a : A) : M A := fun w => (Returned a, w).

Definition raise {A : Type} (e : Exn) : M A := fun w => (Raised e, w).

Definition bind {A B : Type} (c : M A) (k : A -> M B) : M B :=
  fun w =>
    match c w with
    | (Returned a, w') => k a w'
    | (Raised e, w') => (Raised e, w')
    end.

(** [try: c  except Exception as e: h e] *)
Definition try_except {A : Type} (c : M A) (h : Exn -> M A) : M A :=
  fun w =>
    match c w with
    | (Returned a, w') => (Returned a, w')
    | (Raised e, w') => h e w'
    end.

Definition emit (ev : Event) : M unit :=
  fun w => (Returned tt, mkWorld (w_table w) (w_log w ++ [ev])%list).

Definition lift {A : Type} (o : Outcome A) : M A := fun w => (o, w).

Declare Scope run_scope.
Delimit Scope run_scope with run.
Notation "x <- c ;; k" := (bind c (fun x => k))
  (at level 100, c at next level, right associativity) : run_scope.
Notation "c ;; k" := (bind c (fun _ => k))
  (at level 100, right associativity) : run_scope.
Local Open Scope run_scope.

(** What each adapter does when it is called in this run. The unjobs.org
    and careers.un.org adapters are the ones of [JobScraper]; the
    Wellfound adapter is taken as it behaves. *)
Record AdapterRuns := mkAdapterRuns {
  run_unjobs_org : string -> Outcome (list (gmap string string));
  run_careers_un_org : Outcome (list (gmap string string));
  run_wellfound : option Driver -> string -> Outcome (list (gmap string string));
  run_linkedin_jobs : Outcome (list (gmap string string))
}.

(** The adapters as modelled from the sources. *)
Definition source_adapters (env : Env)
    (wellfound : option Driver -> string -> Outcome (list (gmap string string)))
    : AdapterRuns :=
  {| run_unjobs_org := fun query => Returned (JobScraper.scrape_unjobs_org env query);
     run_careers_un_org := Returned (JobScraper.scrape_careers_un_org env);
     run_wellfound := wellfound;
     run_linkedin_jobs := Returned JobScraper.scrape_linkedin_jobs |}.

Module Pipeline.

Definition call (source : Source) (o : Outcome (list (gmap string string)))
    : M (list (gmap string string)) :=
  emit (EvScrape source) ;; lift o.

Definition scrape_all_jobs (adapters : AdapterRuns) (driver : option Driver)
    (unjobs_query wellfound_query : string) : M (list (gmap string string)) :=
  let all_jobs := [] in
  unjobs_jobs <- call Unjobs (run_unjobs_org adapters unjobs_query) ;;
  let all_jobs := (all_jobs ++ unjobs_jobs)%list in
  careers_jobs <- call CareersUN (run_careers_un_org adapters) ;;
  let all_jobs := (all_jobs ++ careers_jobs)%list in
  wellfound_jobs <- call Wellfound (run_wellfound adapters driver wellfound_query) ;;
  let all_jobs := (all_jobs ++ wellfound_jobs)%list in
  linkedin_jobs <- call LinkedIn (run_linkedin_jobs adapters) ;;
  let all_jobs := (all_jobs ++ linkedin_jobs)%list in
  ret all_jobs.

(** [time.sleep(secs)] refuses a negative length. *)
Definition time_sleep (secs : Z) : M unit :=
  if secs <? 0 then raise ValueError else emit (EvSleep secs).

Definition get_selenium_driver (env : Env) : M (option Driver) :=
  match SeleniumScraper.get_selenium_driver env with
  | Returned (Some driver) => emit EvDriverStarted ;; ret (Some driver)
  | Returned None => ret None
  | Raised e => raise e
  end.

Definition save_job_listing (job_data : ScoredJob) : M bool :=
  fun w =>
    match DbManager.save_job_listing job_data (w_table w) with
    | (Returned saved, table') =>
        (Returned saved, mkWorld table' (w_log w ++ [EvSave job_data saved])%list)
    | (Raised e, table') => (Raised e, mkWorld table' (w_log w))
    end.

Definition get_all_job_urls : M (gset (option string)) :=
  fun w => (Returned (DbManager.get_all_job_urls (w_table w)), w).

(** The filter as [main] calls it: the call is logged and the clock is
    read at that point of the run. *)
Definition filter_and_process_job (cfg : Config) (env : Env)
    (job_data : gmap string string) (resume_keywords : Keywords)
    : M (option ScoredJob) :=
  fun w =>
    (Returned (Filter.filter_and_process_job (MIN_SKILL_MATCHES cfg)
                 (env_clock env (List.length (w_log w))) job_data resume_keywords),
     mkWorld (w_table w) (w_log w ++ [EvFilter job_data])%list).

(** Step 4 of [main]: the loop over the jobs of this run. *)
Fixpoint process_jobs (cfg : Config) (env : Env)
    (existing_job_urls : gset (option string)) (resume_keywords : Keywords)
    (all_jobs_found_this_run : list (gmap string string))
    (new_jobs_for_notification : list ScoredJob) : M (list ScoredJob) :=
  match all_jobs_found_this_run with
  | [] => ret new_jobs_for_notification
  | job_data :: rest =>
      if bool_decide (job_data !! "url" ∈ existing_job_urls) then
        process_jobs cfg env existing_job_urls resume_keywords rest
                     new_jobs_for_notification
      else
        filtered_job <- filter_and_process_job cfg env job_data resume_keywords ;;
        match filtered_job with
        | Some filtered =>
            save_job_listing filtered ;;
            process_jobs cfg env existing_job_urls resume_keywords rest
                         (new_jobs_for_notification ++ [filtered])%list
        | None =>
            process_jobs cfg env existing_job_urls resume_keywords rest
                         new_jobs_for_notification
        end
  end.

(** Step 5 of [main]. *)
Fixpoint send_notifications (new_jobs_for_notification : list ScoredJob) : M unit :=
  match new_jobs_for_notification with
  | [] => ret tt
  | job :: rest => emit (EvNotify job) ;; send_notifications rest
  end.

Definition main (cfg : Config) (env : Env) (adapters : AdapterRuns) : M unit :=
  emit EvSetupDatabase ;;
  match ResumeParser.parse_resume_keywords env (RESUME_PATH cfg) with
  | None => ret tt
  | Some resume_keywords =>
      existing_job_urls <- get_all_job_urls ;;
      driver <- try_except (get_selenium_driver env) (fun _ => ret None) ;;
      let unjobs_query :=
        ResumeParser.create_search_query resume_keywords "unjobs" in
      let wellfound_query :=
        ResumeParser.create_search_query resume_keywords "wellfound" in
      all_jobs_found_this_run <-
        scrape_all_jobs adapters driver unjobs_query wellfound_query ;;
      time_sleep (SCRAPING_DELAY_SECONDS cfg) ;;
      new_jobs_for_notification <-
        process_jobs cfg env existing_job_urls resume_keywords
                     all_jobs_found_this_run [] ;;
      send_notifications new_jobs_for_notification ;;
      match driver with
      | Some _ => emit EvDriverQuit
      | None => ret tt
      end
  end.

End Pipeline.

(** ** The design document, in its own words

    The definitions of this module follow the sentences of the design
    document; they are what the code above is compared with. *)

Module Spec.

(** A field of a job record. *)
Definition field (job : gmap string string) (k : string) : string :=
  default "" (job !! k).

Definition is_remote (job : gmap string string) : Prop :=
  occurs_ci "remote" (field job "location")
  \/ occurs_ci "worldwide" (field job "location")
  \/ occurs_ci "home office" (field job "location")
  \/ occurs_ci "work from home" (field job "title").

Definition role_match (job : gmap string string) (keywords : Keywords) : Prop :=
  exists role, role ∈ kw_roles keywords
    /\ (occurs_ci role (field job "title")
        \/ occurs_ci role (field job "description")).

Definition skill_occurs (job : gmap string string) (skill : string) : Prop :=
  occurs_ci skill (field job "title")
  \/ occurs_ci skill (field job "description").

(** [found] lists, without repetition, the skill terms of the resume
    that occur in the job. *)
Definition matched_skills (job : gmap string string) (keywords : Keywords)
    (found : list string) : Prop :=
  NoDup found
  /\ forall skill, skill ∈ found <-> skill ∈ kw_skills keywords /\ skill_occurs job skill.

Definition has_sufficient_skills (threshold : Z) (job : gmap string string)
    (keywords : Keywords) : Prop :=
  exists found, matched_skills job keywords found
    /\ threshold <= Z.of_nat (List.length found).

Definition is_international (job : gmap string string) : Prop :=
  (exists k, k ∈ ["global"; "international"; "inc."; "corp."]
     /\ occurs_ci k (field job "company"))
  \/ (exists k, k ∈ ["global"; "international"; "worldwide"]
     /\ occurs_ci k (field job "description")).

Definition is_ngo (job : gmap string string) : Prop :=
  exists k,
    k ∈ ["ngo"; "non-profit"; "foundation"; "charity"; "united nations"; "wfp"]
    /\ (occurs_ci k (field job "company")
        \/ occurs_ci k (field job "description")).

Definition accepts (threshold : Z) (job : gmap string string)
    (keywords : Keywords) : Prop :=
  is_remote job /\ role_match job keywords
  /\ has_sufficient_skills threshold job keywords
  /\ (is_international job \/ is_ngo job).

(** "A whole-adapter exception is ... treated as zero jobs from that
    source." *)
Definition jobs_or_none (o : Outcome (list (gmap string string)))
    : list (gmap string string) :=
  match o with
  | Returned jobs => jobs
  | Raised _ => []
  end.

(** The combined output of an Aggregator that isolates its sources. *)
Definition isolated_output (adapters : AdapterRuns) (driver : option Driver)
    (unjobs_query wellfound_query : string) : list (gmap string string) :=
  (jobs_or_none (run_unjobs_org adapters unjobs_query)
   ++ jobs_or_none (run_careers_un_org adapters)
   ++ jobs_or_none (run_wellfound adapters driver wellfound_query)
   ++ jobs_or_none (run_linkedin_jobs adapters))%list.

(** The date normalization policy: a relative form, else the two
    absolute formats in order, else the current date. "Month D Year" is
    read on the text without its commas, the usual way to write such a
    date being "Month D, Year". *)
Definition normalize_date (today : date) (posted : option string) : string :=
  match posted with
  | None => isoformat today
  | Some text =>
      match Regex.re_search JobScraper.days_ago_re text with
      | Some (_, groups) =>
          let n := Regex.int_of_digits (default "" (Regex.group "1" groups)) in
          isoformat (fromordinal (toordinal today - n))
      | None =>
          match strptime (remove_char "," text) "%B %d %Y" with
          | Some d => isoformat d
          | None =>
              match strptime text "%d %B %Y" with
              | Some d => isoformat d
              | None => isoformat today
              end
          end
      end
  end.

(** The driver is released in a run that started it. *)
Definition driver_released (events : list Event) : Prop :=
  EvDriverStarted ∈ events -> EvDriverQuit ∈ events.

End Spec.

(** ** Auxiliary notions for the statements *)

(** The two entries of an accepted record that are read from the clock:
    [date_found] always, [date_posted] when the job carries none. *)
Definition restamp (job_data : gmap string string) (clock : Clock)
    (scored : ScoredJob) : ScoredJob :=
  {| sj_title := sj_title scored;
     sj_company := sj_company scored;
     sj_location := sj_location scored;
     sj_url := sj_url scored;
     sj_description := sj_description scored;
     sj_date_posted := default (today_iso clock) (job_data !! "date_posted");
     sj_date_found := now_iso clock;
     sj_relevance_score := sj_relevance_score scored |}.

(** Steps 3 to 5 of [main], between the start of the driver and its
    release. *)
Definition run_steps (cfg : Config) (env : Env) (adapters : AdapterRuns)
    (existing_job_urls : gset (option string)) (resume_keywords : Keywords)
    (driver : option Driver) : M unit :=
  bind (Pipeline.scrape_all_jobs adapters driver
          (ResumeParser.create_search_query resume_keywords "unjobs")
          (ResumeParser.create_search_query resume_keywords "wellfound"))
    (fun all_jobs_found_this_run =>
  bind (Pipeline.time_sleep (SCRAPING_DELAY_SECONDS cfg)) (fun _ =>
  bind (Pipeline.process_jobs cfg env existing_job_urls resume_keywords
          all_jobs_found_this_run [])
       Pipeline.send_notifications)).

(** A text made of decimal digits. *)
Fixpoint digits_only (s : string) : bool :=
  match s with
  | EmptyString => true
  | String c s' => Regex.is_digit c && digits_only s'
  end.

(** The last step of [main]. *)
Definition release_driver (driver : option Driver) : M unit :=
  match driver with
  | Some _ => emit EvDriverQuit
  | None => ret tt
  end.

(** What a step leaves behind: the events it appends to the log and the
    rows it appends to the table. *)
Definition footprint {A : Type} (P : Event -> Prop) (Q : ScoredJob -> Prop)
    (c : M A) : Prop :=
  forall w, exists evs rows,
    w_log (c w).2 = (w_log w ++ evs)%list
    /\ w_table (c w).2 = (w_table w ++ rows)%list
    /\ Forall P evs /\ Forall Q rows.

(** The events of the steps between start and release of the driver in
    a run that found the URLs [existing] in the store: no job with a
    known URL is filtered or saved, and the driver is not touched. *)
Definition routine (existing : gset (option string)) (ev : Event) : Prop :=
  match ev with
  | EvDriverStarted | EvDriverQuit => False
  | EvFilter job_data => job_data !! "url" ∉ existing
  | EvSave row _ => sj_url row ∉ existing
  | _ => True
  end.

Definition fresh_row (existing : gset (option string)) (row : ScoredJob) : Prop :=
  sj_url row ∉ existing.

(** ** Fixed examples of the design document *)

Definition example_job (location description : string) : gmap string string :=
  list_to_map [("title", "Backend Developer"); ("location", location);
               ("company", "Acme Global Inc."); ("description", description)].

Definition example_keywords : Keywords :=
  {| kw_skills := ["python"; "django"; "aws"];
     kw_roles := ["backend developer"];
     kw_preferences := DEFAULT_PREFERENCES |}.

Definition example_clock : Clock :=
  {| today_iso := "2026-11-03"; now_iso := "2026-11-03T09:00:00.000000" |}.

Definition later_clock : Clock :=
  {| today_iso := "2026-11-03"; now_iso := "2026-11-03T09:00:01.000000" |}.

Definition charity_job : gmap string string :=
  list_to_map [("title", "Backend Developer"); ("location", "Remote");
               ("company", "Save Charity");
               ("description", "python django aws")].

Definition global_job : gmap string string :=
  list_to_map [("title", "Backend Developer"); ("location", "Remote");
               ("company", "Acme Global Inc.");
               ("description", "python flask aws")].

Definition flask_keywords : Keywords :=
  {| kw_skills := ["python"; "flask"; "aws"];
     kw_roles := ["backend developer"];
     kw_preferences := DEFAULT_PREFERENCES |}.

(** ** Sample runs *)

Definition job_a : gmap string string :=
  JobScraper.job_record "Backend Developer" "United Nations" "Remote"
    "https://example.org/a" "python django aws" "2026-11-01".

Definition job_b : gmap string string :=
  JobScraper.job_record "Cloud Engineer" "Acme Global Inc." "Remote"
    "https://example.org/b" "python aws" "2026-11-02".

(** Three sources answer; the Wellfound adapter raises. *)
Definition wellfound_down : AdapterRuns :=
  {| run_unjobs_org := fun _ => Returned [job_a];
     run_careers_un_org := Returned [job_b];
     run_wellfound := fun _ _ => Raised OtherException;
     run_linkedin_jobs := Returned [] |}.

Definition all_up : AdapterRuns :=
  {| run_unjobs_org := fun _ => Returned [job_a];
     run_careers_un_org := Returned [job_b];
     run_wellfound := fun _ _ => Returned [];
     run_linkedin_jobs := Returned [] |}.

Definition fresh_world : World := mkWorld [] [].

Definition sample_card : UnjobsCard :=
  {| uc_title_tag := Some ("Backend Developer", Some "/vacancies/1");
     uc_company_tag := Some "WFP";
     uc_location_tag := Some "Remote";
     uc_date_tag := Some "3 days ago" |}.

Definition sample_env : Env :=
  {| env_detail_soup := fun _ => Raised RequestException;
     env_rendered_soup := fun _ => Raised TimeoutException;
     env_driver_page := fun _ => Raised TimeoutException;
     env_unjobs_listing := fun _ => Returned [sample_card];
     env_unjobs_vacancy := fun _ => Returned (Some " https://apply.example.org/1 ");
     env_careers_listing := Returned [];
     env_today := mkDate 2026 11 3;
     env_chrome := Returned ChromeDriver;
     env_resume_exists := fun _ => true;
     env_extract_text := fun _ => Returned "Backend Developer. Python, Django, AWS.";
     env_list_of_set := remove_dups;
     env_clock := fun _ => example_clock |}.

Definition sample_config : Config :=
  {| RESUME_PATH := "resume.pdf"; SCRAPING_DELAY_SECONDS := 2; MIN_SKILL_MATCHES := 2 |}.

(** A configured delay below zero. *)
Definition negative_delay : Config :=
  {| RESUME_PATH := "resume.pdf"; SCRAPING_DELAY_SECONDS := -1; MIN_SKILL_MATCHES := 2 |}.

(** The row of a job accepted in an earlier run. *)
Definition known_row : ScoredJob :=
  {| sj_title := Some "Backend Developer";
     sj_company := Some "United Nations";
     sj_location := Some "Remote";
     sj_url := Some "https://example.org/a";
     sj_description := "python django aws";
     sj_date_posted := "2026-10-30";
     sj_date_found := "2026-10-31T09:00:00.000000";
     sj_relevance_score := 5 |}.

Definition known_world : World := mkWorld [known_row] [].

(** The record the unjobs.org adapter builds from [sample_card]. *)
Definition sample_unjobs_job : gmap string string :=
  JobScraper.job_record "Backend Developer" "WFP" "Remote"
    "https://apply.example.org/1" JobScraper.UNJOBS_DESCRIPTION "2026-10-31".

(** ** The Wellfound adapter ([job_scraper.py], [scrape_wellfound]) *)

(** A card of the Wellfound listing; the link of the card comes with its
    [href], when it has one. *)
Record WellfoundCard := mkWellfoundCard {
  wc_title_tag : option string;
  wc_company_tag : option string;
  wc_location_tag : option string;
  wc_job_url_tag : option (option string)
}.

(** A card of a listing read through the WebDriver API: what
    [find_element] and the reading of the element give for each of the
    three elements of the card, the text of the title and of the
    location, and the [href] attribute of the link ([None] when it has
    none). *)
Record DriverCard := mkDriverCard {
  dc_title_elem : Outcome string;
  dc_job_url_elem : Outcome (option string);
  dc_location_elem : Outcome string
}.

(** The listings of the rendered sites. *)
Record Web := mkWeb {
  (** [driver.get(full_url)], the pause and the card selectors of
      Wellfound, for a query *)
  web_wellfound_listing : string -> Outcome (list WellfoundCard);
  (** [driver.get(url)], the wait and [find_elements("li.job-card")],
      for the query parameters *)
  web_microsoft_listing : string -> Outcome (list DriverCard);
  (** the search of the Workday site for the keywords, the wait and
      [find_elements] of the cards *)
  web_wfp_listing : list string -> Outcome (list DriverCard)
}.

Module Wellfound.

(** The body of the card loop of [scrape_wellfound]. *)
Definition wellfound_card (env : Env) (driver : option Driver)
    (job_card : WellfoundCard) : gmap string string :=
  let title := default "N/A" (wc_title_tag job_card) in
  let company := default "N/A" (wc_company_tag job_card) in
  let location := default "N/A" (wc_location_tag job_card) in
  let job_url :=
    match wc_job_url_tag job_card with
    | Some (Some href) => "https://wellfound.com" ++ href
    | _ => "N/A"
    end in
  let description :=
    JobScraper.fetch_full_description_requests env (Some job_url) in
  let description :=
    if contains "N/A (Could not fetch" description then
      match driver with
      | Some _ =>
          JobScraper.fetch_full_description_selenium env driver (Some job_url)
      | None =>
          "N/A (Could not fetch description, Selenium driver not available for fallback)"
      end
    else description in
  JobScraper.job_record title company location job_url description
    (isoformat (env_today env)).

Definition scrape_wellfound (env : Env) (web : Web) (driver : option Driver)
    (query : string) : list (gmap string string) :=
  match driver with
  | None => []
  | Some _ =>
      match web_wellfound_listing web query with
      | Returned job_cards => map (wellfound_card env driver) job_cards
      | Raised _ => []
      end
  end.

End Wellfound.

(** ** The Microsoft and WFP adapters ([selenium_scraper.py]) *)

Module SeleniumAdapters.

(** The dictionary literal of these adapters. The URL is
    [get_attribute("href")], which may be [None]; an entry whose value
    is [None] is left out of the map, which [job_data.get("url")] cannot
    tell from the entry being there. *)
Definition driver_job_record (title company location : string)
    (job_url : option string) (description date_posted : string)
    : gmap string string :=
  match job_url with
  | Some url =>
      JobScraper.job_record title company location url description date_posted
  | None =>
      list_to_map [("title", title); ("company", company);
                   ("location", location); ("description", description);
                   ("date_posted", date_posted)]
  end.

(** The body of the card loop, the same in both adapters but for the
    company; [None] when a handler of the loop skips the card. *)
Definition driver_card (env : Env) (driver : option Driver) (company : string)
    (job_card : DriverCard) : option (gmap string string) :=
  match dc_title_elem job_card, dc_job_url_elem job_card,
        dc_location_elem job_card with
  | Returned title_text, Returned job_url, Returned location_text =>
      let title := strip title_text in
      let location := strip location_text in
      let description :=
        SeleniumScraper.fetch_full_description_selenium env driver job_url in
      Some (driver_job_record title company location job_url description
                              (isoformat (env_today env)))
  | _, _, _ => None
  end.

Fixpoint driver_cards (env : Env) (driver : option Driver) (company : string)
    (job_listings : list DriverCard) : list (gmap string string) :=
  match job_listings with
  | [] => []
  | job_card :: rest =>
      match driver_card env driver company job_card with
      | Some job => job :: driver_cards env driver company rest
      | None => driver_cards env driver company rest
      end
  end.

Definition scrape_microsoft_careers (env : Env) (web : Web)
    (driver : option Driver) (query_params : string)
    : list (gmap string string) :=
  match driver with
  | None => []
  | Some _ =>
      match web_microsoft_listing web query_params with
      | Returned job_listings => driver_cards env driver "Microsoft" job_listings
      | Raised _ => []
      end
  end.

Definition scrape_wfp_careers (env : Env) (web : Web)
    (driver : option Driver) (keywords : list string)
    : list (gmap string string) :=
  match driver with
  | None => []
  | Some _ =>
      match web_wfp_listing web keywords with
      | Returned job_listings =>
          driver_cards env driver "World Food Programme" job_listings
      | Raised _ => []
      end
  end.

End SeleniumAdapters.

(** The adapters [scrape_all_jobs] calls, all as modelled from the
    sources. *)
Definition scraped_adapters (env : Env) (web : Web) : AdapterRuns :=
  source_adapters env
    (fun driver query => Returned (Wellfound.scrape_wellfound env web driver query)).

(** ** Search queries ([resume_parser.py], [create_search_query]) *)

Module SearchQuery.

(** The function gives a string for every platform but "wfp", for which
    it gives a list. *)
Inductive Query : Type :=
| QueryString (text : string)
| QueryList (terms : list string).

Definition create_search_query (keywords : Keywords) (platform_name : string)
    : Query :=
  let role_terms := join " OR " (kw_roles keywords) in
  let skill_terms := join " OR " (kw_skills keywords) in
  let base_query := role_terms ++ " " ++ skill_terms in
  if String.eqb platform_name "wellfound" then
    QueryString
      (join "+" (kw_roles keywords ++ kw_skills keywords)%list ++ "+remote")
  else if String.eqb platform_name "microsoft" then
    let search_terms := join "%20" (kw_roles keywords ++ kw_skills keywords)%list in
    QueryString ("q=" ++ search_terms ++ "&lc=Nairobi%2C%20Nairobi%20City%2C%20Kenya")
  else if String.eqb platform_name "wfp" then
    QueryList (kw_roles keywords ++ kw_skills keywords ++ ["remote"])%list
  else if String.eqb platform_name "unjobs"
          || String.eqb platform_name "un_careers" then
    QueryString
      (join " " (kw_roles keywords ++ kw_skills keywords
                 ++ ["remote"; "ngo"; "united nations"])%list)
  else QueryString base_query.

(** A term is part of a query. *)
Definition mentions (query : Query) (term : string) : Prop :=
  match query with
  | QueryString text => occurs_in term text
  | QueryList terms => term ∈ terms
  end.

End SearchQuery.

(** ** Reading the store ([db_manager.py]) *)

Module DbQueries.

(** The rows as [SELECT *] gives them: the [id] column and the eight
    columns of the job. The ids are chosen by SQLite ([AUTOINCREMENT]
    promises that they grow, not that they are consecutive): [rowid i]
    is the id of the row inserted as the [i]-th. *)
Definition select_all (rowid : nat -> Z) (table : list ScoredJob)
    : list (Z * ScoredJob) :=
  imap (fun i job => (rowid i, job)) table.

(** [ORDER BY date_posted DESC, date_found DESC] on text columns: the
    row [r1] may come before [r2]. Texts compare byte by byte. *)
Definition newer_first (r1 r2 : Z * ScoredJob) : bool :=
  match String.compare (sj_date_posted r2.2) (sj_date_posted r1.2) with
  | Lt => true
  | Eq =>
      match String.compare (sj_date_found r2.2) (sj_date_found r1.2) with
      | Gt => false
      | _ => true
      end
  | Gt => false
  end.

(** [WHERE date_found > ?] *)
Definition found_after (timestamp_str : string) (r : Z * ScoredJob) : bool :=
  match String.compare timestamp_str (sj_date_found r.2) with
  | Lt => true
  | _ => false
  end.

Definition comes_first (r1 r2 : Z * ScoredJob) : Prop := newer_first r1 r2 = true.

Definition comes_first_dec (r1 r2 : Z * ScoredJob) : Decision (comes_first r1 r2) :=
  decide (newer_first r1 r2 = true).

(** The order of rows that tie on both columns is left open by SQL; a
    stable merge sort stands for it. *)
Definition get_jobs_found_since (rowid : nat -> Z) (timestamp_str : string)
    (table : list ScoredJob) : list (Z * ScoredJob) :=
  @merge_sort _ comes_first comes_first_dec
    (List.filter (found_after timestamp_str) (select_all rowid table)).

(** The dictionary [job_data_to_dict] builds from a row. *)
Record JobDict := mkJobDict {
  jd_id : Z;
  jd_title : option string;
  jd_company : option string;
  jd_location : option string;
  jd_url : option string;
  jd_description : string;
  jd_date_posted : string;
  jd_date_found : string;
  jd_relevance_score : Z
}.

Definition job_data_to_dict (job_tuple : Z * ScoredJob) : JobDict :=
  {| jd_id := job_tuple.1;
     jd_title := sj_title job_tuple.2;
     jd_company := sj_company job_tuple.2;
     jd_location := sj_location job_tuple.2;
     jd_url := sj_url job_tuple.2;
     jd_description := sj_description job_tuple.2;
     jd_date_posted := sj_date_posted job_tuple.2;
     jd_date_found := sj_date_found job_tuple.2;
     jd_relevance_score := sj_relevance_score job_tuple.2 |}.


End DbQueries.

(** ** The digest mail ([notification_manager.py]) *)

Module NotificationManager.

(** The line feed. *)
Definition LF : string := String (ascii_of_nat 10) EmptyString.

(** [os.environ.get] of the three settings. *)
Record MailConfig := mkMailConfig {
  EMAIL_SENDER : option string;
  EMAIL_PASSWORD : option string;
  EMAIL_RECIPIENT : option string
}.

(** The truth value of a setting: set and not empty. *)
Definition is_set (setting : option string) : bool :=
  match setting with
  | Some s => negb (String.eqb s "")
  | None => false
  end.

(** [f"{value}"] of a column that may be [NULL]. *)
Definition fmt (value : option string) : string := default "None" value.

Record Message := mkMessage {
  msg_from : string;
  msg_to : string;
  msg_subject : string;
  msg_body : string
}.

(** ["-" * n] *)
Fixpoint dashes (n : nat) : string :=
  match n with
  | O => EmptyString
  | S n' => String "-" (dashes n')
  end.

(** The lines one job adds to the body. *)
Definition job_lines (job : DbQueries.JobDict) : string :=
  "Title: " ++ fmt (DbQueries.jd_title job) ++ LF
  ++ "Company: " ++ fmt (DbQueries.jd_company job) ++ LF
  ++ "Location: " ++ fmt (DbQueries.jd_location job) ++ LF
  ++ "URL: " ++ fmt (DbQueries.jd_url job) ++ LF
  ++ "Date Posted: " ++ DbQueries.jd_date_posted job
  ++ " (Found: " ++ DbQueries.jd_date_found job ++ ")" ++ LF
  ++ "Relevance Score: " ++ pretty (DbQueries.jd_relevance_score job) ++ LF
  ++ dashes 60 ++ LF ++ LF.

(** The loop [for job in new_jobs: body += ...]. *)
Definition add_jobs (body : string) (new_jobs : list DbQueries.JobDict) : string :=
  fold_left (fun body job => body ++ job_lines job) new_jobs body.

(** The message handed to the SMTP server, [None] when the function
    returns before building one. What the server does with it does not
    reach the caller: every exception of the delivery is caught. *)
Definition send_email_notification (mail : MailConfig)
    (new_jobs_raw : list (Z * ScoredJob)) : option Message :=
  match new_jobs_raw with
  | [] => None
  | _ =>
      if negb (is_set (EMAIL_SENDER mail) && is_set (EMAIL_PASSWORD mail)
               && is_set (EMAIL_RECIPIENT mail))
      then None
      else
        let new_jobs := map DbQueries.job_data_to_dict new_jobs_raw in
        let subject :=
          "New Job Listings Found! (" ++ pretty (List.length new_jobs) ++ " jobs)" in
        let body :=
          "Hello," ++ LF ++ LF
          ++ "Here are the new job listings that match your criteria, ordered by date posted:"
          ++ LF ++ LF in
        let body := add_jobs body new_jobs in
        let body :=
          body ++ "Happy job hunting!" ++ LF ++ "Your Automated Job Search Script" in
        Some {| msg_from := default "" (EMAIL_SENDER mail);
                msg_to := default "" (EMAIL_RECIPIENT mail);
                msg_subject := subject;
                msg_body := body |}
  end.

End NotificationManager.

(** ** More auxiliary notions *)

(** A text that is empty or starts with a character that is no blank. *)
Definition tidy_start (s : string) : Prop :=
  match s with
  | EmptyString => True
  | String c _ => is_space c = false
  end.

(** ** More sample data *)

Definition sample_web : Web :=
  {| web_wellfound_listing := fun _ =>
       Returned [ {| wc_title_tag := Some "Cloud Engineer";
                     wc_company_tag := None;
                     wc_location_tag := Some "Remote";
                     wc_job_url_tag := Some (Some "/jobs/42") |} ];
     web_microsoft_listing := fun _ =>
       Returned [ {| dc_title_elem := Returned "Software Engineer";
                     dc_job_url_elem := Returned (Some "https://jobs.example.org/1");
                     dc_location_elem := Returned "Nairobi" |};
                  {| dc_title_elem := Raised NoSuchElementException;
                     dc_job_url_elem := Returned None;
                     dc_location_elem := Returned "Nairobi" |} ];
     web_wfp_listing := fun _ => Raised TimeoutException |}.

(** A careers.un.org listing of one row whose detail page has an empty
    description container and text elsewhere. *)
Definition careers_env : Env :=
  {| env_detail_soup := fun _ =>
       Returned {| ds_description_div := Some "";
                   ds_class_elements := ["Duties and responsibilities"];
                   ds_broad_elements := ["Apply now"] |};
     env_rendered_soup := env_rendered_soup sample_env;
     env_driver_page := env_driver_page sample_env;
     env_unjobs_listing := env_unjobs_listing sample_env;
     env_unjobs_vacancy := env_unjobs_vacancy sample_env;
     env_careers_listing :=
       Returned [ {| cr_title_tag := Some ("Software Engineer", Some "/jobopening/7");
                     cr_location_tag := Some "Remote";
                     cr_date_str_tag := Some "24 July 2023 - 23 August 2023" |} ];
     env_today := env_today sample_env;
     env_chrome := env_chrome sample_env;
     env_resume_exists := env_resume_exists sample_env;
     env_extract_text := env_extract_text sample_env;
     env_list_of_set := env_list_of_set sample_env;
     env_clock := env_clock sample_env |}.

(** The record the careers.un.org adapter builds from that row. *)
Definition careers_job : gmap string string :=
  JobScraper.job_record "Software Engineer" "United Nations" "Remote"
    "https://careers.un.org/jobopening/7" "" "2023-07-24".

(** Two resumes: the second has the text of the first and more. *)
Definition two_resumes : Env :=
  {| env_detail_soup := env_detail_soup sample_env;
     env_rendered_soup := env_rendered_soup sample_env;
     env_driver_page := env_driver_page sample_env;
     env_unjobs_listing := env_unjobs_listing sample_env;
     env_unjobs_vacancy := env_unjobs_vacancy sample_env;
     env_careers_listing := env_careers_listing sample_env;
     env_today := env_today sample_env;
     env_chrome := env_chrome sample_env;
     env_resume_exists := env_resume_exists sample_env;
     env_extract_text := fun path =>
       if String.eqb path "short.pdf" then Returned "Python backend developer"
       else Returned "Senior PYTHON Backend Developer, AWS and Docker";
     env_list_of_set := env_list_of_set sample_env;
     env_clock := env_clock sample_env |}.


(** A row of another URL. *)
Definition other_row : ScoredJob :=
  {| sj_title := Some "Cloud Engineer";
     sj_company := None;
     sj_location := Some "Worldwide";
     sj_url := Some "https://example.org/b";
     sj_description := "aws docker";
     sj_date_posted := "2026-11-01";
     sj_date_found := "2026-11-02T09:00:00.000000";
     sj_relevance_score := 3 |}.

(** ** A run read off its log *)

(** The rows of the insert attempts of a log, in order. *)
Definition save_attempts (evs : list Event) : list ScoredJob :=
  omap (fun ev => match ev with EvSave row _ => Some row | _ => None end) evs.

(** The rows of the notifications of a log, in order. *)
Definition notified (evs : list Event) : list ScoredJob :=
  omap (fun ev => match ev with EvNotify row => Some row | _ => None end) evs.

(** The table after the inserts of [rows], one after the other. *)
Definition apply_saves (rows table : list ScoredJob) : list ScoredJob :=
  fold_left (fun table row => (DbManager.save_job_listing row table).2) rows table.

(** The events of the steps that neither filter, nor save, nor notify. *)
Definition quiet (ev : Event) : Prop :=
  match ev with
  | EvFilter _ | EvSave _ _ | EvNotify _ => False
  | _ => True
  end.

Definition no_row (row : ScoredJob) : Prop := False.

(** The row was built by the filter from a record that was handed to it
    in the run, at some reading of the clock. *)
Definition passed (cfg : Config) (env : Env) (kw : Keywords) (evs : list Event)
    (row : ScoredJob) : Prop :=
  exists job n,
    EvFilter job ∈ evs
    /\ Filter.filter_and_process_job (MIN_SKILL_MATCHES cfg) (env_clock env n) job kw
       = Some row.

(** The row the filter builds from [job_a] at the time of [example_clock]. *)
Definition scored_a : ScoredJob :=
  {| sj_title := Some "Backend Developer";
     sj_company := Some "United Nations";
     sj_location := Some "Remote";
     sj_url := Some "https://example.org/a";
     sj_description := "python django aws";
     sj_date_posted := "2026-11-01";
     sj_date_found := "2026-11-03T09:00:00.000000";
     sj_relevance_score := 5 |}.

(** A machine without a usable browser. *)
Definition no_browser : Env :=
  {| env_detail_soup := env_detail_soup sample_env;
     env_rendered_soup := env_rendered_soup sample_env;
     env_driver_page := env_driver_page sample_env;
     env_unjobs_listing := env_unjobs_listing sample_env;
     env_unjobs_vacancy := env_unjobs_vacancy sample_env;
     env_careers_listing := env_careers_listing sample_env;
     env_today := env_today sample_env;
     env_chrome := Raised OtherException;
     env_resume_exists := env_resume_exists sample_env;
     env_extract_text := env_extract_text sample_env;
     env_list_of_set := env_list_of_set sample_env;
     env_clock := env_clock sample_env |}.

(** A machine without the resume file. *)
Definition no_resume : Env :=
  {| env_detail_soup := env_detail_soup sample_env;
     env_rendered_soup := env_rendered_soup sample_env;
     env_driver_page := env_driver_page sample_env;
     env_unjobs_listing := env_unjobs_listing sample_env;
     env_unjobs_vacancy := env_unjobs_vacancy sample_env;
     env_careers_listing := env_careers_listing sample_env;
     env_today := env_today sample_env;
     env_chrome := env_chrome sample_env;
     env_resume_exists := fun _ => false;
     env_extract_text := env_extract_text sample_env;
     env_list_of_set := env_list_of_set sample_env;
     env_clock := env_clock sample_env |}.

(** Mail settings that are all set. *)
Definition sample_mail : NotificationManager.MailConfig :=
  {| NotificationManager.EMAIL_SENDER := Some "bot@example.org";
     NotificationManager.EMAIL_PASSWORD := Some "app-password";
     NotificationManager.EMAIL_RECIPIENT := Some "me@example.org" |}.

(** * Properties *)

(** ** Strings *)

Section StringFacts.

Lemma startswith_spec (p s : string) :
  startswith p s = true <-> exists post, s = p ++ post.
Proof.
  revert s. induction p as [|a p IH]; intros s; simpl.
  - split; [intros _; by exists s | done].
  - destruct s as [|b s].
    + split; [done | intros [post H]; discriminate H].
    + rewrite andb_true_iff, IH. split.
      * intros [Hab [post ->]]. apply Ascii.eqb_eq in Hab as ->. by exists post.
      * intros [post H]. injection H as -> ->. split.
        -- apply Ascii.eqb_refl.
        -- by exists post.
Qed.

Lemma contains_startswith (sub s : string) :
  startswith sub s = true -> contains sub s = true.
Proof. intros H. destruct s; simpl; rewrite H; reflexivity. Qed.

Lemma contains_spec (sub s : string) :
  contains sub s = true <-> occurs_in sub s.
Proof.
  unfold occurs_in. split.
  - induction s as [|c s IH]; simpl; rewrite orb_true_iff.
    + intros [H | H]; [| done].
      apply startswith_spec in H as [post ->]. by exists "", post.
    + intros [H | H].
      * apply startswith_spec in H as [post ->]. by exists "", post.
      * destruct (IH H) as (pre & post & ->). by exists (String c pre), post.
  - intros (pre & post & ->). induction pre as [|c pre IH]; simpl.
    + apply contains_startswith, startswith_spec. by exists post.
    + apply orb_true_iff. by right.
Qed.

Lemma contains_false (sub s : string) :
  contains sub s = false <-> ~ occurs_in sub s.
Proof.
  rewrite <- contains_spec. destruct (contains sub s); split; done.
Qed.

Lemma occurs_in_mid (pre sub post : string) : occurs_in sub (pre ++ sub ++ post).
Proof. by exists pre, post. Qed.

Lemma lower_app (s t : string) : lower (s ++ t) = lower s ++ lower t.
Proof. induction s as [|c s IH]; simpl; [done | by rewrite IH]. Qed.

Lemma lower_ascii_idem (c : ascii) : lower_ascii (lower_ascii c) = lower_ascii c.
Proof.
  destruct c as [[] [] [] [] [] [] [] []]; reflexivity.
Qed.

Lemma lower_idem (s : string) : lower (lower s) = lower s.
Proof.
  induction s as [|c s IH]; simpl; [done | by rewrite lower_ascii_idem, IH].
Qed.

Lemma occurs_in_lower (sub s : string) :
  occurs_in sub s -> occurs_in (lower sub) (lower s).
Proof.
  intros (pre & post & ->). rewrite !lower_app. apply occurs_in_mid.
Qed.

Lemma slice_to_length (n : nat) (s : string) :
  (String.length (slice_to n s) <= n)%nat.
Proof.
  revert s. induction n as [|n IH]; intros [|c s]; simpl; try lia.
  specialize (IH s). lia.
Qed.

End StringFacts.

(** ** The relevance filter *)

Section FilterFacts.

Lemma string_app_assoc (a b c : string) : (a ++ b) ++ c = a ++ b ++ c.
Proof. induction a as [|x a IH]; simpl; [done | by f_equal]. Qed.

Lemma occurs_in_trans (a b c : string) :
  occurs_in a b -> occurs_in b c -> occurs_in a c.
Proof.
  intros (p1 & q1 & ->) (p2 & q2 & ->).
  exists (p2 ++ p1), (q1 ++ q2). by rewrite !string_app_assoc.
Qed.

Lemma existsb_elem_of {A : Type} (f : A -> bool) (l : list A) :
  existsb f l = true <-> exists x, x ∈ l /\ f x = true.
Proof.
  rewrite existsb_exists. split; intros (x & Hx & Hf); exists x;
    (split; [by apply list_elem_of_In | done]).
Qed.

Lemma elem_of_list_filter {A : Type} (f : A -> bool) (l : list A) (x : A) :
  x ∈ List.filter f l <-> x ∈ l /\ f x = true.
Proof. by rewrite !list_elem_of_In, filter_In. Qed.

Lemma NoDup_list_filter {A : Type} (f : A -> bool) (l : list A) :
  NoDup l -> NoDup (List.filter f l).
Proof.
  induction 1 as [|x l Hx Hnd IH]; simpl; [constructor |].
  destruct (f x); [| exact IH].
  constructor; [| exact IH].
  rewrite elem_of_list_filter. tauto.
Qed.

Lemma sum_ones {A : Type} (l : list A) :
  fold_right Z.add 0 (map (fun _ => 1) l) = Z.of_nat (List.length l).
Proof. induction l as [|x l IH]; simpl fold_right; simpl List.length; lia. Qed.

Lemma skills_match_count_length (job : gmap string string) (kw : Keywords) :
  Filter.skills_match_count job kw
  = Z.of_nat (List.length (List.filter (Filter.skill_matches job) (kw_skills kw))).
Proof. apply sum_ones. Qed.

Lemma skills_match_count_nonneg (job : gmap string string) (kw : Keywords) :
  0 <= Filter.skills_match_count job kw.
Proof. rewrite skills_match_count_length. lia. Qed.

Lemma is_remote_spec (job : gmap string string) :
  Filter.is_remote job = true <-> Spec.is_remote job.
Proof.
  unfold Filter.is_remote, Spec.is_remote, Filter.field_lower, Spec.field, occurs_ci.
  rewrite !orb_true_iff, !contains_spec.
  change (lower "remote") with "remote".
  change (lower "worldwide") with "worldwide".
  change (lower "home office") with "home office".
  change (lower "work from home") with "work from home".
  tauto.
Qed.

Lemma is_international_spec (job : gmap string string) :
  Filter.is_international_company job = true <-> Spec.is_international job.
Proof.
  unfold Filter.is_international_company, Spec.is_international,
    Filter.field_lower, Spec.field, Filter.international_company_keywords.
  rewrite !orb_true_iff, existsb_elem_of, !contains_spec. split.
  - intros [[[(k & Hk & Hc) | H] | H] | H].
    + left. exists k. split; [done |].
      apply contains_spec in Hc. unfold occurs_ci.
      repeat (apply elem_of_cons in Hk as [-> | Hk]); try exact Hc.
      by apply elem_of_nil in Hk.
    + right. exists "global". split; [set_solver | exact H].
    + right. exists "international". split; [set_solver | exact H].
    + right. exists "worldwide". split; [set_solver | exact H].
  - intros [(k & Hk & Hc) | (k & Hk & Hc)].
    + left. left. left. exists k. split; [done |]. apply contains_spec.
      unfold occurs_ci in Hc.
      repeat (apply elem_of_cons in Hk as [-> | Hk]); try exact Hc.
      by apply elem_of_nil in Hk.
    + unfold occurs_ci in Hc.
      repeat (apply elem_of_cons in Hk as [-> | Hk]);
        [left; left; right; exact Hc | left; right; exact Hc | right; exact Hc |].
      by apply elem_of_nil in Hk.
Qed.

Lemma is_ngo_spec (job : gmap string string) :
  Filter.is_ngo job = true <-> Spec.is_ngo job.
Proof.
  unfold Filter.is_ngo, Spec.is_ngo, Filter.field_lower, Spec.field,
    Filter.ngo_keywords.
  rewrite existsb_elem_of. split; intros (k & Hk & Hc); exists k; (split; [done |]).
  - apply orb_true_iff in Hc. rewrite !contains_spec in Hc. unfold occurs_ci.
    repeat (apply elem_of_cons in Hk as [-> | Hk]); try exact Hc.
    by apply elem_of_nil in Hk.
  - apply orb_true_iff. rewrite !contains_spec. unfold occurs_ci in Hc.
    repeat (apply elem_of_cons in Hk as [-> | Hk]); try exact Hc.
    by apply elem_of_nil in Hk.
Qed.

Lemma role_match_spec (job : gmap string string) (kw : Keywords) :
  Filter.role_match job kw = true <-> Spec.role_match job kw.
Proof.
  unfold Filter.role_match, Spec.role_match, Filter.field_lower, Spec.field, occurs_ci.
  rewrite existsb_elem_of.
  split; intros (role & Hrole & H); exists role; (split; [done |]).
  - apply orb_true_iff in H. by rewrite !contains_spec in H.
  - apply orb_true_iff. by rewrite !contains_spec.
Qed.

Lemma skill_matches_spec (job : gmap string string) (skill : string) :
  Filter.skill_matches job skill = true <-> Spec.skill_occurs job skill.
Proof.
  unfold Filter.skill_matches, Spec.skill_occurs, Filter.field_lower, Spec.field,
    occurs_ci.
  rewrite orb_true_iff, !contains_spec. tauto.
Qed.

Lemma matched_skills_filter (job : gmap string string) (kw : Keywords) :
  NoDup (kw_skills kw) ->
  Spec.matched_skills job kw (List.filter (Filter.skill_matches job) (kw_skills kw)).
Proof.
  intros Hnd. split.
  - by apply NoDup_list_filter.
  - intros skill. by rewrite elem_of_list_filter, skill_matches_spec.
Qed.

Lemma matched_skills_length (job : gmap string string) (kw : Keywords)
    (found found' : list string) :
  Spec.matched_skills job kw found -> Spec.matched_skills job kw found' ->
  List.length found = List.length found'.
Proof.
  intros [Hnd H] [Hnd' H']. apply Permutation_length, NoDup_Permutation; try done.
  intros x. by rewrite H, H'.
Qed.

Lemma has_sufficient_skills_spec (thr : Z) (job : gmap string string) (kw : Keywords) :
  NoDup (kw_skills kw) ->
  Filter.has_sufficient_skills thr job kw = true
  <-> Spec.has_sufficient_skills thr job kw.
Proof.
  intros Hnd. unfold Filter.has_sufficient_skills, Spec.has_sufficient_skills.
  rewrite Z.leb_le, skills_match_count_length. split.
  - intros H. eexists. split; [by apply matched_skills_filter | exact H].
  - intros (found & Hfound & H).
    by rewrite (matched_skills_length job kw _ found (matched_skills_filter job kw Hnd) Hfound).
Qed.

Lemma is_relevant_spec (thr : Z) (job : gmap string string) (kw : Keywords) :
  NoDup (kw_skills kw) ->
  Filter.is_relevant thr job kw = true <-> Spec.accepts thr job kw.
Proof.
  intros Hnd. unfold Filter.is_relevant, Spec.accepts.
  rewrite !andb_true_iff, orb_true_iff, is_remote_spec, role_match_spec,
    (has_sufficient_skills_spec thr job kw Hnd), is_international_spec, is_ngo_spec.
  tauto.
Qed.

Lemma filter_is_Some (thr : Z) (clock : Clock) (job : gmap string string)
    (kw : Keywords) :
  is_Some (Filter.filter_and_process_job thr clock job kw)
  <-> Filter.is_relevant thr job kw = true.
Proof.
  unfold Filter.filter_and_process_job.
  destruct (Filter.is_relevant thr job kw); split; intros H; done.
Qed.

Lemma example_job_fields (location description : string) :
  example_job location description !! "title" = Some "Backend Developer"
  /\ example_job location description !! "location" = Some location
  /\ example_job location description !! "company" = Some "Acme Global Inc."
  /\ example_job location description !! "description" = Some description.
Proof. repeat split; vm_compute; reflexivity. Qed.

End FilterFacts.

Lemma example_keywords_set : NoDup (kw_skills example_keywords).
Proof. apply (bool_decide_unpack _). vm_compute. exact I. Qed.

(** C1. The filter accepts exactly when the job is remote, matches a
    role, matches at least the threshold of distinct skills and is
    international or an NGO, all under case-insensitive substring tests;
    the keyword set lists each skill once. The fixed example of the
    design document is accepted whatever else its description says, and
    is rejected once its location is "New York, NY". *)
Theorem filter_accepts_iff_spec (thr : Z) (clock : Clock)
    (job : gmap string string) (kw : Keywords)
    (Hset : NoDup (kw_skills kw)) :
  (is_Some (Filter.filter_and_process_job thr clock job kw)
   <-> Spec.accepts thr job kw)
  /\ (forall description,
        occurs_ci "python django aws api design" description ->
        is_Some (Filter.filter_and_process_job 2 clock
                   (example_job "Remote - Worldwide" description)
                   example_keywords))
  /\ (forall description,
        Filter.filter_and_process_job 2 clock
          (example_job "New York, NY" description) example_keywords = None).
Proof.
  split; [| split].
  - rewrite filter_is_Some. by apply is_relevant_spec.
  - intros description Hd.
    rewrite filter_is_Some, (is_relevant_spec _ _ _ example_keywords_set).
    assert (Hin : forall term,
               contains term "python django aws api design" = true ->
               occurs_in term (lower description)).
    { intros term H. apply contains_spec in H. exact (occurs_in_trans _ _ _ H Hd). }
    unfold Spec.accepts, Spec.is_remote, Spec.role_match,
      Spec.has_sufficient_skills, Spec.matched_skills, Spec.is_international,
      Spec.skill_occurs, Spec.field.
    destruct (example_job_fields "Remote - Worldwide" description)
      as (-> & -> & -> & ->). simpl default.
    split; [| split; [| split]].
    + left. by apply contains_spec.
    + exists "backend developer". split; [set_solver |]. left. by apply contains_spec.
    + exists ["python"; "django"; "aws"]. split; [split |].
      * exact example_keywords_set.
      * intros skill. split; [intros H; split; [exact H |] | tauto].
        right. unfold occurs_ci.
        repeat (apply elem_of_cons in H as [-> | H]);
          [by apply Hin | by apply Hin | by apply Hin |].
        by apply elem_of_nil in H.
      * simpl. lia.
    + left. left. exists "global". split; [set_solver |]. by apply contains_spec.
  - intros description. unfold Filter.filter_and_process_job.
    replace (Filter.is_relevant 2 (example_job "New York, NY" description)
               example_keywords) with false; [done |].
    unfold Filter.is_relevant.
    replace (Filter.is_remote (example_job "New York, NY" description)) with false;
      [done | by vm_compute].
Qed.

Lemma filter_accepts_iff_spec_witness :
  NoDup (kw_skills example_keywords)
  /\ (is_Some (Filter.filter_and_process_job 2 example_clock
                 (example_job "Remote - Worldwide" "python django aws api design")
                 example_keywords)
      <-> Spec.accepts 2 (example_job "Remote - Worldwide" "python django aws api design")
                       example_keywords).
Proof.
  assert (H : NoDup (kw_skills example_keywords)).
  { apply (bool_decide_unpack _). vm_compute. exact I. }
  split; [exact H |].
  exact (proj1 (filter_accepts_iff_spec 2 example_clock
                  (example_job "Remote - Worldwide" "python django aws api design")
                  example_keywords H)).
Defined.

(** C2. An accepted record carries the score [skills_match_count + 2
    if NGO + 1 if international], which is not negative; a rejected job
    yields [None]. With three matched skills an NGO that is not
    international scores 5 and an international non-NGO scores 4. *)
Theorem relevance_score_formula (thr : Z) (clock : Clock)
    (job : gmap string string) (kw : Keywords) :
  (if Filter.is_relevant thr job kw
   then exists scored,
       Filter.filter_and_process_job thr clock job kw = Some scored
       /\ sj_relevance_score scored
          = Filter.skills_match_count job kw
            + (if Filter.is_ngo job then 2 else 0)
            + (if Filter.is_international_company job then 1 else 0)
       /\ 0 <= sj_relevance_score scored
   else Filter.filter_and_process_job thr clock job kw = None)
  /\ Filter.relevance_score_of 3 true false = 5
  /\ Filter.relevance_score_of 3 false true = 4
  /\ sj_relevance_score
       <$> Filter.filter_and_process_job 2 clock charity_job example_keywords
     = Some 5
  /\ (Filter.skills_match_count charity_job example_keywords,
      Filter.is_ngo charity_job, Filter.is_international_company charity_job)
     = (3, true, false)
  /\ sj_relevance_score
       <$> Filter.filter_and_process_job 2 clock global_job flask_keywords
     = Some 4
  /\ (Filter.skills_match_count global_job flask_keywords,
      Filter.is_ngo global_job, Filter.is_international_company global_job)
     = (3, false, true).
Proof.
  split; [| repeat split; vm_compute; reflexivity].
  unfold Filter.filter_and_process_job.
  destruct (Filter.is_relevant thr job kw); [| done].
  eexists. split; [reflexivity |]. simpl. split; [done |].
  unfold Filter.relevance_score_of.
  pose proof (skills_match_count_nonneg job kw).
  destruct (Filter.is_ngo job), (Filter.is_international_company job); lia.
Qed.

(** C6, as stated, fails: two calls on the same job and keywords at
    different times return different records. *)
Lemma filter_reads_the_clock :
  Filter.filter_and_process_job 2 example_clock
    (example_job "Remote - Worldwide" "python django aws api design")
    example_keywords
  <> Filter.filter_and_process_job 2 later_clock
       (example_job "Remote - Worldwide" "python django aws api design")
       example_keywords.
Proof. vm_compute. intros H. discriminate H. Qed.

(** C6, amended. The decision and every entry of the record other than
    the two stamps are a function of the job, the keywords and the
    threshold alone: there is one clock-free result of which every call
    returns the stamped copy, with [date_found] the clock reading of
    that call. *)
Theorem filter_pure_up_to_stamps (thr : Z) (job : gmap string string)
    (kw : Keywords) :
  exists core : option ScoredJob,
    forall clock,
      Filter.filter_and_process_job thr clock job kw = restamp job clock <$> core
      /\ (sj_date_found <$> Filter.filter_and_process_job thr clock job kw)
         = (fun _ => now_iso clock) <$> core.
Proof.
  exists (Filter.filter_and_process_job thr example_clock job kw).
  intros clock. unfold Filter.filter_and_process_job.
  by destruct (Filter.is_relevant thr job kw).
Qed.

(** The fixed example of the design document is accepted with score 6,
    not 4: "django" contains "ngo", so the NGO bonus applies. *)
Example fixed_example_score :
  sj_relevance_score
    <$> Filter.filter_and_process_job 2 example_clock
          (example_job "Remote - Worldwide" "python django aws api design")
          example_keywords
  = Some 6.
Proof. vm_compute. reflexivity. Qed.

(** Without the set discipline on the skills the count is with
    multiplicity: a skill listed twice counts twice. *)
Example repeated_skill_counts_twice :
  Filter.skills_match_count charity_job
    {| kw_skills := ["python"; "python"]; kw_roles := []; kw_preferences := [] |}
  = 2.
Proof. vm_compute. reflexivity. Qed.

(** ** Description extraction *)

Section DescriptionFacts.

Lemma slice_bound (text : string) :
  Z.of_nat (String.length (slice_to JobScraper.MAX_DESCRIPTION text)) <= 5000.
Proof.
  pose proof (slice_to_length JobScraper.MAX_DESCRIPTION text) as H.
  unfold JobScraper.MAX_DESCRIPTION in *. lia.
Qed.

Lemma generic_description_bound (soup : DetailSoup) :
  Z.of_nat (String.length (JobScraper.generic_description soup)) <= 5000.
Proof. apply slice_bound. Qed.

Lemma sentinel_bound :
  Z.of_nat (String.length SeleniumScraper.SENTINEL) <= 5000.
Proof. by vm_compute. Qed.

End DescriptionFacts.

(** C3. Whatever the page holds and whatever the URL is, each of the
    description fetchers (the requests-based one and the two
    Selenium-based ones) returns a text of at most 5000 characters:
    every path that extracts text ends in the truncation, and the
    fixed messages of the other paths are short. *)
Theorem description_at_most_5000 (env : Env) (driver : option Driver)
    (job_url : option string) :
  Z.of_nat (String.length
              (JobScraper.fetch_full_description_requests env job_url)) <= 5000
  /\ Z.of_nat (String.length
                 (JobScraper.fetch_full_description_selenium env driver job_url))
     <= 5000
  /\ Z.of_nat (String.length
                 (SeleniumScraper.fetch_full_description_selenium env driver job_url))
     <= 5000.
Proof.
  split; [| split].
  - unfold JobScraper.fetch_full_description_requests.
    destruct (JobScraper.no_url job_url); [by vm_compute |].
    destruct (env_detail_soup env _) as [soup | e]; [| by vm_compute].
    destruct (ds_description_div soup);
      [apply slice_bound | apply generic_description_bound].
  - unfold JobScraper.fetch_full_description_selenium.
    destruct driver; [| by vm_compute].
    destruct (JobScraper.no_url job_url); [by vm_compute |].
    destruct (env_rendered_soup env _) as [soup | e]; [| by vm_compute].
    apply generic_description_bound.
  - unfold SeleniumScraper.fetch_full_description_selenium.
    destruct driver; [| by vm_compute].
    destruct (JobScraper.no_url job_url); [by vm_compute |].
    destruct (env_driver_page env _) as [page | e]; [| exact sentinel_bound].
    destruct (dp_site_elements page); [| apply slice_bound].
    destruct (dp_main_content page) as [text | e]; [apply slice_bound |].
    destruct e; try exact sentinel_bound.
    destruct (dp_body page); [apply slice_bound | exact sentinel_bound].
Qed.

(** ** The aggregator *)

(** C4, as stated, fails: when the Wellfound adapter raises the
    aggregator raises too, and no combined output exists, while the
    isolated output of the design document would hold the records of
    the other sources. *)
Lemma aggregator_does_not_isolate :
  (Pipeline.scrape_all_jobs wellfound_down None "q" "q" fresh_world).1
  = Raised OtherException
  /\ Spec.isolated_output wellfound_down None "q" "q" = [job_a; job_b]
  /\ (Pipeline.scrape_all_jobs wellfound_down None "q" "q" fresh_world).1
     <> Returned (Spec.isolated_output wellfound_down None "q" "q").
Proof.
  assert (H1 : (Pipeline.scrape_all_jobs wellfound_down None "q" "q" fresh_world).1
               = Raised OtherException) by reflexivity.
  split; [exact H1 | split; [reflexivity |]].
  rewrite H1. intros H. discriminate H.
Qed.

(** C4, amended. The aggregator calls the unjobs.org, careers.un.org,
    Wellfound and LinkedIn adapters, each once and in this order, and
    returns their records concatenated in that order when all four
    return. It has no handler of its own: when an adapter raises, the
    exception leaves the aggregator and the adapters after it are not
    called. *)
Theorem aggregator_in_order (adapters : AdapterRuns) (driver : option Driver)
    (unjobs_query wellfound_query : string) (w : World) :
  let run := Pipeline.scrape_all_jobs adapters driver unjobs_query wellfound_query w in
  let logged evs := mkWorld (w_table w) (w_log w ++ evs)%list in
  match run_unjobs_org adapters unjobs_query,
        run_careers_un_org adapters,
        run_wellfound adapters driver wellfound_query,
        run_linkedin_jobs adapters with
  | Returned ju, Returned jc, Returned jw, Returned jl =>
      run = (Returned (ju ++ jc ++ jw ++ jl)%list,
             logged [EvScrape Unjobs; EvScrape CareersUN;
                     EvScrape Wellfound; EvScrape LinkedIn])
  | Returned _, Returned _, Returned _, Raised e =>
      run = (Raised e,
             logged [EvScrape Unjobs; EvScrape CareersUN;
                     EvScrape Wellfound; EvScrape LinkedIn])
  | Returned _, Returned _, Raised e, _ =>
      run = (Raised e,
             logged [EvScrape Unjobs; EvScrape CareersUN; EvScrape Wellfound])
  | Returned _, Raised e, _, _ =>
      run = (Raised e, logged [EvScrape Unjobs; EvScrape CareersUN])
  | Raised e, _, _, _ =>
      run = (Raised e, logged [EvScrape Unjobs])
  end.
Proof.
  unfold Pipeline.scrape_all_jobs, Pipeline.call, bind, emit, lift, ret. simpl.
  destruct (run_unjobs_org adapters unjobs_query) as [ju | e]; [| done].
  destruct (run_careers_un_org adapters) as [jc | e]; simpl;
    [| by rewrite <- !app_assoc].
  destruct (run_wellfound adapters driver wellfound_query) as [jw | e]; simpl;
    [| by rewrite <- !app_assoc].
  destruct (run_linkedin_jobs adapters) as [jl | e]; simpl;
    rewrite <- ?app_assoc; simpl; done.
Qed.

(** ** Runs *)

Section RunFacts.

Context {P : Event -> Prop} {Q : ScoredJob -> Prop}.

Lemma footprint_ret {A : Type} (a : A) : footprint P Q (ret a).
Proof. intros w. exists [], []. by rewrite !app_nil_r. Qed.

Lemma footprint_raise {A : Type} (e : Exn) : footprint P Q (@raise A e).
Proof. intros w. exists [], []. by rewrite !app_nil_r. Qed.

Lemma footprint_lift {A : Type} (o : Outcome A) : footprint P Q (lift o).
Proof. intros w. exists [], []. by rewrite !app_nil_r. Qed.

Lemma footprint_emit (ev : Event) : P ev -> footprint P Q (emit ev).
Proof.
  intros H w. exists [ev], []. simpl. rewrite app_nil_r.
  repeat split; [by constructor | constructor].
Qed.

Lemma footprint_bind_at {A B : Type} (c : M A) (k : A -> M B) :
  footprint P Q c ->
  (forall w a w1, c w = (Returned a, w1) -> footprint P Q (k a)) ->
  footprint P Q (bind c k).
Proof.
  intros Hc Hk w. unfold bind.
  destruct (Hc w) as (evs & rows & Hlog & Htab & Hevs & Hrows).
  destruct (c w) as [[a | e] w1] eqn:Hcw; simpl in *.
  - destruct (Hk w a w1 Hcw w1) as (evs' & rows' & Hlog' & Htab' & Hevs' & Hrows').
    exists (evs ++ evs')%list, (rows ++ rows')%list.
    rewrite Hlog', Htab', Hlog, Htab, !app_assoc.
    repeat split; by apply Forall_app.
  - by exists evs, rows.
Qed.

Lemma footprint_bind {A B : Type} (c : M A) (k : A -> M B) :
  footprint P Q c -> (forall a, footprint P Q (k a)) -> footprint P Q (bind c k).
Proof. intros Hc Hk. apply footprint_bind_at; [done | by intros _ a _ _]. Qed.

Lemma footprint_try_except {A : Type} (c : M A) (h : Exn -> M A) :
  footprint P Q c -> (forall e, footprint P Q (h e)) -> footprint P Q (try_except c h).
Proof.
  intros Hc Hh w. unfold try_except.
  destruct (Hc w) as (evs & rows & Hlog & Htab & Hevs & Hrows).
  destruct (c w) as [[a | e] w1]; simpl in *.
  - by exists evs, rows.
  - destruct (Hh e w1) as (evs' & rows' & Hlog' & Htab' & Hevs' & Hrows').
    exists (evs ++ evs')%list, (rows ++ rows')%list.
    rewrite Hlog', Htab', Hlog, Htab, !app_assoc.
    repeat split; by apply Forall_app.
Qed.

Lemma footprint_scrape_all_jobs (adapters : AdapterRuns) (driver : option Driver)
    (uq wq : string) :
  (forall source, P (EvScrape source)) ->
  footprint P Q (Pipeline.scrape_all_jobs adapters driver uq wq).
Proof.
  intros HP. unfold Pipeline.scrape_all_jobs, Pipeline.call.
  repeat (apply footprint_bind; [| intros ?]);
    first [by apply footprint_emit | apply footprint_lift | apply footprint_ret].
Qed.

Lemma footprint_time_sleep (secs : Z) :
  P (EvSleep secs) -> footprint P Q (Pipeline.time_sleep secs).
Proof.
  intros HP. unfold Pipeline.time_sleep.
  destruct (secs <? 0); [apply footprint_raise | by apply footprint_emit].
Qed.

Lemma footprint_send_notifications (jobs : list ScoredJob) :
  (forall job, P (EvNotify job)) ->
  footprint P Q (Pipeline.send_notifications jobs).
Proof.
  intros HP. induction jobs as [|job jobs IH]; simpl.
  - apply footprint_ret.
  - apply footprint_bind; [by apply footprint_emit | by intros _].
Qed.

Lemma footprint_save_job_listing (row : ScoredJob) :
  (forall saved, P (EvSave row saved)) -> Q row ->
  footprint P Q (Pipeline.save_job_listing row).
Proof.
  intros HP HQ w.
  unfold Pipeline.save_job_listing, DbManager.save_job_listing,
    DbManager.execute_insert.
  destruct (sj_url row) as [u |]; [destruct (existsb _ _) |]; simpl.
  - exists [EvSave row false], []. rewrite app_nil_r.
    repeat split; [by constructor | constructor].
  - exists [EvSave row true], [row]. repeat split; by constructor.
  - exists [EvSave row true], [row]. repeat split; by constructor.
Qed.

End RunFacts.

Section DedupFacts.

Variables (cfg : Config) (env : Env) (existing : gset (option string)).

Lemma filter_keeps_url (thr : Z) (clock : Clock) (job : gmap string string)
    (kw : Keywords) (scored : ScoredJob) :
  Filter.filter_and_process_job thr clock job kw = Some scored ->
  sj_url scored = job !! "url".
Proof.
  unfold Filter.filter_and_process_job.
  destruct (Filter.is_relevant thr job kw); [| done].
  by intros [= <-].
Qed.

Lemma footprint_filter (job : gmap string string) (kw : Keywords) :
  job !! "url" ∉ existing ->
  footprint (routine existing) (fresh_row existing)
    (Pipeline.filter_and_process_job cfg env job kw).
Proof.
  intros Hnew w. exists [EvFilter job], []. simpl. rewrite app_nil_r.
  repeat split; [by constructor | constructor].
Qed.

Lemma footprint_process_jobs (kw : Keywords) (jobs : list (gmap string string))
    (acc : list ScoredJob) :
  footprint (routine existing) (fresh_row existing)
    (Pipeline.process_jobs cfg env existing kw jobs acc).
Proof.
  revert acc. induction jobs as [|job jobs IH]; intros acc; simpl.
  - apply footprint_ret.
  - destruct (bool_decide (job !! "url" ∈ existing)) eqn:Hknown; [apply IH |].
    apply bool_decide_eq_false in Hknown.
    apply footprint_bind_at; [by apply footprint_filter |].
    intros w [scored |] w1 Hf; [| apply IH].
    unfold Pipeline.filter_and_process_job in Hf. injection Hf as Hf _.
    apply filter_keeps_url in Hf.
    apply footprint_bind; [| intros _; apply IH].
    apply footprint_save_job_listing.
    + intros saved. simpl. by rewrite Hf.
    + unfold fresh_row. by rewrite Hf.
Qed.

Lemma footprint_run_steps (adapters : AdapterRuns) (kw : Keywords)
    (driver : option Driver) :
  footprint (routine existing) (fresh_row existing)
    (run_steps cfg env adapters existing kw driver).
Proof.
  unfold run_steps.
  apply footprint_bind; [by apply footprint_scrape_all_jobs | intros jobs].
  apply footprint_bind; [by apply footprint_time_sleep | intros _].
  apply footprint_bind; [apply footprint_process_jobs | intros new].
  by apply footprint_send_notifications.
Qed.

End DedupFacts.

Section MainFacts.

Lemma bind_assoc {A B C : Type} (c : M A) (k : A -> M B) (h : B -> M C) (w : World) :
  bind (bind c k) h w = bind c (fun a => bind (k a) h) w.
Proof. unfold bind. by destruct (c w) as [[a | e] w1]. Qed.

Lemma bind_ext {A B : Type} (c : M A) (k k' : A -> M B) (w : World) :
  (forall a w1, k a w1 = k' a w1) -> bind c k w = bind c k' w.
Proof. intros H. unfold bind. by destruct (c w) as [[a | e] w1]. Qed.

Lemma main_steps (cfg : Config) (env : Env) (adapters : AdapterRuns) (w : World) :
  Pipeline.main cfg env adapters w
  = bind (emit EvSetupDatabase) (fun _ =>
      match ResumeParser.parse_resume_keywords env (RESUME_PATH cfg) with
      | None => ret tt
      | Some kw =>
          bind Pipeline.get_all_job_urls (fun existing =>
          bind (try_except (Pipeline.get_selenium_driver env) (fun _ => ret None))
               (fun driver =>
          bind (run_steps cfg env adapters existing kw driver)
               (fun _ => release_driver driver)))
      end) w.
Proof.
  unfold Pipeline.main. apply bind_ext. intros _ w1.
  destruct (ResumeParser.parse_resume_keywords env (RESUME_PATH cfg)) as [kw |];
    [| done].
  apply bind_ext. intros existing w2. apply bind_ext. intros driver w3.
  unfold run_steps. rewrite bind_assoc. apply bind_ext. intros jobs w4.
  rewrite bind_assoc. apply bind_ext. intros _ w5.
  rewrite bind_assoc. reflexivity.
Qed.

Lemma main_shape (cfg : Config) (env : Env) (adapters : AdapterRuns) (w : World) :
  let existing := DbManager.get_all_job_urls (w_table w) in
  let r := Pipeline.main cfg env adapters w in
  exists (started : bool) (body : list Event) (rows : list ScoredJob),
    Forall (routine existing) body
    /\ Forall (fresh_row existing) rows
    /\ w_table r.2 = (w_table w ++ rows)%list
    /\ w_log r.2
       = (w_log w ++ EvSetupDatabase
            :: (if started then [EvDriverStarted] else [])
            ++ body
            ++ match r.1 with
               | Returned _ => if started then [EvDriverQuit] else []
               | Raised _ => []
               end)%list.
Proof.
  intros existing r. subst r. rewrite main_steps.
  unfold bind at 1, emit at 1.
  destruct (ResumeParser.parse_resume_keywords env (RESUME_PATH cfg)) as [kw |].
  2: { exists false, [], []. simpl. rewrite app_nil_r. repeat split; constructor. }
  unfold bind at 1, Pipeline.get_all_job_urls at 1. cbn [w_table].
  fold existing.
  set (w0 := mkWorld (w_table w) (w_log w ++ [EvSetupDatabase])%list).
  assert (Hfinish : forall (started : bool) (driver : option Driver) (w1 : World),
    w_table w1 = w_table w ->
    w_log w1 = (w_log w ++ EvSetupDatabase
                  :: (if started then [EvDriverStarted] else []))%list ->
    (started = true <-> is_Some driver) ->
    let r := bind (run_steps cfg env adapters existing kw driver)
                  (fun _ => release_driver driver) w1 in
    exists (body : list Event) (rows : list ScoredJob),
      Forall (routine existing) body
      /\ Forall (fresh_row existing) rows
      /\ w_table r.2 = (w_table w ++ rows)%list
      /\ w_log r.2
         = (w_log w ++ EvSetupDatabase
              :: (if started then [EvDriverStarted] else [])
              ++ body
              ++ match r.1 with
                 | Returned _ => if started then [EvDriverQuit] else []
                 | Raised _ => []
                 end)%list).
  { intros started driver w1 Htab Hlog Hdrv. unfold bind.
    destruct (footprint_run_steps cfg env existing adapters kw driver w1)
      as (body & rows & Hlog' & Htab' & Hbody & Hrows).
    destruct (run_steps cfg env adapters existing kw driver w1) as [[[] | e] w2];
      simpl in Hlog', Htab'; exists body, rows.
    - destruct driver as [d |], started; simpl;
        try (destruct Hdrv as [H1 H2];
             first [by destruct H1 | by discriminate H2]).
      { rewrite Hlog', Htab', Hlog, Htab. simpl.
        repeat split; try done. by rewrite <- !app_assoc. }
      { rewrite Hlog', Htab', Hlog, Htab. simpl.
        repeat split; try done. by rewrite app_nil_r, <- !app_assoc. }
    - simpl. rewrite Hlog', Htab', Hlog, Htab.
      repeat split; try done. rewrite app_nil_r, <- !app_assoc.
      by destruct started. }
  unfold bind at 1, try_except, Pipeline.get_selenium_driver.
  destruct (SeleniumScraper.get_selenium_driver env) as [[d |] | e].
  - exists true. apply (Hfinish true (Some d)); simpl; try done.
    all: try by rewrite <- app_assoc.
    all: try (split; [by eexists | done]).
  - exists false. apply (Hfinish false None); simpl; try done.
    all: try (split; [done | by intros []]).
  - exists false. apply (Hfinish false None); simpl; try done.
    all: try (split; [done | by intros []]).
Qed.

End MainFacts.

Section StoreFacts.

Lemma known_url_found (u : string) (table : list ScoredJob) :
  Some u ∈ DbManager.get_all_job_urls table ->
  existsb (DbManager.same_url u) table = true.
Proof.
  unfold DbManager.get_all_job_urls. rewrite elem_of_list_to_set, list_elem_of_In.
  intros H. apply in_map_iff in H as (row & Hrow & Hin).
  apply existsb_exists. exists row. split; [done |].
  unfold DbManager.same_url. rewrite Hrow. apply String.eqb_refl.
Qed.

Lemma save_duplicate_is_false (row : ScoredJob) (table : list ScoredJob) (u : string) :
  sj_url row = Some u -> Some u ∈ DbManager.get_all_job_urls table ->
  DbManager.save_job_listing row table = (Returned false, table).
Proof.
  intros Hu Hin. unfold DbManager.save_job_listing, DbManager.execute_insert.
  by rewrite Hu, (known_url_found u table Hin).
Qed.

Lemma save_never_raises (row : ScoredJob) (table : list ScoredJob) :
  exists saved table', DbManager.save_job_listing row table = (Returned saved, table').
Proof.
  unfold DbManager.save_job_listing, DbManager.execute_insert.
  destruct (sj_url row) as [u |]; [destruct (existsb _ _) |]; by eexists _, _.
Qed.

End StoreFacts.

(** C5. A job whose URL is in the URL set of the store when the run
    starts is never handed to the filter in that run (nor is any job
    with that URL), no insert is attempted for its URL and no row with
    its URL is added; and the insert of the store answers false, without
    raising, when the URL of the row is already in the table. *)
Theorem known_urls_are_skipped (cfg : Config) (env : Env) (adapters : AdapterRuns)
    (w : World) (J : gmap string string)
    (Hknown : J !! "url" ∈ DbManager.get_all_job_urls (w_table w)) :
  let r := Pipeline.main cfg env adapters w in
  (exists evs rows,
     w_log r.2 = (w_log w ++ evs)%list
     /\ w_table r.2 = (w_table w ++ rows)%list
     /\ (EvFilter J ∉ evs)
     /\ (forall job, EvFilter job ∈ evs -> job !! "url" <> J !! "url")
     /\ (forall row saved, EvSave row saved ∈ evs -> sj_url row <> J !! "url")
     /\ (forall row, row ∈ rows -> sj_url row <> J !! "url"))
  /\ (forall row table u,
        sj_url row = Some u -> Some u ∈ DbManager.get_all_job_urls table ->
        DbManager.save_job_listing row table = (Returned false, table))
  /\ (forall row table, exists saved table',
        DbManager.save_job_listing row table = (Returned saved, table')).
Proof.
  intros r. split; [| split; [apply save_duplicate_is_false | apply save_never_raises]].
  destruct (main_shape cfg env adapters w)
    as (started & body & rows & Hbody & Hrows & Htab & Hlog).
  fold r in Htab, Hlog. eexists _, rows. split; [exact Hlog |]. split; [exact Htab |].
  rewrite Forall_forall in Hbody. rewrite Forall_forall in Hrows.
  assert (Hin : forall ev, ev ∈ (EvSetupDatabase
              :: (if started then [EvDriverStarted] else [])
              ++ body
              ++ match r.1 with
                 | Returned _ => if started then [EvDriverQuit] else []
                 | Raised _ => []
                 end)%list ->
            ev = EvSetupDatabase \/ ev = EvDriverStarted \/ ev = EvDriverQuit
            \/ ev ∈ body).
  { intros ev. rewrite elem_of_cons, !elem_of_app.
    intros [-> | [H | [H | H]]]; [by left | | by do 3 right |].
    - destruct started; [| by apply elem_of_nil in H].
      apply list_elem_of_singleton in H as ->. by right; left.
    - destruct (r.1); [destruct started |]; try by apply elem_of_nil in H.
      apply list_elem_of_singleton in H as ->. by right; right; left. }
  split; [| split; [| split]].
  - intros H. apply Hin in H as [H | [H | [H | H]]]; try discriminate H.
    by apply (Hbody _ H).
  - intros job H Heq. apply Hin in H as [H | [H | [H | H]]]; try discriminate H.
    apply (Hbody _ H). by rewrite Heq.
  - intros row saved H Heq. apply Hin in H as [H | [H | [H | H]]]; try discriminate H.
    apply (Hbody _ H). by rewrite Heq.
  - intros row H Heq. apply (Hrows _ H). by rewrite Heq.
Qed.

Lemma known_urls_are_skipped_witness :
  job_a !! "url" ∈ DbManager.get_all_job_urls (w_table known_world)
  /\ exists evs rows,
       w_log (Pipeline.main sample_config sample_env all_up known_world).2
       = (w_log known_world ++ evs)%list
       /\ w_table (Pipeline.main sample_config sample_env all_up known_world).2
          = (w_table known_world ++ rows)%list
       /\ (EvFilter job_a ∉ evs)
       /\ (forall job, EvFilter job ∈ evs -> job !! "url" <> job_a !! "url")
       /\ (forall row saved, EvSave row saved ∈ evs -> sj_url row <> job_a !! "url")
       /\ (forall row, row ∈ rows -> sj_url row <> job_a !! "url").
Proof.
  assert (H : job_a !! "url" ∈ DbManager.get_all_job_urls (w_table known_world)).
  { apply (bool_decide_unpack _). vm_compute. exact I. }
  split; [exact H |].
  exact (proj1 (known_urls_are_skipped sample_config sample_env all_up
                  known_world job_a H)).
Defined.

(** C9, as stated, fails: with a negative configured delay the sleep
    after scraping raises; the run ends with the driver started and
    never released. *)
Lemma driver_not_released_on_exception :
  (Pipeline.main negative_delay sample_env all_up fresh_world).1 = Raised ValueError
  /\ w_log (Pipeline.main negative_delay sample_env all_up fresh_world).2
     = [EvSetupDatabase; EvDriverStarted; EvScrape Unjobs; EvScrape CareersUN;
        EvScrape Wellfound; EvScrape LinkedIn]
  /\ ~ Spec.driver_released
         (w_log (Pipeline.main negative_delay sample_env all_up fresh_world).2).
Proof.
  assert (H : w_log (Pipeline.main negative_delay sample_env all_up fresh_world).2
              = [EvSetupDatabase; EvDriverStarted; EvScrape Unjobs;
                 EvScrape CareersUN; EvScrape Wellfound; EvScrape LinkedIn])
    by (vm_compute; reflexivity).
  split; [vm_compute; reflexivity | split; [exact H |]].
  rewrite H. unfold Spec.driver_released. intros Hrel.
  assert (Hs : EvDriverStarted ∈ [EvSetupDatabase; EvDriverStarted; EvScrape Unjobs;
                 EvScrape CareersUN; EvScrape Wellfound; EvScrape LinkedIn])
    by set_solver.
  specialize (Hrel Hs).
  repeat (apply elem_of_cons in Hrel as [Hrel | Hrel]; [discriminate Hrel |]).
  by apply elem_of_nil in Hrel.
Qed.

(** C9, amended. In a run that returns, a driver that was started is
    released by the last step of the run, once; nothing releases it in
    a run that ends in an exception. *)
Theorem driver_released_on_return (cfg : Config) (env : Env)
    (adapters : AdapterRuns) (w : World) :
  let r := Pipeline.main cfg env adapters w in
  exists evs,
    w_log r.2 = (w_log w ++ evs)%list
    /\ match r.1 with
       | Returned _ =>
           ((EvDriverStarted ∉ evs) /\ (EvDriverQuit ∉ evs))
           \/ (exists pre, evs = (pre ++ [EvDriverQuit])%list
                 /\ (EvDriverStarted ∈ pre) /\ (EvDriverQuit ∉ pre))
       | Raised _ => EvDriverQuit ∉ evs
       end.
Proof.
  intros r.
  destruct (main_shape cfg env adapters w)
    as (started & body & rows & Hbody & _ & _ & Hlog).
  fold r in Hlog. eexists. split; [exact Hlog |].
  rewrite Forall_forall in Hbody.
  assert (Hq : EvDriverQuit ∉ body) by (intros H; apply (Hbody _ H)).
  assert (Hs : EvDriverStarted ∉ body) by (intros H; apply (Hbody _ H)).
  destruct (r.1) as [[] | e]; [destruct started |]; simpl.
  - right. exists (EvSetupDatabase :: EvDriverStarted :: body). split; [done |].
    split; [set_solver |].
    rewrite !not_elem_of_cons. done.
  - left. rewrite app_nil_r, !not_elem_of_cons. done.
  - rewrite app_nil_r. destruct started; simpl; rewrite !not_elem_of_cons; done.
Qed.

(** ** Keyword extraction *)

(** C8. Given that [list(set(xs))] enumerates exactly the elements of
    [xs], the extractor returns, for every resume text, exactly the
    terms of each vocabulary that occur in the lower-cased text, and the
    full default preferences; an empty text gives empty skills and
    roles; a missing or unreadable resume gives the empty result. *)
Theorem keyword_extractor_exact (env : Env) (pdf_path : string)
    (Hset : forall l x, x ∈ env_list_of_set env l <-> x ∈ l) :
  (forall text,
     env_resume_exists env pdf_path = true ->
     env_extract_text env pdf_path = Returned text ->
     exists kw,
       ResumeParser.parse_resume_keywords env pdf_path = Some kw
       /\ (forall skill, skill ∈ kw_skills kw
             <-> skill ∈ DEFAULT_SKILLS /\ occurs_in skill (lower text))
       /\ (forall role, role ∈ kw_roles kw
             <-> role ∈ DEFAULT_ROLES /\ occurs_in role (lower text))
       /\ kw_preferences kw = DEFAULT_PREFERENCES
       /\ (text = "" -> kw_skills kw = [] /\ kw_roles kw = []))
  /\ (env_resume_exists env pdf_path = false ->
      ResumeParser.parse_resume_keywords env pdf_path = None)
  /\ (forall e, env_extract_text env pdf_path = Raised e ->
      ResumeParser.parse_resume_keywords env pdf_path = None).
Proof.
  unfold ResumeParser.parse_resume_keywords. split; [| split].
  - intros text -> ->. cbn [negb]. eexists. split; [reflexivity |].
    cbn [kw_skills kw_roles kw_preferences].
    split; [| split; [| split]].
    + intros skill. by rewrite Hset, elem_of_list_filter, contains_spec.
    + intros role. by rewrite Hset, elem_of_list_filter, contains_spec.
    + done.
    + intros ->. split; apply elem_of_nil_inv; intros x; rewrite Hset;
        cbv [List.filter DEFAULT_SKILLS DEFAULT_ROLES lower contains startswith
             Ascii.eqb Bool.eqb andb orb]; apply not_elem_of_nil.
  - by intros ->.
  - intros e ->. by destruct (env_resume_exists env pdf_path).
Qed.

Lemma keyword_extractor_exact_witness :
  (forall l x, x ∈ env_list_of_set sample_env l <-> x ∈ l)
  /\ exists kw,
       ResumeParser.parse_resume_keywords sample_env "resume.pdf" = Some kw
       /\ (forall skill, skill ∈ kw_skills kw
             <-> skill ∈ DEFAULT_SKILLS
                 /\ occurs_in skill (lower "Backend Developer. Python, Django, AWS."))
       /\ (forall role, role ∈ kw_roles kw
             <-> role ∈ DEFAULT_ROLES
                 /\ occurs_in role (lower "Backend Developer. Python, Django, AWS."))
       /\ kw_preferences kw = DEFAULT_PREFERENCES
       /\ ("Backend Developer. Python, Django, AWS." = "" ->
           kw_skills kw = [] /\ kw_roles kw = []).
Proof.
  assert (H : forall l x, x ∈ env_list_of_set sample_env l <-> x ∈ l).
  { intros l x. simpl. apply elem_of_remove_dups. }
  split; [exact H |].
  exact (proj1 (keyword_extractor_exact sample_env "resume.pdf" H)
           "Backend Developer. Python, Django, AWS." eq_refl eq_refl).
Defined.

(** What the extractor finds in the sample resume. *)
Example sample_resume_keywords :
  ResumeParser.parse_resume_keywords sample_env "resume.pdf"
  = Some {| kw_skills := ["python"; "django"; "aws"];
            kw_roles := ["backend developer"];
            kw_preferences := DEFAULT_PREFERENCES |}.
Proof. vm_compute. reflexivity. Qed.

(** ** The unjobs.org adapter *)

Section UnjobsFacts.

Lemma job_record_description (t c l u d p : string) :
  JobScraper.job_record t c l u d p !! "description" = Some d.
Proof. vm_compute. reflexivity. Qed.

Lemma unjobs_cards_inv (env : Env) (cards : list UnjobsCard)
    (job : gmap string string) :
  job ∈ JobScraper.unjobs_cards env cards ->
  exists card, card ∈ cards /\ JobScraper.unjobs_card env card = Returned job.
Proof.
  induction cards as [|card cards IH]; simpl.
  - intros H. by apply elem_of_nil in H.
  - destruct (JobScraper.unjobs_card env card) as [j | e] eqn:Hc.
    + rewrite elem_of_cons. intros [-> | H].
      * exists card. split; [apply elem_of_cons; by left | done].
      * destruct (IH H) as (c & Hin & Hj). exists c.
        split; [apply elem_of_cons; by right | done].
    + intros H. destruct (IH H) as (c & Hin & Hj). exists c.
      split; [apply elem_of_cons; by right | done].
Qed.

Lemma unjobs_card_description (env : Env) (card : UnjobsCard)
    (job : gmap string string) :
  JobScraper.unjobs_card env card = Returned job ->
  job !! "description" = Some JobScraper.UNJOBS_DESCRIPTION.
Proof.
  unfold JobScraper.unjobs_card.
  destruct (JobScraper.unjobs_date_posted _ _) as [date_posted | e]; [| done].
  intros [= <-]. apply job_record_description.
Qed.

End UnjobsFacts.

(** C10. Every record emitted by the unjobs.org adapter carries the
    fixed placeholder as its description, so the filter tests of such a
    record that look at the description look at the placeholder: the
    international and NGO tests reduce to the company name, and roles
    and skills are matched against the title and the placeholder. *)
Theorem unjobs_description_is_placeholder (env : Env) (query : string)
    (job : gmap string string)
    (Hjob : job ∈ JobScraper.scrape_unjobs_org env query) :
  job !! "description" = Some JobScraper.UNJOBS_DESCRIPTION
  /\ Filter.field_lower job "description"
     = "aggregator listing - refer to external url for full details."
  /\ Filter.is_international_company job
     = existsb (fun keyword => contains keyword (Filter.field_lower job "company"))
               Filter.international_company_keywords
  /\ Filter.is_ngo job
     = existsb (fun keyword => contains keyword (Filter.field_lower job "company"))
               Filter.ngo_keywords
  /\ (forall kw,
        Filter.role_match job kw
        = existsb (fun role =>
                     contains (lower role) (Filter.field_lower job "title")
                     || contains (lower role) (lower JobScraper.UNJOBS_DESCRIPTION))
                  (kw_roles kw))
  /\ (forall skill,
        Filter.skill_matches job skill
        = contains (lower skill) (lower JobScraper.UNJOBS_DESCRIPTION)
          || contains (lower skill) (Filter.field_lower job "title")).
Proof.
  assert (Hd : job !! "description" = Some JobScraper.UNJOBS_DESCRIPTION).
  { unfold JobScraper.scrape_unjobs_org in Hjob.
    destruct (env_unjobs_listing env query) as [cards | e];
      [| by apply elem_of_nil in Hjob].
    apply unjobs_cards_inv in Hjob as (card & _ & Hcard).
    by apply unjobs_card_description in Hcard. }
  assert (Hl : Filter.field_lower job "description"
               = "aggregator listing - refer to external url for full details.").
  { unfold Filter.field_lower. by rewrite Hd. }
  split; [exact Hd | split; [exact Hl |]].
  unfold Filter.is_international_company, Filter.is_ngo, Filter.role_match,
    Filter.skill_matches, Filter.ngo_keywords. rewrite !Hl.
  split; [| split; [| split]].
  - change (contains "global" _) with false.
    change (contains "international" _) with false.
    change (contains "worldwide" _) with false.
    by rewrite !orb_false_r.
  - simpl existsb.
    repeat match goal with
           | |- context [contains ?k "aggregator listing - refer to external url for full details."] =>
               change (contains k "aggregator listing - refer to external url for full details.")
                 with false
           end.
    by rewrite !orb_false_r.
  - done.
  - done.
Qed.

Lemma unjobs_description_is_placeholder_witness :
  sample_unjobs_job ∈ JobScraper.scrape_unjobs_org sample_env "python remote"
  /\ sample_unjobs_job !! "description" = Some JobScraper.UNJOBS_DESCRIPTION.
Proof.
  assert (H : sample_unjobs_job
              ∈ JobScraper.scrape_unjobs_org sample_env "python remote").
  { assert (Hrun : JobScraper.scrape_unjobs_org sample_env "python remote"
                   = [sample_unjobs_job]) by reflexivity.
    rewrite Hrun. apply list_elem_of_singleton. reflexivity. }
  split; [exact H |].
  exact (proj1 (unjobs_description_is_placeholder sample_env "python remote"
                  sample_unjobs_job H)).
Defined.

(** The keyword lists handed to the filter are sets: the extractor
    passes each through [list(set(...))]. *)
Lemma parsed_skills_are_a_set (env : Env) (pdf_path : string) (kw : Keywords) :
  (forall l, NoDup (env_list_of_set env l)) ->
  ResumeParser.parse_resume_keywords env pdf_path = Some kw ->
  NoDup (kw_skills kw) /\ NoDup (kw_roles kw).
Proof.
  intros Hset. unfold ResumeParser.parse_resume_keywords.
  destruct (negb _); [done |].
  destruct (env_extract_text env pdf_path) as [text | e]; [| done].
  intros H. apply (inj Some) in H. rewrite <- H.
  cbn [kw_skills kw_roles]. split; apply Hset.
Qed.

(** ** Date normalization *)

Section RegexFacts.

Import Regex.

Lemma string_length_app (a b : string) :
  String.length (a ++ b) = (String.length a + String.length b)%nat.
Proof. induction a as [|c a IH]; simpl; [done | by rewrite IH]. Qed.

Lemma slice_from_app (a b : string) : slice_from (String.length a) (a ++ b) = b.
Proof. induction a as [|c a IH]; simpl; [by destruct b | done]. Qed.

Lemma slice_to_app (a b : string) : slice_to (String.length a) (a ++ b) = a.
Proof. induction a as [|c a IH]; simpl; [done | by rewrite IH]. Qed.

Lemma digit_is_not_space (c : ascii) : is_digit c = true -> is_space c = false.
Proof. destruct c as [[] [] [] [] [] [] [] []]; by vm_compute. Qed.

Lemma run_length_digits (ds : string) (c : ascii) (rest : string) :
  digits_only ds = true -> is_digit c = false ->
  run_length is_digit None (ds ++ String c rest) = String.length ds.
Proof.
  intros Hds Hc. induction ds as [|d ds IH]; simpl.
  - by rewrite Hc.
  - simpl in Hds. apply andb_true_iff in Hds as [-> Hds]. by rewrite IH.
Qed.

Lemma give_back_first {X : Type} (lo n : nat) (s : string)
    (k : string -> option X) (x : X) :
  k (slice_from n s) = Some x -> give_back lo n s k = Some x.
Proof. intros H. destruct n; cbn [give_back]; by rewrite H. Qed.

Lemma give_back_none {X : Type} (lo n : nat) (s : string) (k : string -> option X) :
  (forall j, (lo <= j <= n)%nat -> k (slice_from j s) = None) ->
  (lo <= n)%nat ->
  give_back lo n s k = None.
Proof.
  intros Hk. induction n as [|n IH]; intros Hlo.
  - cbn [give_back]. by rewrite (Hk 0%nat) by lia.
  - cbn [give_back]. rewrite (Hk (S n)) by lia.
    destruct (lo <=? n)%nat eqn:Hle; [| done].
    apply Nat.leb_le in Hle. apply IH; [| done].
    intros j Hj. apply Hk. lia.
Qed.

Lemma re_search_here (r : Re) (s : string) m :
  re_match r s = Some m -> re_search r s = Some m.
Proof. intros H. destruct s; simpl; by rewrite H. Qed.

(** A number followed by a text that the rest of the expression
    matches: the group is the number. *)
Lemma number_then_tail {X : Type} (tail_re : Re) (ds : string) (c : ascii)
    (rest : string) (k : string -> list (string * string) -> option X) (x : X) :
  ds <> "" -> digits_only ds = true -> is_digit c = false ->
  rmatch tail_re (String c rest) [("1", ds)] k = Some x ->
  rmatch (Seq (Grp "1" (Rep is_digit 1 None)) tail_re) (ds ++ String c rest) [] k
  = Some x.
Proof.
  intros Hne Hds Hc Htail. cbn [rmatch].
  rewrite (run_length_digits ds c rest Hds Hc).
  destruct (1 <=? String.length ds)%nat eqn:Hlen.
  - apply give_back_first. rewrite slice_from_app.
    replace (String.length (ds ++ String c rest) - String.length (String c rest))%nat
      with (String.length ds) by (rewrite string_length_app; lia).
    by rewrite slice_to_app.
  - apply Nat.leb_gt in Hlen. destruct ds; [done | simpl in Hlen; lia].
Qed.

Lemma days_ago_tail_days (caps : list (string * string)) :
  rmatch JobScraper.days_ago_tail " days ago" caps
    (fun rest found => Some (rest, found)) = Some ("", caps).
Proof. reflexivity. Qed.

Lemma days_ago_search (ds : string) :
  ds <> "" -> digits_only ds = true ->
  re_search JobScraper.days_ago_re (ds ++ " days ago") = Some ("", [("1", ds)]).
Proof.
  intros Hne Hds. apply re_search_here. unfold re_match, JobScraper.days_ago_re.
  apply number_then_tail; [done | done | reflexivity | apply days_ago_tail_days].
Qed.

Lemma date_range_tail_digit {X : Type} (c : ascii) (rest : string)
    (caps : list (string * string))
    (k : string -> list (string * string) -> option X) :
  is_digit c = true ->
  rmatch JobScraper.date_range_tail (String c rest) caps k = None.
Proof.
  intros Hc. unfold JobScraper.date_range_tail. cbn [rmatch run_length].
  by rewrite (digit_is_not_space c Hc).
Qed.

Lemma date_range_tail_days_ago {X : Type} (caps : list (string * string))
    (k : string -> list (string * string) -> option X) :
  rmatch JobScraper.date_range_tail " days ago" caps k = None.
Proof. reflexivity. Qed.

Lemma two_digits_fail {X : Type} (tail_re : Re) (s : string)
    (caps : list (string * string))
    (k : string -> list (string * string) -> option X) :
  (forall j, (1 <= j <= run_length is_digit (Some 2%nat) s)%nat ->
             rmatch tail_re (slice_from j s) caps k = None) ->
  rmatch (Seq (Rep is_digit 1 (Some 2%nat)) tail_re) s caps k = None.
Proof.
  intros H. cbn [rmatch].
  destruct (1 <=? run_length is_digit (Some 2%nat) s)%nat eqn:Hle; [| done].
  apply Nat.leb_le in Hle. by apply give_back_none.
Qed.

Lemma date_range_no_match (ds : string) :
  digits_only ds = true ->
  re_match JobScraper.date_range_re (ds ++ " days ago") = None.
Proof.
  intros Hds. unfold re_match, JobScraper.date_range_re. cbn [rmatch].
  apply two_digits_fail.
  destruct ds as [|c1 [|c2 [|c3 ds]]]; simpl in Hds; intros j Hj.
  - simpl in Hj. lia.
  - apply andb_true_iff in Hds as [H1 _].
    simpl in Hj. rewrite H1 in Hj. simpl in Hj.
    replace j with 1%nat by lia. apply date_range_tail_days_ago.
  - apply andb_true_iff in Hds as [H1 Hds].
    apply andb_true_iff in Hds as [H2 _].
    simpl in Hj. rewrite H1, H2 in Hj.
    assert (Hcases : j = 1%nat \/ j = 2%nat) by lia.
    destruct Hcases as [-> | ->].
    + by apply date_range_tail_digit.
    + apply date_range_tail_days_ago.
  - apply andb_true_iff in Hds as [H1 Hds].
    apply andb_true_iff in Hds as [H2 Hds].
    apply andb_true_iff in Hds as [H3 _].
    simpl in Hj. rewrite H1, H2 in Hj.
    assert (Hcases : j = 1%nat \/ j = 2%nat) by lia.
    destruct Hcases as [-> | ->]; by apply date_range_tail_digit.
Qed.

Lemma date_range_needs_digit (c : ascii) (rest : string) :
  is_digit c = false ->
  re_match JobScraper.date_range_re (String c rest) = None.
Proof.
  intros Hc. unfold re_match, JobScraper.date_range_re.
  cbn [rmatch run_length]. by rewrite Hc.
Qed.

End RegexFacts.

(** C7, as stated, fails for the careers.un.org adapter: it knows no
    relative form and no "Month D Year" format, so "3 days ago" and
    "July 24 2023" both give the current date. *)
Lemma careers_has_no_relative_form :
  JobScraper.careers_date_posted (mkDate 2026 11 3) (Some "3 days ago")
  = "2026-11-03"
  /\ Spec.normalize_date (mkDate 2026 11 3) (Some "3 days ago") = "2026-10-31"
  /\ JobScraper.careers_date_posted (mkDate 2026 11 3) (Some "July 24 2023")
     = "2026-11-03"
  /\ Spec.normalize_date (mkDate 2026 11 3) (Some "July 24 2023") = "2023-07-24"
  /\ JobScraper.careers_date_posted (mkDate 2026 11 3) (Some "3 days ago")
     <> Spec.normalize_date (mkDate 2026 11 3) (Some "3 days ago").
Proof. repeat split; vm_compute; try reflexivity. intros H. discriminate H. Qed.

(** C7, amended. The unjobs.org adapter turns "N days ago" into the
    current date minus N days when that date exists; a text with no
    relative form is tried, without its commas, as "Month D Year", then
    as it stands as "D Month Year", and otherwise gives the current
    date, as does an absent or empty date element; no such text makes
    the date block raise. The careers.un.org adapter parses only a
    leading "D Month YYYY" as "D Month Year" and gives the current date
    for everything else, "N days ago" and "Month D Year" included. *)
Theorem date_normalization_by_adapter (today : date) :
  (forall ds d,
     ds <> "" -> digits_only ds = true ->
     minus_days today (Regex.int_of_digits ds) = Some d ->
     JobScraper.unjobs_date_posted today (Some (ds ++ " days ago"))
     = Returned (isoformat d))
  /\ (forall text,
        Regex.re_search JobScraper.days_ago_re text = None ->
        JobScraper.unjobs_date_posted today (Some text)
        = Returned
            match strptime (remove_char "," text) "%B %d %Y" with
            | Some d => isoformat d
            | None =>
                match strptime text "%d %B %Y" with
                | Some d => isoformat d
                | None => isoformat today
                end
            end)
  /\ JobScraper.unjobs_date_posted today None = Returned (isoformat today)
  /\ JobScraper.unjobs_date_posted today (Some "") = Returned (isoformat today)
  /\ (forall ds,
        digits_only ds = true ->
        JobScraper.careers_date_posted today (Some (ds ++ " days ago"))
        = isoformat today)
  /\ (forall c rest,
        Regex.is_digit c = false ->
        JobScraper.careers_date_posted today (Some (String c rest))
        = isoformat today)
  /\ JobScraper.careers_date_posted today (Some "July 24 2023") = isoformat today
  /\ JobScraper.careers_date_posted today (Some "24 July 2023 - 23 August 2023")
     = "2023-07-24"
  /\ (forall posted,
        JobScraper.careers_date_posted today posted = isoformat today
        \/ exists text rest found d,
             posted = Some text
             /\ Regex.re_match JobScraper.date_range_re text = Some (rest, found)
             /\ strptime (default "" (Regex.group "1" found)) "%d %B %Y" = Some d
             /\ JobScraper.careers_date_posted today posted = isoformat d).
Proof.
  split; [| split; [| split; [| split; [| split; [| split; [| split; [| split]]]]]]].
  - intros ds d Hne Hds Hd. unfold JobScraper.unjobs_date_posted.
    assert (Hnonempty : JobScraper.nonempty (ds ++ " days ago") = true)
      by (destruct ds; [done | reflexivity]).
    rewrite Hnonempty, (days_ago_search ds Hne Hds).
    change (default "" (Regex.group "1" [("1", ds)])) with ds. by rewrite Hd.
  - intros text Hno. unfold JobScraper.unjobs_date_posted. rewrite Hno.
    destruct (JobScraper.nonempty text) eqn:Hne.
    + by destruct (strptime (remove_char "," text) "%B %d %Y"),
        (strptime text "%d %B %Y").
    + destruct text; [reflexivity | discriminate Hne].
  - reflexivity.
  - reflexivity.
  - intros ds Hds. unfold JobScraper.careers_date_posted.
    rewrite (date_range_no_match ds Hds).
    by destruct (JobScraper.nonempty _).
  - intros c rest Hc. unfold JobScraper.careers_date_posted.
    by rewrite (date_range_needs_digit c rest Hc).
  - reflexivity.
  - reflexivity.
  - intros [text |]; [| by left]. unfold JobScraper.careers_date_posted.
    destruct (JobScraper.nonempty text); [| by left].
    destruct (Regex.re_match JobScraper.date_range_re text) as [[rest found] |] eqn:Hm;
      [| by left].
    destruct (strptime _ "%d %B %Y") as [d |] eqn:Hd; [| by left].
    right. by exists text, rest, found, d.
Qed.

Lemma date_normalization_by_adapter_witness :
  "3" <> "" /\ digits_only "3" = true
  /\ minus_days (mkDate 2026 11 3) (Regex.int_of_digits "3")
     = Some (mkDate 2026 10 31)
  /\ JobScraper.unjobs_date_posted (mkDate 2026 11 3) (Some "3 days ago")
     = Returned "2026-10-31".
Proof.
  assert (H1 : "3" <> "") by (intros H; discriminate H).
  assert (H2 : digits_only "3" = true) by reflexivity.
  assert (H3 : minus_days (mkDate 2026 11 3) (Regex.int_of_digits "3")
               = Some (mkDate 2026 10 31)) by (vm_compute; reflexivity).
  split; [exact H1 | split; [exact H2 | split; [exact H3 |]]].
  exact (proj1 (date_normalization_by_adapter (mkDate 2026 11 3))
           "3" (mkDate 2026 10 31) H1 H2 H3).
Defined.

(** The unjobs.org date block raises when N days back is before year 1;
    the handler of the card loop then drops the card. *)
Example unjobs_overflow :
  JobScraper.unjobs_date_posted (mkDate 2026 11 3) (Some "9999999 days ago")
  = Raised OverflowError.
Proof. vm_compute. reflexivity. Qed.

(** On the unjobs.org adapter the policy of the design document and the
    code agree whenever the code returns. *)
Lemma unjobs_follows_policy (today : date) (posted : option string) (out : string) :
  JobScraper.unjobs_date_posted today posted = Returned out ->
  out = Spec.normalize_date today posted.
Proof.
  unfold JobScraper.unjobs_date_posted, Spec.normalize_date, minus_days.
  destruct posted as [text |]; [| by intros [= <-]].
  destruct (JobScraper.nonempty text) eqn:Hne.
  - destruct (Regex.re_search JobScraper.days_ago_re text) as [[rest found] |].
    + destruct (_ && _); [by intros [= <-] | done].
    + destruct (strptime (remove_char "," text) "%B %d %Y");
        [by intros [= <-] |].
      destruct (strptime text "%d %B %Y"); by intros [= <-].
  - destruct text; [| discriminate Hne]. by intros [= <-].
Qed.

(** ** A whole run *)

(** The sample run: the one unjobs.org record is new, so it is filtered;
    its title matches a role but the placeholder description matches no
    skill, so it is rejected and nothing is saved; the driver is
    released at the end. *)
Example sample_run :
  Pipeline.main sample_config sample_env
    (source_adapters sample_env (fun _ _ => Returned [])) fresh_world
  = (Returned tt,
     mkWorld []
       [EvSetupDatabase; EvDriverStarted; EvScrape Unjobs; EvScrape CareersUN;
        EvScrape Wellfound; EvScrape LinkedIn; EvSleep 2;
        EvFilter sample_unjobs_job; EvDriverQuit]).
Proof. reflexivity. Qed.

(** The same run on a store that already holds the URL of the record:
    the record is skipped before the filter. *)
Example sample_run_known_url :
  w_log (Pipeline.main sample_config sample_env
           (source_adapters sample_env (fun _ _ => Returned []))
           (mkWorld [{| sj_title := Some "Backend Developer";
                        sj_company := Some "WFP";
                        sj_location := Some "Remote";
                        sj_url := Some "https://apply.example.org/1";
                        sj_description := "";
                        sj_date_posted := "2026-10-31";
                        sj_date_found := "2026-11-01T09:00:00.000000";
                        sj_relevance_score := 3 |}] [])).2
  = [EvSetupDatabase; EvDriverStarted; EvScrape Unjobs; EvScrape CareersUN;
     EvScrape Wellfound; EvScrape LinkedIn; EvSleep 2; EvDriverQuit].
Proof. vm_compute. reflexivity. Qed.

(** An accepted job is saved once; met again in the same run, its
    second insert is refused by the store, and it is notified twice. *)
Example duplicate_within_a_run :
  let r := Pipeline.process_jobs sample_config sample_env ∅ example_keywords
             [job_a; job_a] [] fresh_world in
  List.length (w_table r.2) = 1%nat
  /\ match r.1 with
     | Returned notified => List.length notified = 2%nat
     | Raised _ => False
     end.
Proof. vm_compute. split; reflexivity. Qed.

(** * Further properties of the code *)

(** ** The relevance filter, continued *)

Section FilterMore.

Lemma filter_length_submseteq {A : Type} (f : A -> bool) (l1 l2 : list A) :
  l1 ⊆+ l2 ->
  (List.length (List.filter f l1) <= List.length (List.filter f l2))%nat.
Proof.
  induction 1 as [| x l1 l2 _ IH | x y l | x l1 l2 _ IH | l1 l2 l3 _ IH1 _ IH2];
    simpl.
  - lia.
  - destruct (f x); simpl; lia.
  - destruct (f x), (f y); simpl; lia.
  - destruct (f x); simpl; lia.
  - lia.
Qed.

Lemma skills_match_count_mono (job : gmap string string) (kw kw' : Keywords) :
  kw_skills kw ⊆+ kw_skills kw' ->
  Filter.skills_match_count job kw <= Filter.skills_match_count job kw'.
Proof.
  intros H. rewrite !skills_match_count_length.
  apply inj_le. by apply filter_length_submseteq.
Qed.

Lemma role_match_mono (job : gmap string string) (kw kw' : Keywords) :
  kw_roles kw ⊆ kw_roles kw' ->
  Filter.role_match job kw = true -> Filter.role_match job kw' = true.
Proof.
  intros Hsub. unfold Filter.role_match. rewrite !existsb_elem_of.
  intros (role & Hin & Hm). exists role. split; [by apply Hsub | done].
Qed.

Lemma filter_Some_inv (thr : Z) (clock : Clock) (job : gmap string string)
    (kw : Keywords) (scored : ScoredJob) :
  Filter.filter_and_process_job thr clock job kw = Some scored ->
  Filter.is_relevant thr job kw = true
  /\ sj_relevance_score scored
     = Filter.relevance_score_of (Filter.skills_match_count job kw)
         (Filter.is_ngo job) (Filter.is_international_company job).
Proof.
  unfold Filter.filter_and_process_job.
  destruct (Filter.is_relevant thr job kw); [| done].
  by intros [= <-].
Qed.

Lemma is_relevant_true (thr : Z) (job : gmap string string) (kw : Keywords) :
  Filter.is_relevant thr job kw = true
  <-> Filter.is_remote job = true /\ Filter.role_match job kw = true
      /\ thr <= Filter.skills_match_count job kw
      /\ (Filter.is_international_company job = true \/ Filter.is_ngo job = true).
Proof.
  unfold Filter.is_relevant, Filter.has_sufficient_skills.
  rewrite !andb_true_iff, orb_true_iff, Z.leb_le. tauto.
Qed.

End FilterMore.

(** X1. Lowering the threshold, or adding skills and roles to the
    keywords, never turns an accepted job into a rejected one and never
    lowers its score. *)
Theorem filter_monotone (thr thr' : Z) (clock : Clock)
    (job : gmap string string) (kw kw' : Keywords) (scored : ScoredJob)
    (Hthr : thr' <= thr)
    (Hskills : kw_skills kw ⊆+ kw_skills kw')
    (Hroles : kw_roles kw ⊆ kw_roles kw')
    (Haccepted : Filter.filter_and_process_job thr clock job kw = Some scored) :
  exists scored',
    Filter.filter_and_process_job thr' clock job kw' = Some scored'
    /\ sj_relevance_score scored <= sj_relevance_score scored'.
Proof.
  apply filter_Some_inv in Haccepted as [Hrel Hscore].
  apply is_relevant_true in Hrel as (Hremote & Hrole & Hcount & Hkind).
  pose proof (skills_match_count_mono job kw kw' Hskills) as Hmono.
  assert (Hrel' : Filter.is_relevant thr' job kw' = true).
  { apply is_relevant_true. repeat split; try done.
    - by apply (role_match_mono job kw kw').
    - lia. }
  unfold Filter.filter_and_process_job. rewrite Hrel'.
  eexists. split; [reflexivity |]. simpl. rewrite Hscore.
  unfold Filter.relevance_score_of. lia.
Qed.

Lemma filter_monotone_witness :
  exists scored',
    Filter.filter_and_process_job 1 example_clock charity_job
      {| kw_skills := ["flask"; "aws"; "django"; "python"];
         kw_roles := ["devops engineer"; "backend developer"];
         kw_preferences := [] |} = Some scored'
    /\ 5 <= sj_relevance_score scored'.
Proof.
  assert (Hthr : 1 <= 2) by lia.
  assert (Hskills : kw_skills example_keywords
                    ⊆+ ["flask"; "aws"; "django"; "python"]).
  { apply (bool_decide_unpack _). vm_compute. exact I. }
  assert (Hroles : kw_roles example_keywords
                   ⊆ ["devops engineer"; "backend developer"]).
  { intros r Hr. apply list_elem_of_singleton in Hr as ->.
    apply elem_of_cons. right. apply elem_of_cons. by left. }
  assert (Hacc : Filter.filter_and_process_job 2 example_clock charity_job
                   example_keywords
                 = Some {| sj_title := Some "Backend Developer";
                           sj_company := Some "Save Charity";
                           sj_location := Some "Remote";
                           sj_url := None;
                           sj_description := "python django aws";
                           sj_date_posted := "2026-11-03";
                           sj_date_found := "2026-11-03T09:00:00.000000";
                           sj_relevance_score := 5 |})
    by (vm_compute; reflexivity).
  exact (filter_monotone 2 1 example_clock charity_job example_keywords
           {| kw_skills := ["flask"; "aws"; "django"; "python"];
              kw_roles := ["devops engineer"; "backend developer"];
              kw_preferences := [] |} _ Hthr Hskills Hroles Hacc).
Defined.

(** X2. The score of an accepted record is at least one above the
    configured threshold, and at least 1 whatever the threshold. *)
Theorem accepted_score_lower_bound (thr : Z) (clock : Clock)
    (job : gmap string string) (kw : Keywords) :
  match Filter.filter_and_process_job thr clock job kw with
  | Some scored =>
      thr + 1 <= sj_relevance_score scored /\ 1 <= sj_relevance_score scored
  | None => True
  end.
Proof.
  destruct (Filter.filter_and_process_job thr clock job kw) as [scored |] eqn:H;
    [| done].
  apply filter_Some_inv in H as [Hrel ->].
  apply is_relevant_true in Hrel as (_ & _ & Hcount & Hkind).
  pose proof (skills_match_count_nonneg job kw).
  unfold Filter.relevance_score_of.
  destruct Hkind as [-> | ->];
    destruct (Filter.is_ngo job), (Filter.is_international_company job); lia.
Qed.

Section CaseFacts.

Lemma filter_length_map {A B : Type} (g : A -> B) (f : B -> bool) (l : list A) :
  List.length (List.filter (fun x => f (g x)) l)
  = List.length (List.filter f (map g l)).
Proof.
  induction l as [|x l IH]; simpl; [done |].
  destruct (f (g x)); simpl; by rewrite IH.
Qed.

Lemma existsb_map {A B : Type} (g : A -> B) (f : B -> bool) (l : list A) :
  existsb (fun x => f (g x)) l = existsb f (map g l).
Proof. induction l as [|x l IH]; simpl; [done | by rewrite IH]. Qed.

End CaseFacts.

(** X3. Matching ignores letter case throughout: two jobs whose title,
    company, location and description agree once lower-cased, and two
    keyword sets whose roles and skills agree once lower-cased, get the
    same decision and the same score. *)
Theorem filter_ignores_case (thr : Z) (clock : Clock)
    (job job' : gmap string string) (kw kw' : Keywords)
    (Hfields : forall k, k ∈ ["title"; "company"; "location"; "description"] ->
                         Filter.field_lower job k = Filter.field_lower job' k)
    (Hskills : map lower (kw_skills kw) = map lower (kw_skills kw'))
    (Hroles : map lower (kw_roles kw) = map lower (kw_roles kw')) :
  Filter.is_relevant thr job kw = Filter.is_relevant thr job' kw'
  /\ sj_relevance_score <$> Filter.filter_and_process_job thr clock job kw
     = sj_relevance_score <$> Filter.filter_and_process_job thr clock job' kw'.
Proof.
  assert (Ht : Filter.field_lower job "title" = Filter.field_lower job' "title")
    by (apply Hfields; set_solver).
  assert (Hc : Filter.field_lower job "company" = Filter.field_lower job' "company")
    by (apply Hfields; set_solver).
  assert (Hl : Filter.field_lower job "location" = Filter.field_lower job' "location")
    by (apply Hfields; set_solver).
  assert (Hd : Filter.field_lower job "description"
               = Filter.field_lower job' "description")
    by (apply Hfields; set_solver).
  assert (Hremote : Filter.is_remote job = Filter.is_remote job')
    by (unfold Filter.is_remote; by rewrite Ht, Hl).
  assert (Hintl : Filter.is_international_company job
                  = Filter.is_international_company job')
    by (unfold Filter.is_international_company; by rewrite Hc, Hd).
  assert (Hngo : Filter.is_ngo job = Filter.is_ngo job')
    by (unfold Filter.is_ngo; by rewrite Hc, Hd).
  assert (Hrole : Filter.role_match job kw = Filter.role_match job' kw').
  { unfold Filter.role_match. rewrite Ht, Hd.
    rewrite (existsb_map lower
               (fun r => contains r (Filter.field_lower job' "title")
                         || contains r (Filter.field_lower job' "description"))
               (kw_roles kw)).
    rewrite (existsb_map lower
               (fun r => contains r (Filter.field_lower job' "title")
                         || contains r (Filter.field_lower job' "description"))
               (kw_roles kw')).
    by rewrite Hroles. }
  assert (Hcount : Filter.skills_match_count job kw
                   = Filter.skills_match_count job' kw').
  { rewrite !skills_match_count_length. f_equal.
    unfold Filter.skill_matches. rewrite Ht, Hd.
    rewrite (filter_length_map lower
               (fun s => contains s (Filter.field_lower job' "description")
                         || contains s (Filter.field_lower job' "title"))
               (kw_skills kw)).
    rewrite (filter_length_map lower
               (fun s => contains s (Filter.field_lower job' "description")
                         || contains s (Filter.field_lower job' "title"))
               (kw_skills kw')).
    by rewrite Hskills. }
  assert (Hrel : Filter.is_relevant thr job kw = Filter.is_relevant thr job' kw').
  { unfold Filter.is_relevant, Filter.has_sufficient_skills.
    by rewrite Hremote, Hrole, Hcount, Hintl, Hngo. }
  split; [exact Hrel |].
  unfold Filter.filter_and_process_job. rewrite <- Hrel.
  destruct (Filter.is_relevant thr job kw); [| done].
  simpl. by rewrite Hcount, Hintl, Hngo.
Qed.

Lemma filter_ignores_case_witness :
  Filter.is_relevant 2 charity_job example_keywords
  = Filter.is_relevant 2
      (list_to_map [("title", "BACKEND DEVELOPER"); ("location", "REMOTE");
                    ("company", "SAVE CHARITY");
                    ("description", "Python Django AWS")])
      {| kw_skills := ["Python"; "DJANGO"; "aws"];
         kw_roles := ["Backend Developer"];
         kw_preferences := [] |}.
Proof.
  assert (Hfields : forall k,
            k ∈ ["title"; "company"; "location"; "description"] ->
            Filter.field_lower charity_job k
            = Filter.field_lower
                (list_to_map [("title", "BACKEND DEVELOPER"); ("location", "REMOTE");
                              ("company", "SAVE CHARITY");
                              ("description", "Python Django AWS")]) k).
  { intros k Hk.
    repeat (apply elem_of_cons in Hk as [-> | Hk]); try (vm_compute; reflexivity).
    by apply elem_of_nil in Hk. }
  assert (Hskills : map lower (kw_skills example_keywords)
                    = map lower ["Python"; "DJANGO"; "aws"]) by reflexivity.
  assert (Hroles : map lower (kw_roles example_keywords)
                   = map lower ["Backend Developer"]) by reflexivity.
  exact (proj1 (filter_ignores_case 2 example_clock charity_job _ example_keywords
                  {| kw_skills := ["Python"; "DJANGO"; "aws"];
                     kw_roles := ["Backend Developer"];
                     kw_preferences := [] |} Hfields Hskills Hroles)).
Defined.

(** X4. The NGO test is a plain substring test, so it fires inside
    longer words: a company or description that contains any word in
    which an NGO keyword occurs passes it. The word "django" is one,
    because of "ngo". *)
Theorem ngo_test_fires_inside_words (job : gmap string string)
    (word keyword : string)
    (Hkeyword : keyword ∈ Filter.ngo_keywords)
    (Hinside : occurs_in keyword (lower word))
    (Hword : occurs_ci word (default "" (job !! "company"))
             \/ occurs_ci word (default "" (job !! "description"))) :
  Filter.is_ngo job = true.
Proof.
  unfold Filter.is_ngo. apply existsb_elem_of. exists keyword.
  split; [exact Hkeyword |]. apply orb_true_iff.
  unfold Filter.field_lower. rewrite !contains_spec.
  destruct Hword as [H | H]; [left | right];
    exact (occurs_in_trans _ _ _ Hinside H).
Qed.

Lemma ngo_test_fires_inside_words_witness :
  Filter.is_ngo global_job = false
  /\ Filter.is_ngo (<["description" := "Python, Django, AWS"]> global_job) = true.
Proof.
  split; [vm_compute; reflexivity |].
  assert (Hk : "ngo" ∈ Filter.ngo_keywords) by (apply elem_of_cons; by left).
  assert (Hin : occurs_in "ngo" (lower "Django")) by (by exists "dja", "").
  assert (Hw : occurs_ci "Django" (default "" (global_job !! "company"))
               \/ occurs_ci "Django"
                    (default "" (<["description" := "Python, Django, AWS"]> global_job
                                   !! "description"))).
  { right. rewrite lookup_insert_eq. by exists "python, ", ", aws". }
  refine (ngo_test_fires_inside_words
            (<["description" := "Python, Django, AWS"]> global_job)
            "Django" "ngo" Hk Hin _).
  destruct Hw as [Hw | Hw]; [left | right; exact Hw].
  by rewrite lookup_insert_ne.
Defined.

(** X5. Inputs with missing data are rejected: a keyword set without
    roles rejects every job, and a job without a location is rejected
    unless its title says "work from home". *)
Theorem missing_data_is_rejected (thr : Z) (clock : Clock)
    (job : gmap string string) (kw : Keywords) :
  (kw_roles kw = [] -> Filter.filter_and_process_job thr clock job kw = None)
  /\ (job !! "location" = None ->
      ~ occurs_ci "work from home" (default "" (job !! "title")) ->
      Filter.filter_and_process_job thr clock job kw = None).
Proof.
  split.
  - intros Hroles. unfold Filter.filter_and_process_job, Filter.is_relevant,
      Filter.role_match. rewrite Hroles. simpl existsb.
    by rewrite andb_false_r.
  - intros Hloc Htitle.
    assert (Hremote : Filter.is_remote job = false).
    { unfold Filter.is_remote, Filter.field_lower. rewrite Hloc.
      apply contains_false in Htitle.
      change (lower "work from home") with "work from home" in Htitle.
      rewrite Htitle. reflexivity. }
    unfold Filter.filter_and_process_job, Filter.is_relevant. by rewrite Hremote.
Qed.

Lemma missing_data_is_rejected_witness :
  Filter.filter_and_process_job 0 example_clock charity_job
    {| kw_skills := ["python"]; kw_roles := []; kw_preferences := [] |} = None
  /\ Filter.filter_and_process_job 0 example_clock
       (delete "location" charity_job) example_keywords = None.
Proof.
  split.
  - exact (proj1 (missing_data_is_rejected 0 example_clock charity_job
                    {| kw_skills := ["python"]; kw_roles := [];
                       kw_preferences := [] |}) eq_refl).
  - assert (Hloc : delete "location" charity_job !! "location" = None)
      by apply lookup_delete_eq.
    assert (Ht : ~ occurs_ci "work from home"
                     (default "" (delete "location" charity_job !! "title"))).
    { apply contains_false. vm_compute. reflexivity. }
    exact (proj2 (missing_data_is_rejected 0 example_clock
                    (delete "location" charity_job) example_keywords) Hloc Ht).
Defined.

(** X6. A configured threshold of zero or less switches the skill test
    off: the job is accepted exactly when it is remote, matches a role
    and is international or an NGO, whatever the skills are. *)
Theorem nonpositive_threshold_skips_skills (thr : Z) (clock : Clock)
    (job : gmap string string) (kw : Keywords) (Hthr : thr <= 0) :
  is_Some (Filter.filter_and_process_job thr clock job kw)
  <-> Filter.is_remote job = true /\ Filter.role_match job kw = true
      /\ (Filter.is_international_company job = true \/ Filter.is_ngo job = true).
Proof.
  rewrite filter_is_Some, is_relevant_true.
  pose proof (skills_match_count_nonneg job kw). split.
  - tauto.
  - intros (H1 & H2 & H3). repeat split; try done. lia.
Qed.

Lemma nonpositive_threshold_skips_skills_witness :
  is_Some (Filter.filter_and_process_job 0 example_clock charity_job
             {| kw_skills := []; kw_roles := ["backend developer"];
                kw_preferences := [] |}).
Proof.
  assert (Hthr : 0 <= 0) by lia.
  apply (nonpositive_threshold_skips_skills 0 example_clock charity_job
           {| kw_skills := []; kw_roles := ["backend developer"];
              kw_preferences := [] |} Hthr).
  repeat split; [vm_compute; reflexivity .. | right; vm_compute; reflexivity].
Defined.

(** ** Description extraction, continued *)

Section SliceFacts.




Lemma requests_description_bound (env : Env) (job_url : option string) :
  Z.of_nat (String.length
              (JobScraper.fetch_full_description_requests env job_url)) <= 5000.
Proof.
  unfold JobScraper.fetch_full_description_requests.
  destruct (JobScraper.no_url job_url); [by vm_compute |].
  destruct (env_detail_soup env _) as [soup | e]; [| by vm_compute].
  destruct (ds_description_div soup);
    [apply slice_bound | apply generic_description_bound].
Qed.

Lemma rendered_description_bound (env : Env) (driver : option Driver)
    (job_url : option string) :
  Z.of_nat (String.length
              (JobScraper.fetch_full_description_selenium env driver job_url))
  <= 5000.
Proof.
  unfold JobScraper.fetch_full_description_selenium.
  destruct driver; [| by vm_compute].
  destruct (JobScraper.no_url job_url); [by vm_compute |].
  destruct (env_rendered_soup env _) as [soup | e]; [| by vm_compute].
  apply generic_description_bound.
Qed.

Lemma driver_description_bound (env : Env) (driver : option Driver)
    (job_url : option string) :
  Z.of_nat (String.length
              (SeleniumScraper.fetch_full_description_selenium env driver job_url))
  <= 5000.
Proof.
  unfold SeleniumScraper.fetch_full_description_selenium.
  destruct driver; [| by vm_compute].
  destruct (JobScraper.no_url job_url); [by vm_compute |].
  destruct (env_driver_page env _) as [page | e]; [| exact sentinel_bound].
  destruct (dp_site_elements page); [| apply slice_bound].
  destruct (dp_main_content page) as [text | e]; [apply slice_bound |].
  destruct e; try exact sentinel_bound.
  destruct (dp_body page); [apply slice_bound | exact sentinel_bound].
Qed.

End SliceFacts.



(** X8. A strategy that finds elements ends the chain even when what it
    finds is empty: with an empty site-specific container the result is
    the empty text, and the generic strategy turns to the broad sweep
    only when no element matches the class test, not when the matching
    elements are all empty. *)
Theorem empty_hit_ends_the_chain (env : Env) (job_url : string)
    (soup : DetailSoup)
    (Hurl : JobScraper.no_url (Some job_url) = false)
    (Hpage : env_detail_soup env job_url = Returned soup) :
  (ds_description_div soup = Some "" ->
   JobScraper.fetch_full_description_requests env (Some job_url) = "")
  /\ (ds_description_div soup = None ->
      ds_class_elements soup <> [] ->
      Forall (fun text => text = "") (ds_class_elements soup) ->
      JobScraper.fetch_full_description_requests env (Some job_url) = "")
  /\ (ds_class_elements soup <> [] ->
      Forall (fun text => text = "") (ds_class_elements soup) ->
      JobScraper.generic_description soup = "").
Proof.
  assert (Hgen : ds_class_elements soup <> [] ->
                 Forall (fun text => text = "") (ds_class_elements soup) ->
                 JobScraper.generic_description soup = "").
  { intros Hne Hall. unfold JobScraper.generic_description.
    destruct (ds_class_elements soup) as [|t elems] eqn:He; [done |].
    replace (List.filter JobScraper.nonempty (t :: elems)) with (@nil string).
    - simpl. unfold JobScraper.MAX_DESCRIPTION. by destruct (Z.to_nat 5000).
    - clear He Hne. induction Hall as [|x l -> _ IH]; [done |].
      simpl. exact IH. }
  unfold JobScraper.fetch_full_description_requests.
  rewrite Hurl. cbn [default from_option id]. rewrite Hpage.
  split; [| split; [| exact Hgen]].
  - intros ->. unfold JobScraper.MAX_DESCRIPTION. by destruct (Z.to_nat 5000).
  - intros ->. exact Hgen.
Qed.

Lemma empty_hit_ends_the_chain_witness :
  JobScraper.fetch_full_description_requests careers_env
    (Some "https://careers.un.org/jobopening/7") = ""
  /\ ds_class_elements
       {| ds_description_div := Some "";
          ds_class_elements := ["Duties and responsibilities"];
          ds_broad_elements := ["Apply now"] |} <> [].
Proof.
  split; [| intros H; discriminate H].
  exact (proj1 (empty_hit_ends_the_chain careers_env
                  "https://careers.un.org/jobopening/7" _ eq_refl eq_refl)
           eq_refl).
Defined.

(** ** The adapters, continued *)

Section AdapterFacts.

Lemma job_record_lookups (t c l u d p : string) :
  JobScraper.job_record t c l u d p !! "title" = Some t
  /\ JobScraper.job_record t c l u d p !! "company" = Some c
  /\ JobScraper.job_record t c l u d p !! "location" = Some l
  /\ JobScraper.job_record t c l u d p !! "url" = Some u
  /\ JobScraper.job_record t c l u d p !! "description" = Some d
  /\ JobScraper.job_record t c l u d p !! "date_posted" = Some p.
Proof. repeat split; vm_compute; reflexivity. Qed.

Lemma driver_job_record_lookups (t c l : string) (u : option string) (d p : string) :
  SeleniumAdapters.driver_job_record t c l u d p !! "title" = Some t
  /\ SeleniumAdapters.driver_job_record t c l u d p !! "company" = Some c
  /\ SeleniumAdapters.driver_job_record t c l u d p !! "url" = u
  /\ SeleniumAdapters.driver_job_record t c l u d p !! "description" = Some d.
Proof. destruct u; repeat split; vm_compute; reflexivity. Qed.

Lemma driver_cards_inv (env : Env) (driver : option Driver) (company : string)
    (cards : list DriverCard) (job : gmap string string) :
  job ∈ SeleniumAdapters.driver_cards env driver company cards ->
  exists card, card ∈ cards
    /\ SeleniumAdapters.driver_card env driver company card = Some job.
Proof.
  induction cards as [|card cards IH]; simpl.
  - intros H. by apply elem_of_nil in H.
  - destruct (SeleniumAdapters.driver_card env driver company card) as [j |] eqn:Hc.
    + rewrite elem_of_cons. intros [-> | H].
      * exists card. split; [apply elem_of_cons; by left | done].
      * destruct (IH H) as (c & Hin & Hj). exists c.
        split; [apply elem_of_cons; by right | done].
    + intros H. destruct (IH H) as (c & Hin & Hj). exists c.
      split; [apply elem_of_cons; by right | done].
Qed.

Lemma driver_card_description (env : Env) (driver : option Driver)
    (company : string) (card : DriverCard) (job : gmap string string) :
  SeleniumAdapters.driver_card env driver company card = Some job ->
  exists d, job !! "description" = Some d
    /\ Z.of_nat (String.length d) <= 5000
    /\ job !! "company" = Some company.
Proof.
  unfold SeleniumAdapters.driver_card.
  destruct (dc_title_elem card) as [t |]; [| done].
  destruct (dc_job_url_elem card) as [u |]; [| done].
  destruct (dc_location_elem card) as [l |]; [| done].
  intros [= <-].
  destruct (driver_job_record_lookups (strip t) company (strip l) u
              (SeleniumScraper.fetch_full_description_selenium env driver u)
              (isoformat (env_today env))) as (_ & Hc & _ & Hd).
  eexists. split; [exact Hd |]. split; [apply driver_description_bound | exact Hc].
Qed.

Lemma driver_cards_app (env : Env) (driver : option Driver) (company : string)
    (l1 l2 : list DriverCard) :
  SeleniumAdapters.driver_cards env driver company (l1 ++ l2)%list
  = (SeleniumAdapters.driver_cards env driver company l1
     ++ SeleniumAdapters.driver_cards env driver company l2)%list.
Proof.
  induction l1 as [|card l1 IH]; simpl; [done |].
  destruct (SeleniumAdapters.driver_card env driver company card); simpl;
    by rewrite IH.
Qed.

Lemma wellfound_card_description (env : Env) (driver : option Driver)
    (card : WellfoundCard) :
  exists d, Wellfound.wellfound_card env driver card !! "description" = Some d
    /\ Z.of_nat (String.length d) <= 5000.
Proof.
  unfold Wellfound.wellfound_card.
  eexists. split; [apply job_record_lookups |].
  destruct (contains _ _); [| apply requests_description_bound].
  destruct driver; [apply rendered_description_bound | by vm_compute].
Qed.

End AdapterFacts.

(** X9. Whatever the sites answer, every record built by any of the
    five adapters (unjobs.org, careers.un.org, Wellfound, Microsoft,
    WFP) has a description of at most 5000 characters. *)
Theorem every_record_has_a_bounded_description (env : Env) (web : Web)
    (driver : option Driver) (query : string) (keywords : list string)
    (job : gmap string string)
    (Hjob : job ∈ (JobScraper.scrape_unjobs_org env query
                   ++ JobScraper.scrape_careers_un_org env
                   ++ Wellfound.scrape_wellfound env web driver query
                   ++ SeleniumAdapters.scrape_microsoft_careers env web driver query
                   ++ SeleniumAdapters.scrape_wfp_careers env web driver keywords)%list) :
  exists description,
    job !! "description" = Some description
    /\ Z.of_nat (String.length description) <= 5000.
Proof.
  rewrite !elem_of_app in Hjob. destruct Hjob as [H | [H | [H | [H | H]]]].
  - unfold JobScraper.scrape_unjobs_org in H.
    destruct (env_unjobs_listing env query) as [cards | e];
      [| by apply elem_of_nil in H].
    apply unjobs_cards_inv in H as (card & _ & Hcard).
    apply unjobs_card_description in Hcard.
    eexists. split; [exact Hcard | by vm_compute].
  - unfold JobScraper.scrape_careers_un_org in H.
    destruct (env_careers_listing env) as [rows | e];
      [| by apply elem_of_nil in H].
    apply list_elem_of_In, in_map_iff in H as (row & <- & _).
    unfold JobScraper.careers_row.
    eexists. split; [apply job_record_lookups | apply requests_description_bound].
  - unfold Wellfound.scrape_wellfound in H.
    destruct driver as [d |]; [| by apply elem_of_nil in H].
    destruct (web_wellfound_listing web query) as [cards | e];
      [| by apply elem_of_nil in H].
    apply list_elem_of_In, in_map_iff in H as (card & <- & _).
    apply wellfound_card_description.
  - unfold SeleniumAdapters.scrape_microsoft_careers in H.
    destruct driver as [d |]; [| by apply elem_of_nil in H].
    destruct (web_microsoft_listing web query) as [cards | e];
      [| by apply elem_of_nil in H].
    apply driver_cards_inv in H as (card & _ & Hcard).
    apply driver_card_description in Hcard as (d' & Hd & Hlen & _).
    by exists d'.
  - unfold SeleniumAdapters.scrape_wfp_careers in H.
    destruct driver as [d |]; [| by apply elem_of_nil in H].
    destruct (web_wfp_listing web keywords) as [cards | e];
      [| by apply elem_of_nil in H].
    apply driver_cards_inv in H as (card & _ & Hcard).
    apply driver_card_description in Hcard as (d' & Hd & Hlen & _).
    by exists d'.
Qed.

Lemma every_record_has_a_bounded_description_witness :
  exists description,
    sample_unjobs_job !! "description" = Some description
    /\ Z.of_nat (String.length description) <= 5000.
Proof.
  assert (H : sample_unjobs_job
              ∈ (JobScraper.scrape_unjobs_org sample_env "python remote"
                 ++ JobScraper.scrape_careers_un_org sample_env
                 ++ Wellfound.scrape_wellfound sample_env sample_web None "python remote"
                 ++ SeleniumAdapters.scrape_microsoft_careers sample_env sample_web
                      None "python remote"
                 ++ SeleniumAdapters.scrape_wfp_careers sample_env sample_web
                      None ["python"])%list).
  { apply elem_of_app. left.
    assert (Hrun : JobScraper.scrape_unjobs_org sample_env "python remote"
                   = [sample_unjobs_job]) by reflexivity.
    rewrite Hrun. apply list_elem_of_singleton. reflexivity. }
  exact (every_record_has_a_bounded_description sample_env sample_web None
           "python remote" ["python"] sample_unjobs_job H).
Defined.

(** X10. In the Microsoft and WFP adapters a card that lacks its title,
    its link or its location is skipped and changes nothing else: the
    result is the one of the listing without that card, in the same
    order. *)
Theorem incomplete_card_is_skipped (env : Env) (web : Web) (driver : Driver)
    (query_params : string) (keywords : list string)
    (before after : list DriverCard) (card : DriverCard) (e : Exn)
    (Hmissing : dc_title_elem card = Raised e
                \/ dc_job_url_elem card = Raised e
                \/ dc_location_elem card = Raised e) :
  (web_microsoft_listing web query_params
   = Returned (before ++ card :: after)%list ->
   SeleniumAdapters.scrape_microsoft_careers env web (Some driver) query_params
   = SeleniumAdapters.driver_cards env (Some driver) "Microsoft"
       (before ++ after)%list)
  /\ (web_wfp_listing web keywords = Returned (before ++ card :: after)%list ->
      SeleniumAdapters.scrape_wfp_careers env web (Some driver) keywords
      = SeleniumAdapters.driver_cards env (Some driver) "World Food Programme"
          (before ++ after)%list).
Proof.
  assert (Hskip : forall company,
             SeleniumAdapters.driver_card env (Some driver) company card = None).
  { intros company. unfold SeleniumAdapters.driver_card.
    destruct Hmissing as [-> | [-> | ->]]; [done | |].
    - by destruct (dc_title_elem card).
    - by destruct (dc_title_elem card), (dc_job_url_elem card). }
  assert (Hloop : forall company,
             SeleniumAdapters.driver_cards env (Some driver) company
               (before ++ card :: after)%list
             = SeleniumAdapters.driver_cards env (Some driver) company
                 (before ++ after)%list).
  { intros company. rewrite !driver_cards_app. simpl. by rewrite Hskip. }
  split; intros Hlisting.
  - unfold SeleniumAdapters.scrape_microsoft_careers. by rewrite Hlisting, Hloop.
  - unfold SeleniumAdapters.scrape_wfp_careers. by rewrite Hlisting, Hloop.
Qed.

Lemma incomplete_card_is_skipped_witness :
  List.length (SeleniumAdapters.scrape_microsoft_careers sample_env sample_web
                 (Some ChromeDriver) "q=python") = 1%nat.
Proof.
  assert (Hmissing :
            dc_title_elem {| dc_title_elem := Raised NoSuchElementException;
                             dc_job_url_elem := Returned None;
                             dc_location_elem := Returned "Nairobi" |}
            = Raised NoSuchElementException
            \/ dc_job_url_elem {| dc_title_elem := Raised NoSuchElementException;
                                  dc_job_url_elem := Returned None;
                                  dc_location_elem := Returned "Nairobi" |}
               = Raised NoSuchElementException
            \/ dc_location_elem {| dc_title_elem := Raised NoSuchElementException;
                                   dc_job_url_elem := Returned None;
                                   dc_location_elem := Returned "Nairobi" |}
               = Raised NoSuchElementException) by (by left).
  rewrite (proj1 (incomplete_card_is_skipped sample_env sample_web ChromeDriver
                    "q=python" []
                    [ {| dc_title_elem := Returned "Software Engineer";
                         dc_job_url_elem := Returned (Some "https://jobs.example.org/1");
                         dc_location_elem := Returned "Nairobi" |} ]
                    [] _ NoSuchElementException Hmissing) eq_refl).
  reflexivity.
Defined.


Section StripFacts.

Lemma lstrip_tidy (s : string) : tidy_start (lstrip s).
Proof.
  induction s as [|c s IH]; simpl; [done |].
  destruct (is_space c) eqn:Hc; [exact IH | exact Hc].
Qed.

Lemma lstrip_of_tidy (s : string) : tidy_start s -> lstrip s = s.
Proof. destruct s as [|c s]; simpl; [done |]. by intros ->. Qed.

Lemma rstrip_tidy (s : string) : tidy_start s -> tidy_start (rstrip s).
Proof.
  destruct s as [|c s]; simpl; [done |]. intros Hc.
  destruct (rstrip s); simpl; [by rewrite Hc | done].
Qed.

Lemma rstrip_idem (s : string) : rstrip (rstrip s) = rstrip s.
Proof.
  induction s as [|c s IH]; simpl; [done |].
  destruct (rstrip s) as [|d r] eqn:Hr.
  - destruct (is_space c) eqn:Hc; simpl; [done | by rewrite Hc].
  - change (rstrip (String c (String d r)))
      with (match rstrip (String d r) with
            | EmptyString => if is_space c then EmptyString else String c EmptyString
            | r' => String c r'
            end).
    by rewrite IH.
Qed.

Lemma strip_idem (s : string) : strip (strip s) = strip s.
Proof.
  unfold strip.
  rewrite (lstrip_of_tidy (rstrip (lstrip s))) by apply rstrip_tidy, lstrip_tidy.
  apply rstrip_idem.
Qed.

End StripFacts.

(** X12. The application URL the unjobs.org adapter stores is "N/A" or
    the stripped link of the apply button: it never carries blanks at
    either end. For a URL that is not a vacancy page of unjobs.org the
    answer is "N/A" whatever the network would say, and so is it when
    the fetch fails or the page has no apply link. *)
Theorem application_url_is_tidy (env : Env) (vacancy_page_url : string) :
  strip (JobScraper.get_unjobs_application_url env vacancy_page_url)
  = JobScraper.get_unjobs_application_url env vacancy_page_url
  /\ (JobScraper.get_unjobs_application_url env vacancy_page_url = "N/A"
      \/ exists href,
           env_unjobs_vacancy env vacancy_page_url = Returned (Some href)
           /\ JobScraper.get_unjobs_application_url env vacancy_page_url
              = strip href)
  /\ (contains "unjobs.org/vacancies" vacancy_page_url = false ->
      JobScraper.get_unjobs_application_url env vacancy_page_url = "N/A").
Proof.
  unfold JobScraper.get_unjobs_application_url.
  destruct (String.eqb vacancy_page_url "") eqn:Hempty; simpl orb.
  { split; [reflexivity | split; [by left | done]]. }
  destruct (contains "unjobs.org/vacancies" vacancy_page_url) eqn:Hv; simpl negb.
  2: { split; [reflexivity | split; [by left | done]]. }
  destruct (env_unjobs_vacancy env vacancy_page_url) as [[href |] | e].
  - split; [apply strip_idem |]. split; [| done]. right. by exists href.
  - split; [reflexivity | split; [by left | done]].
  - split; [reflexivity | split; [by left | done]].
Qed.

Lemma application_url_is_tidy_witness :
  JobScraper.get_unjobs_application_url sample_env "https://example.org/jobs/1"
  = "N/A".
Proof.
  exact (proj2 (proj2 (application_url_is_tidy sample_env
                         "https://example.org/jobs/1")) eq_refl).
Defined.


(** X13. Every record of the careers.un.org adapter names the company
    "United Nations" and therefore passes the NGO test: such a record is
    rejected only for not being remote, for matching no role or for
    having too few skills, and the score of an accepted one includes the
    NGO bonus. *)
Theorem careers_records_are_ngo (env : Env) (job : gmap string string)
    (Hjob : job ∈ JobScraper.scrape_careers_un_org env) :
  job !! "company" = Some "United Nations"
  /\ Filter.is_ngo job = true
  /\ forall thr clock kw,
       match Filter.filter_and_process_job thr clock job kw with
       | Some scored =>
           Filter.skills_match_count job kw + 2 <= sj_relevance_score scored
       | None =>
           Filter.is_remote job = false \/ Filter.role_match job kw = false
           \/ Filter.skills_match_count job kw < thr
       end.
Proof.
  unfold JobScraper.scrape_careers_un_org in Hjob.
  destruct (env_careers_listing env) as [rows | e];
    [| by apply elem_of_nil in Hjob].
  apply list_elem_of_In, in_map_iff in Hjob as (row & <- & _).
  unfold JobScraper.careers_row.
  match goal with
  | |- context [JobScraper.job_record ?t ?c ?l ?u ?d ?p] =>
      destruct (job_record_lookups t c l u d p) as (_ & Hc & _);
      set (job := JobScraper.job_record t c l u d p) in *
  end.
  assert (Hngo : Filter.is_ngo job = true).
  { unfold Filter.is_ngo, Filter.field_lower. rewrite Hc.
    apply existsb_elem_of. exists "united nations".
    split; [unfold Filter.ngo_keywords; set_solver | reflexivity]. }
  split; [exact Hc |]. split; [exact Hngo |].
  intros thr clock kw. unfold Filter.filter_and_process_job.
  destruct (Filter.is_relevant thr job kw) eqn:Hrel.
  - simpl. rewrite Hngo. unfold Filter.relevance_score_of.
    destruct (Filter.is_international_company job); lia.
  - unfold Filter.is_relevant, Filter.has_sufficient_skills in Hrel.
    rewrite Hngo, orb_true_r, andb_true_r in Hrel.
    rewrite !andb_false_iff, Z.leb_gt in Hrel. tauto.
Qed.

Lemma careers_records_are_ngo_witness :
  careers_job ∈ JobScraper.scrape_careers_un_org careers_env
  /\ Filter.is_ngo careers_job = true.
Proof.
  assert (H : careers_job ∈ JobScraper.scrape_careers_un_org careers_env).
  { assert (Hrun : JobScraper.scrape_careers_un_org careers_env = [careers_job])
      by reflexivity.
    rewrite Hrun. apply list_elem_of_singleton. reflexivity. }
  split; [exact H |].
  exact (proj1 (proj2 (careers_records_are_ngo careers_env careers_job H))).
Defined.

(** X14. With the adapters as the sources define them the aggregator
    always returns: its result is the records of unjobs.org, then those
    of careers.un.org, then those of Wellfound. Without a driver it is
    exactly the records of the two requests-based adapters. *)
Theorem aggregate_of_the_source_adapters (env : Env) (web : Web)
    (driver : option Driver) (unjobs_query wellfound_query : string) (w : World) :
  Pipeline.scrape_all_jobs (scraped_adapters env web) driver
    unjobs_query wellfound_query w
  = (Returned (JobScraper.scrape_unjobs_org env unjobs_query
               ++ JobScraper.scrape_careers_un_org env
               ++ Wellfound.scrape_wellfound env web driver wellfound_query)%list,
     mkWorld (w_table w)
       (w_log w ++ [EvScrape Unjobs; EvScrape CareersUN;
                    EvScrape Wellfound; EvScrape LinkedIn])%list)
  /\ (Pipeline.scrape_all_jobs (scraped_adapters env web) None
        unjobs_query wellfound_query w).1
     = Returned (JobScraper.scrape_unjobs_org env unjobs_query
                 ++ JobScraper.scrape_careers_un_org env)%list.
Proof.
  assert (Hrun : forall d,
    Pipeline.scrape_all_jobs (scraped_adapters env web) d
      unjobs_query wellfound_query w
    = (Returned (JobScraper.scrape_unjobs_org env unjobs_query
                 ++ JobScraper.scrape_careers_un_org env
                 ++ Wellfound.scrape_wellfound env web d wellfound_query)%list,
       mkWorld (w_table w)
         (w_log w ++ [EvScrape Unjobs; EvScrape CareersUN;
                      EvScrape Wellfound; EvScrape LinkedIn])%list)).
  { intros d. unfold Pipeline.scrape_all_jobs, Pipeline.call, bind, emit, lift, ret,
      scraped_adapters, source_adapters, JobScraper.scrape_linkedin_jobs.
    simpl. by rewrite app_nil_r, <- !app_assoc. }
  split; [apply Hrun |]. rewrite (Hrun None). simpl. by rewrite app_nil_r.
Qed.

(** ** Queries and keywords, continued *)

Section QueryFacts.

Lemma occurs_in_app_l (t a b : string) : occurs_in t a -> occurs_in t (a ++ b).
Proof.
  intros (pre & post & ->). exists pre, (post ++ b).
  by rewrite !string_app_assoc.
Qed.

Lemma occurs_in_app_r (t a b : string) : occurs_in t b -> occurs_in t (a ++ b).
Proof.
  intros (pre & post & ->). exists (a ++ pre), post.
  by rewrite !string_app_assoc.
Qed.

Lemma occurs_in_refl (t : string) : occurs_in t t.
Proof.
  exists "", "". simpl. induction t as [|c t IH]; simpl; [done | by f_equal].
Qed.

Lemma occurs_in_join (sep : string) (parts : list string) (t : string) :
  t ∈ parts -> occurs_in t (join sep parts).
Proof.
  induction parts as [|p rest IH]; intros Hin.
  - by apply elem_of_nil in Hin.
  - apply elem_of_cons in Hin as [-> | Hin].
    + destruct rest; simpl; [apply occurs_in_refl |].
      apply occurs_in_app_l, occurs_in_refl.
    + destruct rest as [|q rest]; [by apply elem_of_nil in Hin |].
      change (join sep (p :: q :: rest)) with (p ++ sep ++ join sep (q :: rest)).
      by apply occurs_in_app_r, occurs_in_app_r, IH.
Qed.

End QueryFacts.

(** X15. Every role and every skill of the keywords is part of the
    query built for any platform: a substring of the query string, or a
    member of the list built for "wfp". For the two platforms [main]
    asks for, the query is the string of the run. *)
Theorem every_keyword_is_in_the_query (keywords : Keywords)
    (platform_name term : string)
    (Hterm : term ∈ (kw_roles keywords ++ kw_skills keywords)%list) :
  SearchQuery.mentions
    (SearchQuery.create_search_query keywords platform_name) term
  /\ SearchQuery.create_search_query keywords "unjobs"
     = SearchQuery.QueryString
         (ResumeParser.create_search_query keywords "unjobs")
  /\ SearchQuery.create_search_query keywords "wellfound"
     = SearchQuery.QueryString
         (ResumeParser.create_search_query keywords "wellfound").
Proof.
  split; [| split; reflexivity].
  unfold SearchQuery.create_search_query.
  destruct (String.eqb platform_name "wellfound").
  { cbn [SearchQuery.mentions]. by apply occurs_in_app_l, occurs_in_join. }
  destruct (String.eqb platform_name "microsoft").
  { cbn [SearchQuery.mentions].
    by apply occurs_in_app_r, occurs_in_app_l, occurs_in_join. }
  destruct (String.eqb platform_name "wfp").
  { cbn [SearchQuery.mentions]. rewrite app_assoc. apply elem_of_app. by left. }
  destruct (String.eqb platform_name "unjobs" || String.eqb platform_name "un_careers").
  { cbn [SearchQuery.mentions]. apply occurs_in_join.
    rewrite app_assoc. apply elem_of_app. by left. }
  cbn [SearchQuery.mentions]. apply elem_of_app in Hterm as [H | H].
  - by apply occurs_in_app_l, occurs_in_join.
  - by apply occurs_in_app_r, occurs_in_app_r, occurs_in_join.
Qed.

Lemma every_keyword_is_in_the_query_witness :
  SearchQuery.mentions
    (SearchQuery.create_search_query example_keywords "microsoft") "django".
Proof.
  assert (H : "django" ∈ (kw_roles example_keywords
                          ++ kw_skills example_keywords)%list).
  { apply (bool_decide_unpack _). vm_compute. exact I. }
  exact (proj1 (every_keyword_is_in_the_query example_keywords "microsoft"
                  "django" H)).
Defined.

(** The queries of the sample keywords, platform by platform. *)
Example sample_queries :
  map (SearchQuery.create_search_query example_keywords)
      ["wellfound"; "microsoft"; "wfp"; "unjobs"; "linkedin"]
  = [ SearchQuery.QueryString "backend developer+python+django+aws+remote";
      SearchQuery.QueryString
        "q=backend developer%20python%20django%20aws&lc=Nairobi%2C%20Nairobi%20City%2C%20Kenya";
      SearchQuery.QueryList ["backend developer"; "python"; "django"; "aws"; "remote"];
      SearchQuery.QueryString
        "backend developer python django aws remote ngo united nations";
      SearchQuery.QueryString "backend developer python OR django OR aws" ].
Proof. vm_compute. reflexivity. Qed.

(** X16. Adding text to a resume never loses a keyword: when the text
    of one resume occurs, whatever the letter case, in the text of
    another, every skill and role extracted from the first is extracted
    from the second. *)
Theorem more_text_keeps_the_keywords (env : Env) (path1 path2 text1 text2 : string)
    (kw1 kw2 : Keywords)
    (Hset : forall l x, x ∈ env_list_of_set env l <-> x ∈ l)
    (Htext1 : env_extract_text env path1 = Returned text1)
    (Htext2 : env_extract_text env path2 = Returned text2)
    (Hinside : occurs_ci text1 text2)
    (Hkw1 : ResumeParser.parse_resume_keywords env path1 = Some kw1)
    (Hkw2 : ResumeParser.parse_resume_keywords env path2 = Some kw2) :
  kw_skills kw1 ⊆ kw_skills kw2 /\ kw_roles kw1 ⊆ kw_roles kw2.
Proof.
  unfold ResumeParser.parse_resume_keywords in Hkw1, Hkw2.
  rewrite Htext1 in Hkw1. rewrite Htext2 in Hkw2.
  destruct (negb (env_resume_exists env path1)); [done |].
  destruct (negb (env_resume_exists env path2)); [done |].
  apply (inj Some) in Hkw1. apply (inj Some) in Hkw2. subst kw1 kw2.
  cbn [kw_skills kw_roles].
  split; intros term; rewrite !Hset, !elem_of_list_filter, !contains_spec;
    intros [Hvoc Hocc]; (split; [exact Hvoc |]);
    exact (occurs_in_trans _ _ _ Hocc Hinside).
Qed.

Lemma more_text_keeps_the_keywords_witness :
  kw_skills {| kw_skills := ["python"]; kw_roles := ["backend developer"];
               kw_preferences := DEFAULT_PREFERENCES |}
    ⊆ kw_skills {| kw_skills := ["python"; "aws"; "docker"];
                   kw_roles := ["backend developer"];
                   kw_preferences := DEFAULT_PREFERENCES |}
  /\ kw_roles {| kw_skills := ["python"]; kw_roles := ["backend developer"];
                 kw_preferences := DEFAULT_PREFERENCES |}
       ⊆ kw_roles {| kw_skills := ["python"; "aws"; "docker"];
                     kw_roles := ["backend developer"];
                     kw_preferences := DEFAULT_PREFERENCES |}.
Proof.
  assert (Hset : forall l x, x ∈ env_list_of_set two_resumes l <-> x ∈ l).
  { intros l x. simpl. apply elem_of_remove_dups. }
  assert (Hinside : occurs_ci "Python backend developer"
                      "Senior PYTHON Backend Developer, AWS and Docker").
  { exists "senior ", ", aws and docker". reflexivity. }
  exact (more_text_keeps_the_keywords two_resumes "short.pdf" "long.pdf"
           "Python backend developer"
           "Senior PYTHON Backend Developer, AWS and Docker" _ _
           Hset eq_refl eq_refl Hinside eq_refl eq_refl).
Defined.

(** ** The store, continued *)

Section StoreMore.

Lemma same_url_none (u : string) (table : list ScoredJob) :
  existsb (DbManager.same_url u) table = false ->
  forall row, row ∈ table -> sj_url row <> Some u.
Proof.
  intros Hnone row Hin Hurl.
  assert (H : existsb (DbManager.same_url u) table = true).
  { apply existsb_exists. exists row. split; [by apply list_elem_of_In |].
    unfold DbManager.same_url. rewrite Hurl. apply String.eqb_refl. }
  congruence.
Qed.

Lemma same_url_none_set (u : string) (table : list ScoredJob) :
  existsb (DbManager.same_url u) table = false ->
  Some u ∉ DbManager.get_all_job_urls table.
Proof.
  intros Hnone Hin. apply known_url_found in Hin. congruence.
Qed.

Lemma urls_app (table rows : list ScoredJob) :
  DbManager.get_all_job_urls (table ++ rows)
  = DbManager.get_all_job_urls table ∪ DbManager.get_all_job_urls rows.
Proof.
  unfold DbManager.get_all_job_urls. by rewrite map_app, list_to_set_app_L.
Qed.

Lemma urls_singleton (row : ScoredJob) :
  DbManager.get_all_job_urls [row] = {[ sj_url row ]}.
Proof.
  unfold DbManager.get_all_job_urls. simpl. apply (right_id_L ∅ (∪)).
Qed.

(** The three ways a call of the insert ends. *)
Lemma save_cases (row : ScoredJob) (table : list ScoredJob) :
  (DbManager.save_job_listing row table = (Returned true, (table ++ [row])%list)
   /\ (sj_url row = None \/ sj_url row ∉ DbManager.get_all_job_urls table))
  \/ (DbManager.save_job_listing row table = (Returned false, table)
      /\ sj_url row <> None /\ sj_url row ∈ DbManager.get_all_job_urls table).
Proof.
  unfold DbManager.save_job_listing, DbManager.execute_insert.
  destruct (sj_url row) as [u |] eqn:Hurl.
  - destruct (existsb (DbManager.same_url u) table) eqn:Hfound.
    + right. split; [done | split; [done |]].
      apply existsb_exists in Hfound as (r & Hin & Hsame).
      unfold DbManager.same_url in Hsame.
      destruct (sj_url r) as [v |] eqn:Hv; [| done].
      apply String.eqb_eq in Hsame as ->.
      unfold DbManager.get_all_job_urls. rewrite elem_of_list_to_set, <- Hv.
      apply list_elem_of_fmap_2. by apply list_elem_of_In.
    + left. split; [done | right]. by apply same_url_none_set.
  - left. split; [done | by left].
Qed.



Lemma save_adds_url (row : ScoredJob) (table : list ScoredJob) :
  DbManager.get_all_job_urls (DbManager.save_job_listing row table).2
  = {[ sj_url row ]} ∪ DbManager.get_all_job_urls table.
Proof.
  destruct (save_cases row table) as [[-> _] | [-> [_ Hin]]]; simpl.
  - rewrite urls_app, urls_singleton. apply (comm_L (∪)).
  - symmetry. apply subseteq_union_1_L. by apply singleton_subseteq_l.
Qed.

End StoreMore.



(** ** Reading the store *)

Section TextOrder.

Lemma ascii_compare_lt_trans (a b c : ascii) :
  Ascii.compare a b = Lt -> Ascii.compare b c = Lt -> Ascii.compare a c = Lt.
Proof.
  unfold Ascii.compare. rewrite !N.compare_lt_iff. apply N.lt_trans.
Qed.

Lemma string_compare_refl (s : string) : String.compare s s = Eq.
Proof.
  pose proof (String.compare_antisym s s) as H.
  by destruct (String.compare s s).
Qed.

Lemma string_compare_lt_trans (s1 s2 s3 : string) :
  String.compare s1 s2 = Lt -> String.compare s2 s3 = Lt ->
  String.compare s1 s3 = Lt.
Proof.
  revert s2 s3. induction s1 as [|a s1 IH]; intros [|b s2] [|c s3]; simpl; try done.
  destruct (Ascii.compare a b) eqn:Hab; [| | done].
  - apply Ascii.compare_eq_iff in Hab as ->.
    destruct (Ascii.compare b c); [apply IH | done | done].
  - intros _. destruct (Ascii.compare b c) eqn:Hbc; [| | done].
    + apply Ascii.compare_eq_iff in Hbc as <-. by rewrite Hab.
    + by rewrite (ascii_compare_lt_trans a b c).
Qed.

Lemma string_compare_gt_lt (s1 s2 : string) :
  String.compare s1 s2 = Gt <-> String.compare s2 s1 = Lt.
Proof.
  rewrite (String.compare_antisym s2 s1).
  by destruct (String.compare s1 s2).
Qed.

(** The order of [ORDER BY date_posted DESC, date_found DESC], spelt
    out. *)
Lemma newer_first_spec (r1 r2 : Z * ScoredJob) :
  DbQueries.newer_first r1 r2 = true
  <-> String.compare (sj_date_posted r2.2) (sj_date_posted r1.2) = Lt
      \/ (sj_date_posted r2.2 = sj_date_posted r1.2
          /\ (String.compare (sj_date_found r2.2) (sj_date_found r1.2) = Lt
              \/ sj_date_found r2.2 = sj_date_found r1.2)).
Proof.
  unfold DbQueries.newer_first.
  destruct (String.compare (sj_date_posted r2.2) (sj_date_posted r1.2)) eqn:Hp.
  - apply String.compare_eq_iff in Hp. rewrite Hp.
    destruct (String.compare (sj_date_found r2.2) (sj_date_found r1.2)) eqn:Hf.
    + apply String.compare_eq_iff in Hf. rewrite Hf. split; [| done].
      intros _. right. split; [done | by right].
    + split; [| done]. intros _. right. split; [done | by left].
    + split; [done |]. intros [H | [_ [H | H]]]; [done | done |].
      by rewrite H, string_compare_refl in Hf.
  - split; [by left | done].
  - split; [done |]. intros [H | [H _]]; [done |].
    by rewrite H, string_compare_refl in Hp.
Qed.

Lemma comes_first_transitive : Transitive DbQueries.comes_first.
Proof.
  intros r1 r2 r3. unfold DbQueries.comes_first. rewrite !newer_first_spec.
  intros [Hp | [Hp Hf]] [Hp' | [Hp' Hf']].
  - left. by apply (string_compare_lt_trans _ (sj_date_posted r2.2)).
  - left. by rewrite Hp'.
  - left. by rewrite <- Hp.
  - right. split; [congruence |].
    destruct Hf as [Hf | Hf], Hf' as [Hf' | Hf'].
    + left. by apply (string_compare_lt_trans _ (sj_date_found r2.2)).
    + left. by rewrite Hf'.
    + left. by rewrite <- Hf.
    + right. congruence.
Qed.

Lemma comes_first_total : Total DbQueries.comes_first.
Proof.
  intros r1 r2. unfold DbQueries.comes_first. rewrite !newer_first_spec.
  destruct (String.compare (sj_date_posted r2.2) (sj_date_posted r1.2)) eqn:Hp.
  - apply String.compare_eq_iff in Hp.
    destruct (String.compare (sj_date_found r2.2) (sj_date_found r1.2)) eqn:Hf.
    + apply String.compare_eq_iff in Hf. left. right. split; [done | by right].
    + left. right. split; [done | by left].
    + apply string_compare_gt_lt in Hf. right. right. split; [done | by left].
  - left. by left.
  - apply string_compare_gt_lt in Hp. right. by left.
Qed.

Lemma select_all_elem (rowid : nat -> Z) (table : list ScoredJob) (r : Z * ScoredJob) :
  r ∈ DbQueries.select_all rowid table
  <-> exists i, table !! i = Some r.2 /\ r.1 = rowid i.
Proof.
  unfold DbQueries.select_all. rewrite list_elem_of_lookup. split.
  - intros (i & Hi). rewrite list_lookup_imap in Hi.
    destruct (table !! i) as [job |] eqn:Hjob; [| done].
    injection Hi as <-. by exists i.
  - intros (i & Hi & Hid). exists i. rewrite list_lookup_imap, Hi. simpl.
    destruct r as [id job]. simpl in *. by subst.
Qed.

Lemma found_since_elem (rowid : nat -> Z) (ts : string) (table : list ScoredJob)
    (r : Z * ScoredJob) :
  r ∈ DbQueries.get_jobs_found_since rowid ts table
  <-> (exists i, table !! i = Some r.2 /\ r.1 = rowid i)
      /\ String.compare ts (sj_date_found r.2) = Lt.
Proof.
  unfold DbQueries.get_jobs_found_since.
  rewrite (merge_sort_Permutation DbQueries.comes_first).
  rewrite elem_of_list_filter, select_all_elem. unfold DbQueries.found_after.
  destruct (String.compare ts (sj_date_found r.2)); split; intros [H1 H2]; done.
Qed.

End TextOrder.

(** X18. The rows [get_jobs_found_since] returns are the rows of the
    table whose [date_found] text is greater than the timestamp text,
    each as often as it is in the table, and they are ordered: of two
    rows of the result the earlier has the greater [date_posted] text,
    or the same one and a [date_found] text that is not smaller. *)
Theorem found_since_is_sorted_and_complete (rowid : nat -> Z) (timestamp_str : string)
    (table : list ScoredJob) :
  let found := DbQueries.get_jobs_found_since rowid timestamp_str table in
  found ≡ₚ List.filter (DbQueries.found_after timestamp_str)
             (DbQueries.select_all rowid table)
  /\ (forall r, r ∈ found
        <-> (exists i, table !! i = Some r.2 /\ r.1 = rowid i)
            /\ String.compare timestamp_str (sj_date_found r.2) = Lt)
  /\ (forall i j r1 r2, (i < j)%nat -> found !! i = Some r1 -> found !! j = Some r2 ->
        String.compare (sj_date_posted r2.2) (sj_date_posted r1.2) = Lt
        \/ (sj_date_posted r2.2 = sj_date_posted r1.2
            /\ (String.compare (sj_date_found r2.2) (sj_date_found r1.2) = Lt
                \/ sj_date_found r2.2 = sj_date_found r1.2))).
Proof.
  intros found. split; [| split].
  - apply (merge_sort_Permutation DbQueries.comes_first).
  - intros r. apply found_since_elem.
  - assert (Hsorted : StronglySorted DbQueries.comes_first found)
      by exact (@StronglySorted_merge_sort _ DbQueries.comes_first
                  DbQueries.comes_first_dec comes_first_transitive
                  comes_first_total _).
    clearbody found. induction Hsorted as [|r found Hsorted IH Hall].
    + intros i j r1 r2 _ H. by rewrite lookup_nil in H.
    + intros [|i] [|j] r1 r2 Hlt H1 H2; simpl in *; try lia.
      * injection H1 as <-. apply newer_first_spec.
        rewrite Forall_forall in Hall. apply Hall.
        by apply list_elem_of_lookup_2 in H2.
      * apply (IH i j); [lia | done | done].
Qed.

Lemma found_since_is_sorted_and_complete_witness :
  String.compare (sj_date_posted known_row) (sj_date_posted other_row) = Lt
  \/ (sj_date_posted known_row = sj_date_posted other_row
      /\ (String.compare (sj_date_found known_row) (sj_date_found other_row) = Lt
          \/ sj_date_found known_row = sj_date_found other_row)).
Proof.
  assert (Hlt : (0 < 1)%nat) by lia.
  exact (proj2 (proj2 (found_since_is_sorted_and_complete
                         (fun i => Z.of_nat (S i)) "2026-10-01"
                         [known_row; other_row]))
           0%nat 1%nat (2, other_row) (1, known_row) Hlt eq_refl eq_refl).
Defined.

(** X19. A row the store has taken is found afterwards: after an insert
    that answered true, [get_jobs_found_since] with a timestamp text
    smaller than the [date_found] of the row returns the row, and it
    returns every row it returned before the insert. *)
Theorem saved_row_is_found_since (rowid : nat -> Z) (row : ScoredJob)
    (table table' : list ScoredJob) (timestamp_str : string)
    (Hsaved : DbManager.save_job_listing row table = (Returned true, table'))
    (Hlater : String.compare timestamp_str (sj_date_found row) = Lt) :
  (exists id, (id, row) ∈ DbQueries.get_jobs_found_since rowid timestamp_str table')
  /\ forall r, r ∈ DbQueries.get_jobs_found_since rowid timestamp_str table ->
               r ∈ DbQueries.get_jobs_found_since rowid timestamp_str table'.
Proof.
  destruct (save_cases row table) as [[Heq _] | [Heq _]];
    rewrite Heq in Hsaved; [| done].
  injection Hsaved as <-. split.
  - exists (rowid (List.length table)). apply found_since_elem. simpl.
    split; [| done]. exists (List.length table). split; [| done].
    by rewrite lookup_app_r, Nat.sub_diag.
  - intros r. rewrite !found_since_elem. intros [(i & Hi & Hid) Hts].
    split; [| done]. exists i. split; [| done].
    by apply lookup_app_l_Some.
Qed.

Lemma saved_row_is_found_since_witness :
  exists id, (id, other_row)
    ∈ DbQueries.get_jobs_found_since Z.of_nat "2026-11-01" [known_row; other_row].
Proof.
  exact (proj1 (saved_row_is_found_since Z.of_nat other_row [known_row]
                  [known_row; other_row] "2026-11-01" eq_refl eq_refl)).
Defined.

(** The two sample rows, newest first. *)
Example sample_found_since :
  map fst (DbQueries.get_jobs_found_since (fun i => Z.of_nat (S i)) "2026-10-01"
             [known_row; other_row])
  = [2; 1].
Proof. vm_compute. reflexivity. Qed.

(** ** Runs, read off their logs *)

Section RunSummary.

Lemma save_attempts_app (evs evs' : list Event) :
  save_attempts (evs ++ evs') = (save_attempts evs ++ save_attempts evs')%list.
Proof. apply omap_app. Qed.

Lemma notified_app (evs evs' : list Event) :
  notified (evs ++ evs') = (notified evs ++ notified evs')%list.
Proof. apply omap_app. Qed.

Lemma apply_saves_app (rows rows' table : list ScoredJob) :
  apply_saves (rows ++ rows') table = apply_saves rows' (apply_saves rows table).
Proof. apply fold_left_app. Qed.

Lemma quiet_nothing (evs : list Event) :
  Forall quiet evs ->
  save_attempts evs = [] /\ notified evs = [] /\ forall job, EvFilter job ∉ evs.
Proof.
  induction 1 as [|ev evs Hev _ (IHs & IHn & IHf)].
  - repeat split. intros job. apply not_elem_of_nil.
  - destruct ev; try done; cbn [save_attempts notified omap list_omap];
      (repeat split; [done | done |]); intros job; apply not_elem_of_cons;
      (split; [done | apply IHf]).
Qed.

Lemma quiet_step {A : Type} (c : M A) (w : World) :
  footprint quiet no_row c ->
  exists evs, (c w).2 = mkWorld (w_table w) (w_log w ++ evs) /\ Forall quiet evs.
Proof.
  intros Hc. destruct (Hc w) as (evs & rows & Hlog & Htab & Hevs & Hrows).
  exists evs. split; [| done].
  destruct rows as [|row rows]; [| by inversion Hrows].
  rewrite app_nil_r in Htab.
  destruct (c w) as [o [table log]]. simpl in *. by subst.
Qed.

Lemma pipeline_save (row : ScoredJob) (w : World) :
  exists saved,
    Pipeline.save_job_listing row w
    = (Returned saved,
       mkWorld (DbManager.save_job_listing row (w_table w)).2
               (w_log w ++ [EvSave row saved])).
Proof.
  unfold Pipeline.save_job_listing.
  destruct (save_cases row (w_table w)) as [[-> _] | [-> _]]; by eexists.
Qed.

Lemma send_notifications_run (rows : list ScoredJob) (w : World) :
  Pipeline.send_notifications rows w
  = (Returned tt, mkWorld (w_table w) (w_log w ++ map EvNotify rows)).
Proof.
  revert w. induction rows as [|row rows IH]; intros w; simpl.
  - unfold ret. rewrite app_nil_r. by destruct w.
  - unfold bind, emit. rewrite IH. simpl. by rewrite <- app_assoc.
Qed.

Lemma notified_of_notifications (rows : list ScoredJob) :
  notified (map EvNotify rows) = rows /\ save_attempts (map EvNotify rows) = [].
Proof.
  induction rows as [|row rows [IHn IHs]]; [done |].
  split; [| exact IHs]. cbn [map notified omap list_omap].
  unfold notified in IHn. by rewrite IHn.
Qed.

Variables (cfg : Config) (env : Env).

Lemma process_jobs_summary (existing : gset (option string)) (kw : Keywords)
    (jobs : list (gmap string string)) (acc : list ScoredJob) (w : World) :
  exists evs,
    Pipeline.process_jobs cfg env existing kw jobs acc w
    = (Returned (acc ++ save_attempts evs)%list,
       mkWorld (apply_saves (save_attempts evs) (w_table w)) (w_log w ++ evs))
    /\ notified evs = []
    /\ forall row, row ∈ save_attempts evs -> passed cfg env kw evs row.
Proof.
  revert acc w. induction jobs as [|job jobs IH]; intros acc w;
    cbn [Pipeline.process_jobs].
  - exists []. simpl. unfold ret. rewrite !app_nil_r. destruct w.
    repeat split. intros row Hrow. by apply elem_of_nil in Hrow.
  - destruct (bool_decide (job !! "url" ∈ existing)); [apply IH |].
    unfold bind at 1. unfold Pipeline.filter_and_process_job at 1.
    destruct (Filter.filter_and_process_job _ _ job kw) as [filtered |] eqn:Hf.
    + unfold bind at 1.
      destruct (pipeline_save filtered
                  (mkWorld (w_table w) (w_log w ++ [EvFilter job])))
        as (saved & ->).
      cbn [w_table w_log].
      destruct (IH (acc ++ [filtered])%list
                  (mkWorld (DbManager.save_job_listing filtered (w_table w)).2
                     ((w_log w ++ [EvFilter job]) ++ [EvSave filtered saved])))
        as (evs & -> & Hn & Hp).
      exists (EvFilter job :: EvSave filtered saved :: evs).
      cbn [w_table w_log]. split; [| split].
      * f_equal; [by rewrite <- app_assoc |].
        f_equal. by rewrite <- !app_assoc.
      * exact Hn.
      * intros row Hrow.
        change (save_attempts (EvFilter job :: EvSave filtered saved :: evs))
          with (filtered :: save_attempts evs) in Hrow.
        apply elem_of_cons in Hrow as [-> | Hrow].
        -- exists job, (List.length (w_log w)). split; [| exact Hf].
           apply elem_of_cons. by left.
        -- destruct (Hp row Hrow) as (job' & n & Hin & Hrow').
           exists job', n. split; [| done].
           apply elem_of_cons. right. apply elem_of_cons. by right.
    + destruct (IH acc (mkWorld (w_table w) (w_log w ++ [EvFilter job])))
        as (evs & -> & Hn & Hp).
      exists (EvFilter job :: evs). cbn [w_table w_log]. split; [| split].
      * f_equal. f_equal. by rewrite <- app_assoc.
      * exact Hn.
      * intros row Hrow. destruct (Hp row Hrow) as (job' & n & Hin & Hrow').
        exists job', n. split; [| done]. apply elem_of_cons. by right.
Qed.

Lemma passed_more (kw : Keywords) (pre evs post : list Event) (row : ScoredJob) :
  passed cfg env kw evs row -> passed cfg env kw (pre ++ evs ++ post) row.
Proof.
  intros (job & n & Hin & Hrow). exists job, n. split; [| done].
  apply elem_of_app. right. apply elem_of_app. by left.
Qed.

Lemma run_steps_summary (adapters : AdapterRuns) (existing : gset (option string))
    (kw : Keywords) (driver : option Driver) (w : World) :
  exists evs,
    (run_steps cfg env adapters existing kw driver w).2
    = mkWorld (apply_saves (save_attempts evs) (w_table w)) (w_log w ++ evs)
    /\ notified evs = save_attempts evs
    /\ forall row, row ∈ save_attempts evs -> passed cfg env kw evs row.
Proof.
  unfold run_steps.
  destruct (quiet_step (Pipeline.scrape_all_jobs adapters driver
              (ResumeParser.create_search_query kw "unjobs")
              (ResumeParser.create_search_query kw "wellfound")) w)
    as (evs1 & Hw1 & Hq1); [by apply footprint_scrape_all_jobs |].
  destruct (quiet_nothing evs1 Hq1) as (Hs1 & Hn1 & _).
  unfold bind at 1.
  destruct (Pipeline.scrape_all_jobs _ _ _ _ w) as [[jobs | e] w1];
    simpl in Hw1; subst w1.
  2:{ exists evs1. simpl. rewrite Hs1, Hn1. repeat split.
      intros row Hrow. by apply elem_of_nil in Hrow. }
  destruct (quiet_step (Pipeline.time_sleep (SCRAPING_DELAY_SECONDS cfg))
              (mkWorld (w_table w) (w_log w ++ evs1)))
    as (evs2 & Hw2 & Hq2); [by apply footprint_time_sleep |].
  destruct (quiet_nothing evs2 Hq2) as (Hs2 & Hn2 & _).
  unfold bind at 1.
  destruct (Pipeline.time_sleep _ _) as [[[] | e] w2];
    simpl in Hw2; subst w2.
  2:{ exists (evs1 ++ evs2)%list. simpl.
      rewrite save_attempts_app, notified_app, Hs1, Hn1, Hs2, Hn2, app_assoc.
      repeat split. intros row Hrow. by apply elem_of_nil in Hrow. }
  unfold bind at 1.
  destruct (process_jobs_summary existing kw jobs []
              (mkWorld (w_table w) ((w_log w ++ evs1) ++ evs2)))
    as (evs3 & -> & Hn3 & Hp3).
  rewrite send_notifications_run. cbn [w_table w_log snd app].
  destruct (notified_of_notifications (save_attempts evs3)) as [Hn4 Hs4].
  exists (evs1 ++ evs2 ++ evs3 ++ map EvNotify (save_attempts evs3))%list.
  rewrite !save_attempts_app, !notified_app, Hs1, Hn1, Hs2, Hn2, Hn3, Hn4, Hs4.
  cbn [app]. rewrite app_nil_r. split; [| split].
  - f_equal. by rewrite <- !app_assoc.
  - done.
  - intros row Hrow. rewrite app_assoc. apply passed_more. by apply Hp3.
Qed.

(** The log of a whole run accounts for the table and the notifications. *)
Lemma main_summary (adapters : AdapterRuns) (w : World) :
  exists evs,
    (Pipeline.main cfg env adapters w).2
    = mkWorld (apply_saves (save_attempts evs) (w_table w)) (w_log w ++ evs)
    /\ notified evs = save_attempts evs
    /\ forall row, row ∈ save_attempts evs ->
         exists kw,
           ResumeParser.parse_resume_keywords env (RESUME_PATH cfg) = Some kw
           /\ passed cfg env kw evs row.
Proof.
  rewrite main_steps. unfold bind at 1, emit at 1.
  destruct (ResumeParser.parse_resume_keywords env (RESUME_PATH cfg)) as [kw |].
  2:{ exists [EvSetupDatabase]. simpl. repeat split.
      intros row Hrow. by apply elem_of_nil in Hrow. }
  unfold bind at 1, Pipeline.get_all_job_urls at 1. cbn [w_table w_log].
  set (existing := DbManager.get_all_job_urls (w_table w)).
  set (w0 := mkWorld (w_table w) (w_log w ++ [EvSetupDatabase])).
  destruct (quiet_step (try_except (Pipeline.get_selenium_driver env)
                          (fun _ => ret None)) w0)
    as (evs1 & Hw1 & Hq1).
  { apply footprint_try_except; [| intros e; apply footprint_ret].
    unfold Pipeline.get_selenium_driver.
    destruct (SeleniumScraper.get_selenium_driver env) as [[d |] | e].
    - apply footprint_bind; [by apply footprint_emit | intros _; apply footprint_ret].
    - apply footprint_ret.
    - apply footprint_raise. }
  destruct (quiet_nothing evs1 Hq1) as (Hs1 & Hn1 & _).
  unfold bind at 1.
  destruct (try_except _ _ w0) as [[driver | e] w1]; simpl in Hw1; subst w1.
  2:{ exists (EvSetupDatabase :: evs1). subst w0. cbn [w_table w_log snd].
      change (save_attempts (EvSetupDatabase :: evs1)) with (save_attempts evs1).
      change (notified (EvSetupDatabase :: evs1)) with (notified evs1).
      rewrite Hs1, Hn1, <- app_assoc. repeat split.
      intros row Hrow. by apply elem_of_nil in Hrow. }
  destruct (run_steps_summary adapters existing kw driver
              (mkWorld (w_table w0) (w_log w0 ++ evs1)))
    as (evs2 & Hw2 & Hn2 & Hp2).
  unfold bind at 1.
  destruct (run_steps cfg env adapters existing kw driver _) as [[[] | e] w2];
    cbn [snd] in Hw2.
  - destruct (quiet_step (release_driver driver) w2) as (evs3 & -> & Hq3).
    { destruct driver; [by apply footprint_emit | apply footprint_ret]. }
    destruct (quiet_nothing evs3 Hq3) as (Hs3 & Hn3 & _).
    exists (EvSetupDatabase :: evs1 ++ evs2 ++ evs3)%list.
    subst w2 w0. cbn [w_table w_log].
    change (save_attempts (EvSetupDatabase :: evs1 ++ evs2 ++ evs3))
      with (save_attempts (evs1 ++ evs2 ++ evs3)).
    change (notified (EvSetupDatabase :: evs1 ++ evs2 ++ evs3))
      with (notified (evs1 ++ evs2 ++ evs3)).
    rewrite !save_attempts_app, !notified_app, Hs1, Hn1, Hs3, Hn3.
    cbn [app]. rewrite !app_nil_r. split; [| split].
    + f_equal. by rewrite <- !app_assoc.
    + done.
    + intros row Hrow. exists kw. split; [done |].
      apply (passed_more kw (EvSetupDatabase :: evs1) evs2 evs3). by apply Hp2.
  - exists (EvSetupDatabase :: evs1 ++ evs2)%list.
    subst w2 w0. cbn [w_table w_log snd].
    change (save_attempts (EvSetupDatabase :: evs1 ++ evs2))
      with (save_attempts (evs1 ++ evs2)).
    change (notified (EvSetupDatabase :: evs1 ++ evs2))
      with (notified (evs1 ++ evs2)).
    rewrite !save_attempts_app, !notified_app, Hs1, Hn1.
    cbn [app]. split; [| split].
    + f_equal. by rewrite <- !app_assoc.
    + done.
    + intros row Hrow. exists kw. split; [done |].
      pose proof (passed_more kw (EvSetupDatabase :: evs1) evs2 [] row
                    (Hp2 row Hrow)) as H.
      by rewrite app_nil_r in H.
Qed.


Lemma apply_saves_urls (rows table : list ScoredJob) :
  DbManager.get_all_job_urls (apply_saves rows table)
  = DbManager.get_all_job_urls table ∪ list_to_set (map sj_url rows).
Proof.
  revert table. induction rows as [|row rows IH]; intros table.
  - simpl. by rewrite (right_id_L ∅ (∪)).
  - change (apply_saves (row :: rows) table)
      with (apply_saves rows (DbManager.save_job_listing row table).2).
    rewrite IH, save_adds_url. simpl.
    rewrite (comm_L (∪) {[sj_url row]}), (assoc_L (∪)). done.
Qed.

End RunSummary.



(** X21. The log of a run accounts for its notifications and for the
    table: the jobs notified are the rows of the insert attempts, in the
    same order and as often (a row the store refused is notified all the
    same), and the table at the end is the table at the start with these
    inserts applied in order. This holds however the run ends. *)
Theorem notifications_are_the_insert_attempts (cfg : Config) (env : Env)
    (adapters : AdapterRuns) (w : World) :
  let r := Pipeline.main cfg env adapters w in
  exists evs,
    w_log r.2 = (w_log w ++ evs)%list
    /\ notified evs = save_attempts evs
    /\ w_table r.2 = apply_saves (save_attempts evs) (w_table w).
Proof.
  intros r. subst r.
  destruct (main_summary cfg env adapters w) as (evs & -> & Hn & _).
  by exists evs.
Qed.

(** X22. The URL of every job notified in a run is in the URL set of
    the store when the run ends, so that a later run skips it. *)
Theorem notified_jobs_are_known_afterwards (cfg : Config) (env : Env)
    (adapters : AdapterRuns) (w : World) (evs : list Event) (row : ScoredJob)
    (Hlog : w_log (Pipeline.main cfg env adapters w).2 = (w_log w ++ evs)%list)
    (Hnotified : EvNotify row ∈ evs) :
  sj_url row
    ∈ DbManager.get_all_job_urls (w_table (Pipeline.main cfg env adapters w).2).
Proof.
  destruct (main_summary cfg env adapters w) as (evs' & Heq & Hn & _).
  rewrite Heq in Hlog |- *. cbn [w_log w_table] in *.
  apply app_inv_head in Hlog. subst evs'.
  rewrite apply_saves_urls. apply elem_of_union. right.
  rewrite <- Hn, elem_of_list_to_set. apply list_elem_of_fmap_2.
  unfold notified. apply list_elem_of_omap. by exists (EvNotify row).
Qed.

Lemma notified_jobs_are_known_afterwards_witness :
  sj_url scored_a
    ∈ DbManager.get_all_job_urls
        (w_table (Pipeline.main sample_config sample_env all_up fresh_world).2).
Proof.
  assert (Hlog : w_log (Pipeline.main sample_config sample_env all_up fresh_world).2
                 = (w_log fresh_world
                    ++ [EvSetupDatabase; EvDriverStarted; EvScrape Unjobs;
                        EvScrape CareersUN; EvScrape Wellfound; EvScrape LinkedIn;
                        EvSleep 2; EvFilter job_a; EvSave scored_a true;
                        EvFilter job_b; EvNotify scored_a; EvDriverQuit])%list)
    by reflexivity.
  refine (notified_jobs_are_known_afterwards sample_config sample_env all_up
            fresh_world _ scored_a Hlog _).
  do 10 (apply elem_of_cons; right). apply elem_of_cons. by left.
Defined.

(** X23. Every job notified in a run passed the filter in that run: its
    row was built by the filter, with the keywords of the resume and the
    configured threshold, from a record handed to the filter in the run,
    and the relevance test holds of that record. *)
Theorem notified_jobs_passed_the_filter (cfg : Config) (env : Env)
    (adapters : AdapterRuns) (w : World) (evs : list Event) (row : ScoredJob)
    (Hlog : w_log (Pipeline.main cfg env adapters w).2 = (w_log w ++ evs)%list)
    (Hnotified : EvNotify row ∈ evs) :
  exists kw job n,
    ResumeParser.parse_resume_keywords env (RESUME_PATH cfg) = Some kw
    /\ EvFilter job ∈ evs
    /\ Filter.filter_and_process_job (MIN_SKILL_MATCHES cfg) (env_clock env n) job kw
       = Some row
    /\ Filter.is_relevant (MIN_SKILL_MATCHES cfg) job kw = true
    /\ sj_url row = job !! "url".
Proof.
  destruct (main_summary cfg env adapters w) as (evs' & Heq & Hn & Hp).
  rewrite Heq in Hlog. cbn [w_log] in Hlog.
  apply app_inv_head in Hlog. subst evs'.
  assert (Hrow : row ∈ save_attempts evs).
  { rewrite <- Hn. unfold notified. apply list_elem_of_omap.
    by exists (EvNotify row). }
  destruct (Hp row Hrow) as (kw & Hkw & job & n & Hin & Hf).
  exists kw, job, n. repeat split; try done.
  - by apply filter_Some_inv in Hf as [Hrel _].
  - by apply filter_keeps_url in Hf.
Qed.

Lemma notified_jobs_passed_the_filter_witness :
  exists kw job n,
    ResumeParser.parse_resume_keywords sample_env (RESUME_PATH sample_config)
    = Some kw
    /\ EvFilter job
         ∈ [EvSetupDatabase; EvDriverStarted; EvScrape Unjobs;
            EvScrape CareersUN; EvScrape Wellfound; EvScrape LinkedIn;
            EvSleep 2; EvFilter job_a; EvSave scored_a true;
            EvFilter job_b; EvNotify scored_a; EvDriverQuit]
    /\ Filter.filter_and_process_job (MIN_SKILL_MATCHES sample_config)
         (env_clock sample_env n) job kw = Some scored_a
    /\ Filter.is_relevant (MIN_SKILL_MATCHES sample_config) job kw = true
    /\ sj_url scored_a = job !! "url".
Proof.
  assert (Hlog : w_log (Pipeline.main sample_config sample_env all_up fresh_world).2
                 = (w_log fresh_world
                    ++ [EvSetupDatabase; EvDriverStarted; EvScrape Unjobs;
                        EvScrape CareersUN; EvScrape Wellfound; EvScrape LinkedIn;
                        EvSleep 2; EvFilter job_a; EvSave scored_a true;
                        EvFilter job_b; EvNotify scored_a; EvDriverQuit])%list)
    by reflexivity.
  refine (notified_jobs_passed_the_filter sample_config sample_env all_up
            fresh_world _ scored_a Hlog _).
  do 10 (apply elem_of_cons; right). apply elem_of_cons. by left.
Defined.

(** X24. A negative configured delay stops every run that has read the
    resume: the run ends in an exception before any job is filtered,
    saved or notified, the table is left as it was, and the driver is not
    released. With the adapters of the sources, which catch what they
    raise, the exception is the [ValueError] of [time.sleep]. *)
Theorem negative_delay_stops_the_run (cfg : Config) (env : Env)
    (adapters : AdapterRuns) (w : World) (kw : Keywords)
    (Hdelay : SCRAPING_DELAY_SECONDS cfg < 0)
    (Hparse : ResumeParser.parse_resume_keywords env (RESUME_PATH cfg) = Some kw) :
  let r := Pipeline.main cfg env adapters w in
  (exists e, r.1 = Raised e)
  /\ w_table r.2 = w_table w
  /\ (exists evs, w_log r.2 = (w_log w ++ evs)%list
        /\ Forall quiet evs /\ (EvDriverQuit ∉ evs))
  /\ ((exists web, adapters = scraped_adapters env web) -> r.1 = Raised ValueError).
Proof.
  intros r.
  cut (exists e evs,
         r = (Raised e, mkWorld (w_table w) (w_log w ++ evs))
         /\ Forall quiet evs /\ (EvDriverQuit ∉ evs)
         /\ ((exists web, adapters = scraped_adapters env web) -> e = ValueError)).
  { intros (e & evs & -> & Hq & Hnq & Hweb). cbn [fst snd w_table w_log].
    split; [by exists e | split; [done | split]].
    - by exists evs.
    - intros H. by rewrite (Hweb H). }
  subst r. rewrite main_steps, Hparse.
  unfold bind at 1, emit at 1.
  unfold bind at 1, Pipeline.get_all_job_urls at 1. cbn [w_table w_log].
  set (existing := DbManager.get_all_job_urls (w_table w)).
  set (w0 := mkWorld (w_table w) (w_log w ++ [EvSetupDatabase])).
  assert (Hd : exists d evs1,
             try_except (Pipeline.get_selenium_driver env) (fun _ => ret None) w0
             = (Returned d, mkWorld (w_table w) (w_log w ++ EvSetupDatabase :: evs1))
             /\ Forall quiet evs1 /\ (EvDriverQuit ∉ evs1)).
  { unfold try_except, Pipeline.get_selenium_driver.
    destruct (SeleniumScraper.get_selenium_driver env) as [[d |] | e].
    - exists (Some d), [EvDriverStarted]. subst w0. unfold bind, emit, ret.
      cbn [w_table w_log]. rewrite <- app_assoc. split; [done | split].
      + by repeat constructor.
      + apply not_elem_of_cons. split; [done | apply not_elem_of_nil].
    - exists None, []. subst w0. unfold ret. split; [done | split].
      + constructor.
      + apply not_elem_of_nil.
    - exists None, []. subst w0. unfold raise, ret. split; [done | split].
      + constructor.
      + apply not_elem_of_nil. }
  destruct Hd as (d & evs1 & Hd & Hq1 & Hnq1).
  unfold bind at 1. rewrite Hd. unfold bind at 1, run_steps at 1.
  assert (Hs : exists o evs2,
             Pipeline.scrape_all_jobs adapters d
               (ResumeParser.create_search_query kw "unjobs")
               (ResumeParser.create_search_query kw "wellfound")
               (mkWorld (w_table w) (w_log w ++ EvSetupDatabase :: evs1))
             = (o, mkWorld (w_table w)
                     (w_log w ++ EvSetupDatabase :: evs1 ++ evs2))
             /\ Forall quiet evs2 /\ (EvDriverQuit ∉ evs2)
             /\ ((exists web, adapters = scraped_adapters env web) ->
                 exists jobs, o = Returned jobs)).
  { destruct (quiet_step
                (Pipeline.scrape_all_jobs adapters d
                   (ResumeParser.create_search_query kw "unjobs")
                   (ResumeParser.create_search_query kw "wellfound"))
                (mkWorld (w_table w) (w_log w ++ EvSetupDatabase :: evs1)))
      as (evs2 & Hw & Hq2); [by apply footprint_scrape_all_jobs |].
    assert (Hnq2 : EvDriverQuit ∉ evs2).
    { pose proof (@footprint_scrape_all_jobs (fun ev => ev <> EvDriverQuit)
                    no_row adapters d
                    (ResumeParser.create_search_query kw "unjobs")
                    (ResumeParser.create_search_query kw "wellfound")
                    (fun source => ltac:(discriminate))
                    (mkWorld (w_table w) (w_log w ++ EvSetupDatabase :: evs1)))
        as (evs' & rows & Hlog & _ & Hne & _).
      rewrite Hw in Hlog. cbn [w_log] in Hlog.
      apply app_inv_head in Hlog. subst evs'.
      rewrite Forall_forall in Hne. intros Hin. by apply (Hne _ Hin). }
    exists (Pipeline.scrape_all_jobs adapters d
              (ResumeParser.create_search_query kw "unjobs")
              (ResumeParser.create_search_query kw "wellfound")
              (mkWorld (w_table w) (w_log w ++ EvSetupDatabase :: evs1))).1, evs2.
    split; [| split; [done | split; [done |]]].
    - destruct (Pipeline.scrape_all_jobs _ _ _ _ _) as [o w1].
      cbn [fst snd w_table w_log] in *. subst w1.
      f_equal. f_equal. by rewrite <- app_assoc.
    - intros [web ->]. eexists. reflexivity. }
  destruct Hs as (o & evs2 & Hscrape & Hq2 & Hnq2 & Hret).
  unfold bind at 1. rewrite Hscrape.
  assert (Hevs : Forall quiet (EvSetupDatabase :: evs1 ++ evs2)
                 /\ (EvDriverQuit ∉ EvSetupDatabase :: evs1 ++ evs2)).
  { split.
    - constructor; [done | by apply Forall_app].
    - apply not_elem_of_cons. split; [done |].
      intros Hin. apply elem_of_app in Hin as [Hin | Hin]; done. }
  destruct Hevs as [Hq Hnq].
  destruct o as [jobs | e].
  - unfold bind at 1, Pipeline.time_sleep at 1.
    assert (Hneg : (SCRAPING_DELAY_SECONDS cfg <? 0) = true) by (apply Z.ltb_lt; lia).
    rewrite Hneg. cbn [raise].
    exists ValueError, (EvSetupDatabase :: evs1 ++ evs2)%list.
    split; [done | split; [done | split; [done | done]]].
  - exists e, (EvSetupDatabase :: evs1 ++ evs2)%list.
    split; [done | split; [done | split; [done |]]].
    intros Hweb. destruct (Hret Hweb) as [jobs Hjobs]. discriminate Hjobs.
Qed.

Lemma negative_delay_stops_the_run_witness :
  (Pipeline.main negative_delay sample_env (scraped_adapters sample_env sample_web)
     known_world).1 = Raised ValueError.
Proof.
  assert (Hdelay : SCRAPING_DELAY_SECONDS negative_delay < 0) by (simpl; lia).
  refine (proj2 (proj2 (proj2
            (negative_delay_stops_the_run negative_delay sample_env
               (scraped_adapters sample_env sample_web) known_world _
               Hdelay eq_refl))) _).
  by exists sample_web.
Defined.

(** X25. Without a readable resume the run does nothing: when the file
    is missing, or the extraction of its text raises, [main] returns
    after setting up the database; no driver is started, no source is
    asked and the table is left as it was. *)
Theorem unreadable_resume_ends_the_run (cfg : Config) (env : Env)
    (adapters : AdapterRuns) (w : World)
    (Hresume : env_resume_exists env (RESUME_PATH cfg) = false
               \/ exists e, env_extract_text env (RESUME_PATH cfg) = Raised e) :
  Pipeline.main cfg env adapters w
  = (Returned tt, mkWorld (w_table w) (w_log w ++ [EvSetupDatabase])).
Proof.
  assert (Hnone : ResumeParser.parse_resume_keywords env (RESUME_PATH cfg) = None).
  { unfold ResumeParser.parse_resume_keywords.
    destruct Hresume as [-> | [e ->]]; [done |].
    by destruct (negb (env_resume_exists env (RESUME_PATH cfg))). }
  rewrite main_steps, Hnone. reflexivity.
Qed.

Lemma unreadable_resume_ends_the_run_witness :
  Pipeline.main sample_config no_resume all_up known_world
  = (Returned tt, mkWorld (w_table known_world)
                    (w_log known_world ++ [EvSetupDatabase])).
Proof.
  apply (unreadable_resume_ends_the_run sample_config no_resume all_up known_world).
  left. reflexivity.
Defined.

(** X26. A browser that cannot be started does not stop the run: when
    the creation of the driver raises, whatever the exception, [main]
    goes on: it runs the steps of a run on the same store with no
    driver, which is what the adapters are handed, and neither starts nor
    releases one. *)
Theorem run_goes_on_without_a_driver (cfg : Config) (env : Env)
    (adapters : AdapterRuns) (w : World) (kw : Keywords) (e : Exn)
    (Hparse : ResumeParser.parse_resume_keywords env (RESUME_PATH cfg) = Some kw)
    (Hchrome : env_chrome env = Raised e) :
  Pipeline.main cfg env adapters w
  = run_steps cfg env adapters (DbManager.get_all_job_urls (w_table w)) kw None
      (mkWorld (w_table w) (w_log w ++ [EvSetupDatabase]))
  /\ exists evs,
       w_log (Pipeline.main cfg env adapters w).2 = (w_log w ++ evs)%list
       /\ (EvDriverStarted ∉ evs) /\ (EvDriverQuit ∉ evs).
Proof.
  assert (Heq : Pipeline.main cfg env adapters w
                = run_steps cfg env adapters
                    (DbManager.get_all_job_urls (w_table w)) kw None
                    (mkWorld (w_table w) (w_log w ++ [EvSetupDatabase]))).
  { rewrite main_steps, Hparse.
    unfold bind at 1, emit at 1.
    unfold bind at 1, Pipeline.get_all_job_urls at 1. cbn [w_table w_log].
    unfold bind at 1, try_except, Pipeline.get_selenium_driver,
      SeleniumScraper.get_selenium_driver.
    rewrite Hchrome.
    destruct (is_webdriver_exception e); unfold ret, raise; cbn [release_driver];
      unfold bind;
      destruct (run_steps cfg env adapters _ kw None _) as [[[] | e'] w1];
      reflexivity. }
  split; [exact Heq |]. rewrite Heq.
  set (w0 := mkWorld (w_table w) (w_log w ++ [EvSetupDatabase])).
  destruct (footprint_run_steps cfg env
              (DbManager.get_all_job_urls (w_table w)) adapters kw None w0)
    as (evs & rows & Hlog & _ & Hevs & _).
  exists (EvSetupDatabase :: evs). rewrite Hlog. subst w0. cbn [w_log].
  rewrite <- app_assoc. split; [done |]. rewrite Forall_forall in Hevs.
  split.
  - apply not_elem_of_cons. split; [done |]. intros Hin. apply (Hevs _ Hin).
  - apply not_elem_of_cons. split; [done |]. intros Hin. apply (Hevs _ Hin).
Qed.

Lemma run_goes_on_without_a_driver_witness :
  Pipeline.main sample_config no_browser all_up known_world
  = run_steps sample_config no_browser all_up
      (DbManager.get_all_job_urls (w_table known_world)) example_keywords None
      (mkWorld (w_table known_world) (w_log known_world ++ [EvSetupDatabase])).
Proof.
  exact (proj1 (run_goes_on_without_a_driver sample_config no_browser all_up
                  known_world example_keywords OtherException eq_refl eq_refl)).
Defined.

(** ** The digest mail *)

Section DigestFacts.

Lemma add_jobs_extends (body : string) (new_jobs : list DbQueries.JobDict) :
  exists post, NotificationManager.add_jobs body new_jobs = body ++ post.
Proof.
  revert body. induction new_jobs as [|job new_jobs IH]; intros body.
  - exists "". simpl. destruct (occurs_in_refl body) as (pre & post & H).
    clear H. induction body as [|c body IHb]; simpl; [done | by f_equal].
  - destruct (IH (body ++ NotificationManager.job_lines job)) as [post Hpost].
    exists (NotificationManager.job_lines job ++ post).
    change (NotificationManager.add_jobs body (job :: new_jobs))
      with (NotificationManager.add_jobs
              (body ++ NotificationManager.job_lines job) new_jobs).
    by rewrite Hpost, string_app_assoc.
Qed.

Lemma add_jobs_has (body : string) (new_jobs : list DbQueries.JobDict)
    (job : DbQueries.JobDict) :
  job ∈ new_jobs ->
  occurs_in (NotificationManager.job_lines job)
    (NotificationManager.add_jobs body new_jobs).
Proof.
  revert body. induction new_jobs as [|first new_jobs IH]; intros body Hin.
  - by apply elem_of_nil in Hin.
  - change (NotificationManager.add_jobs body (first :: new_jobs))
      with (NotificationManager.add_jobs
              (body ++ NotificationManager.job_lines first) new_jobs).
    apply elem_of_cons in Hin as [-> | Hin]; [| by apply IH].
    destruct (add_jobs_extends (body ++ NotificationManager.job_lines first)
                new_jobs) as [post ->].
    exists body, post. by rewrite string_app_assoc.
Qed.

Lemma is_set_Some (setting : option string) :
  NotificationManager.is_set setting = true ->
  exists s, setting = Some s /\ s <> "".
Proof.
  destruct setting as [s |]; [| done]. simpl. intros H. exists s. split; [done |].
  intros ->. done.
Qed.

End DigestFacts.

(** X27. When the digest function builds a message, the list of jobs is
    not empty, the three mail settings are set and not empty, the
    message goes from the configured sender to the configured recipient,
    its subject gives the number of jobs, and its body holds the block of
    lines of every job of the list. *)
Theorem digest_lists_every_job (mail : NotificationManager.MailConfig)
    (new_jobs_raw : list (Z * ScoredJob)) (m : NotificationManager.Message)
    (Hbuilt : NotificationManager.send_email_notification mail new_jobs_raw = Some m) :
  new_jobs_raw <> []
  /\ (NotificationManager.EMAIL_SENDER mail = Some (NotificationManager.msg_from m)
      /\ NotificationManager.msg_from m <> "")
  /\ (NotificationManager.EMAIL_RECIPIENT mail = Some (NotificationManager.msg_to m)
      /\ NotificationManager.msg_to m <> "")
  /\ (exists password,
        NotificationManager.EMAIL_PASSWORD mail = Some password /\ password <> "")
  /\ NotificationManager.msg_subject m
     = "New Job Listings Found! (" ++ pretty (List.length new_jobs_raw) ++ " jobs)"
  /\ forall job, job ∈ new_jobs_raw ->
       occurs_in (NotificationManager.job_lines (DbQueries.job_data_to_dict job))
         (NotificationManager.msg_body m).
Proof.
  unfold NotificationManager.send_email_notification in Hbuilt.
  destruct new_jobs_raw as [|first rest]; [done |].
  remember (first :: rest) as jobs eqn:Hjobs.
  destruct (NotificationManager.is_set (NotificationManager.EMAIL_SENDER mail))
    eqn:Hsender; [| done].
  destruct (NotificationManager.is_set (NotificationManager.EMAIL_PASSWORD mail))
    eqn:Hpassword; [| done].
  destruct (NotificationManager.is_set (NotificationManager.EMAIL_RECIPIENT mail))
    eqn:Hrecipient; [| done].
  cbn [andb negb] in Hbuilt. injection Hbuilt as <-.
  cbn [NotificationManager.msg_from NotificationManager.msg_to
       NotificationManager.msg_subject NotificationManager.msg_body].
  apply is_set_Some in Hsender as (s & Hs & Hs').
  apply is_set_Some in Hpassword as (p & Hp & Hp').
  apply is_set_Some in Hrecipient as (r & Hr & Hr').
  rewrite Hs, Hr. cbn [default from_option id].
  split; [by rewrite Hjobs |].
  split; [done | split; [done | split; [by exists p | split]]].
  - by rewrite length_map.
  - intros job Hjob. apply occurs_in_app_l, add_jobs_has.
    by apply list_elem_of_fmap_2.
Qed.

Lemma digest_lists_every_job_witness :
  exists m,
    NotificationManager.send_email_notification sample_mail
      [(1, known_row); (2, other_row)] = Some m
    /\ occurs_in
         (NotificationManager.job_lines (DbQueries.job_data_to_dict (2, other_row)))
         (NotificationManager.msg_body m).
Proof.
  eexists. split; [reflexivity |].
  refine (proj2 (proj2 (proj2 (proj2 (proj2
            (digest_lists_every_job sample_mail [(1, known_row); (2, other_row)]
               _ eq_refl))))) (2, other_row) _).
  apply elem_of_cons. right. apply elem_of_cons. by left.
Defined.

(** The subject and the first lines of the body of a digest of one job. *)
Example sample_digest :
  option_map NotificationManager.msg_subject
    (NotificationManager.send_email_notification sample_mail [(1, known_row)])
  = Some "New Job Listings Found! (1 jobs)".
Proof. vm_compute. reflexivity. Qed.
